(** * inven-bill-suite: numbering, stock ledger, document totals, customer rollup

    A shallow embedding of the parts of the application that carry
    invariants: the PL/pgSQL sequence generators and the customer-totals
    trigger of the migrations, and the client hooks and forms that write
    documents and stock movements through the hosted database client. *)

From Stdlib Require Import ZArith Ascii String Floats.
From stdpp Require Import base option list strings pretty gmap sorting.

Local Open Scope Z_scope.

(** ** Errors and results *)

(** What a database statement or a client call can fail with.  The SQL
    ones are named after their SQLSTATE condition. *)
Inductive error :=
  | ambiguous_column (name : string)      (* 42702, raised by PL/pgSQL *)
  | numeric_value_out_of_range            (* 22003 *)
  | invalid_text_representation           (* 22P02 *)
  | unique_violation                      (* 23505 *)
  | foreign_key_violation                 (* 23503 *)
  | no_rows_returned                      (* PGRST116, from [.single()] *)
  | request_failed.                       (* transport, session or policy *)

Inductive result (A : Type) :=
  | Ok (a : A)
  | Err (e : error).
Arguments Ok {A} a.
Arguments Err {A} e.

(** [result] is the error monad; [x ← r; k] is stdpp's bind notation. *)
#[global] Instance result_ret : MRet result := fun _ a => Ok a.
#[global] Instance result_bind : MBind result := fun _ _ k r =>
  match r with
  | Ok a => k a
  | Err e => Err e
  end.

(** ** SQL text and integer primitives *)

Module Sql.

(** [TEXT] values are strings; a nullable expression is an [option]. *)
Abbreviation text := string.

Definition int4_max : Z := 2147483647.
Definition int4_min : Z := -2147483648.

Definition in_int4 (z : Z) : bool := (int4_min <=? z) && (z <=? int4_max).

(** [a + b] on [INTEGER] operands: out of range is an error, not a wrap. *)
Definition int4_add (a b : Z) : result Z :=
  if in_int4 (a + b) then Ok (a + b) else Err numeric_value_out_of_range.

(** The bracket expression [[0-9]] (and [\d] on ASCII text). *)
Definition is_digit (c : ascii) : bool :=
  match Ascii.is_nat c with Some _ => true | None => false end.

Definition digit_value (c : ascii) : Z :=
  match Ascii.is_nat c with Some d => Z.of_nat d | None => 0 end.

Fixpoint all_digits (s : text) : bool :=
  match s with
  | EmptyString => true
  | String c s' => is_digit c && all_digits s'
  end.

(** [[0-9]+] anchored at both ends. *)
Definition digits1 (s : text) : bool :=
  match s with
  | EmptyString => false
  | String _ _ => all_digits s
  end.

Fixpoint strip_prefix (p s : text) : option text :=
  match p, s with
  | EmptyString, _ => Some s
  | String a p', String b s' =>
      if bool_decide (a = b) then strip_prefix p' s' else None
  | String _ _, EmptyString => None
  end.

(** [s ~ '^<prefix>[0-9]+$']: the whole string is the prefix followed by
    one or more digits. *)
Definition matches_numbered (prefix s : text) : bool :=
  match strip_prefix prefix s with
  | Some rest => digits1 rest
  | None => false
  end.

(** [SUBSTRING(s FROM n)]: the characters from position [n], counted
    from 1. *)
Fixpoint drop (n : nat) (s : text) : text :=
  match n, s with
  | O, _ => s
  | S n', String _ s' => drop n' s'
  | S _, EmptyString => EmptyString
  end.

Definition substring_from (s : text) (n : nat) : text := drop (n - 1) s.

Fixpoint take_digits (s : text) : text :=
  match s with
  | EmptyString => EmptyString
  | String c s' => if is_digit c then String c (take_digits s') else EmptyString
  end.

(** [SUBSTRING(s FROM '<prefix>(\d+)')]: the first place where the
    prefix is followed by a digit, and there the longest run of digits
    (the parenthesised part); NULL when there is no such place. *)
Fixpoint substring_capture (prefix s : text) : option text :=
  let here :=
    match strip_prefix prefix s with
    | Some rest =>
        match take_digits rest with
        | EmptyString => None
        | ds => Some ds
        end
    | None => None
    end in
  match here, s with
  | Some ds, _ => Some ds
  | None, String _ s' => substring_capture prefix s'
  | None, EmptyString => None
  end.

Fixpoint digits_value (acc : Z) (s : text) : Z :=
  match s with
  | EmptyString => acc
  | String c s' => digits_value (10 * acc + digit_value c) s'
  end.

(** [CAST(s AS INTEGER)] on an unsigned digit string (the only shape the
    generators' WHERE clause lets through); anything else is refused. *)
Definition cast_integer (s : text) : result Z :=
  if digits1 s then
    let v := digits_value 0 s in
    if in_int4 v then Ok v else Err numeric_value_out_of_range
  else Err invalid_text_representation.

(** [n::TEXT]. *)
Definition integer_text (n : Z) : text := pretty n.

Fixpoint take (n : nat) (s : text) : text :=
  match n, s with
  | O, _ => EmptyString
  | S n', String c s' => String c (take n' s')
  | S _, EmptyString => EmptyString
  end.

Fixpoint replicate (n : nat) (c : ascii) : text :=
  match n with
  | O => EmptyString
  | S n' => String c (replicate n' c)
  end.

(** [LPAD(s, len, fill)] with a one-character fill: pads on the left up
    to [len] characters; a string already longer than [len] is cut to
    its first [len] characters. *)
Definition lpad (s : text) (len : nat) (fill : ascii) : text :=
  if (len <=? String.length s)%nat then take len s
  else (replicate (len - String.length s) fill +:+ s).

(** [MAX] over a column of integers: NULL on no rows. *)
Definition max_agg (l : list Z) : option Z :=
  foldr (fun x acc => Some (from_option (Z.max x) x acc)) None l.

Definition coalesce {A} (o : option A) (d : A) : A := from_option id d o.

Fixpoint mapM {A B} (f : A -> result B) (l : list A) : result (list B) :=
  match l with
  | [] => Ok []
  | x :: l' => y ← f x; ys ← mapM f l'; Ok (y :: ys)
  end.

End Sql.

(** ** Sequence generator (PL/pgSQL functions of the migrations) *)

Module SequenceGenerator.
Import Sql.

(** The setting [plpgsql.variable_conflict]: what PL/pgSQL does with a
    name inside an SQL statement that is both a declared variable of
    the function and a column of a table in the statement.  The
    server's default, and the one in force for these functions (none
    carries a [#variable_conflict] directive), is [conflict_error]. *)
Inductive variable_conflict :=
  | conflict_error
  | use_variable
  | use_column.

Inductive binding :=
  | to_column
  | to_variable.

Definition resolve (vc : variable_conflict) (variables columns : list string)
    (name : string) : result binding :=
  if bool_decide (name ∈ variables) then
    if bool_decide (name ∈ columns) then
      match vc with
      | conflict_error => Err (ambiguous_column name)
      | use_variable => Ok to_variable
      | use_column => Ok to_column
      end
    else Ok to_variable
  else Ok to_column.

(** What an unqualified reference yields on a row: the row's column, or
    the variable, which is still NULL when the SELECT runs. *)
Definition reference (b : binding) (row : text) : option text :=
  match b with
  | to_column => Some row
  | to_variable => None
  end.

(** The rows that pass [WHERE ref ~ pattern] (a NULL operand gives NULL,
    which does not pass). *)
Definition where_matches (pattern : text -> bool) (refs : list (option text))
    : list text :=
  omap (fun v => s ← v; if pattern s then Some s else None) refs.

(** [SELECT COALESCE(MAX(CAST(<extract> AS INTEGER)), 0) + 1
     FROM <table> WHERE <ref> ~ <pattern>]. *)
Definition select_next_number (pattern : text -> bool)
    (extract : text -> option text) (refs : list (option text)) : result Z :=
  nums ← mapM (fun s =>
                 match extract s with
                 | Some d => n ← cast_integer d; Ok (Some n)
                 | None => Ok None
                 end) (where_matches pattern refs);
  int4_add (coalesce (max_agg (omap id nums)) 0) 1.

Definition invoices_columns : list string :=
  ["id"; "invoice_number"; "customer_id"; "customer_name"; "customer_email";
   "customer_address"; "issue_date"; "due_date"; "subtotal"; "tax_rate";
   "tax_amount"; "discount_amount"; "total_amount"; "paid_amount"; "status";
   "notes"; "terms"; "created_by"; "created_at"; "updated_at"].

Definition sales_orders_columns : list string :=
  ["id"; "order_number"; "customer_id"; "customer_name"; "order_date";
   "expected_delivery_date"; "subtotal"; "tax_amount"; "total_amount";
   "status"; "shipping_address"; "notes"; "created_by"; "created_at";
   "updated_at"].

Definition payments_columns : list string :=
  ["id"; "payment_number"; "invoice_id"; "customer_id"; "amount";
   "payment_method"; "payment_date"; "status"; "transaction_id"; "notes";
   "created_by"; "created_at"; "updated_at"].

(** [generate_invoice_number()]; [invoices] is the [invoice_number]
    column of [public.invoices].  The function declares a variable
    [invoice_number] and its SELECT names [invoice_number] unqualified. *)
Definition generate_invoice_number (vc : variable_conflict)
    (invoices : list text) : result text :=
  b ← resolve vc ["next_number"; "invoice_number"] invoices_columns
        "invoice_number";
  next_number ← select_next_number (matches_numbered "INV-")
                  (fun s => Some (substring_from s 5))
                  (reference b <$> invoices);
  Ok ("INV-" +:+ lpad (integer_text next_number) 3 "0").

(** [generate_order_number()], over [sales_orders.order_number]. *)
Definition generate_order_number (vc : variable_conflict)
    (sales_orders : list text) : result text :=
  b ← resolve vc ["next_number"; "order_number"] sales_orders_columns
        "order_number";
  next_number ← select_next_number (matches_numbered "ORD-")
                  (fun s => Some (substring_from s 5))
                  (reference b <$> sales_orders);
  Ok ("ORD-" +:+ lpad (integer_text next_number) 3 "0").

(** [generate_payment_number()], over [payments.payment_number]. *)
Definition generate_payment_number (vc : variable_conflict)
    (payments : list text) : result text :=
  b ← resolve vc ["next_number"; "payment_number"] payments_columns
        "payment_number";
  next_number ← select_next_number (matches_numbered "PAY-")
                  (fun s => Some (substring_from s 5))
                  (reference b <$> payments);
  Ok ("PAY-" +:+ lpad (integer_text next_number) 3 "0").

(** [generate_po_number()] as the last migration leaves it: the variable
    is [v_po_number] and the column is written [po.po_number], so no
    name is in conflict. *)
Definition generate_po_number (purchase_orders : list text) : result text :=
  next_number ← select_next_number (matches_numbered "PO-")
                  (substring_capture "PO-")
                  (Some <$> purchase_orders);
  Ok ("PO-" +:+ lpad (integer_text next_number) 6 "0").

(** Persisting a document that carries the number: the number columns
    are [TEXT UNIQUE NOT NULL]. *)
Definition persist (number : text) (store : list text) : result (list text) :=
  if bool_decide (number ∈ store) then Err unique_violation
  else Ok (store ++ [number]).

(** [n] identifiers generated one after the other, each persisted before
    the next is generated. *)
Fixpoint generate_sequentially (gen : list text -> result text) (n : nat)
    (store : list text) : result (list text) :=
  match n with
  | O => Ok []
  | S n' =>
      number ← gen store;
      match n' with
      | O => Ok [number]
      | S _ =>
          store' ← persist number store;
          rest ← generate_sequentially gen n' store';
          Ok (number :: rest)
      end
  end.

(** *** The generator as the specification words it *)

(** The numeric suffix of an identifier that matches [^<prefix>\d+$]. *)
Definition suffix_of (prefix s : text) : option Z :=
  d ← strip_prefix prefix s;
  if digits1 d then Some (digits_value 0 d) else None.

Definition suffixes (prefix : text) (store : list text) : list Z :=
  omap (suffix_of prefix) store.

(** The highest suffix in the store, 0 when no identifier matches. *)
Definition highest (prefix : text) (store : list text) : Z :=
  coalesce (max_agg (suffixes prefix store)) 0.

(** [n] zero-padded to [width] digits: zeros are added on the left of a
    shorter number and nothing is removed from a longer one. *)
Definition zero_padded (width : nat) (n : Z) : text :=
  replicate (width - String.length (pretty n)) "0" +:+ pretty n.

(** "[P-<m+1 zero-padded to W>], where [m] is the maximum numeric suffix
    among the matching identifiers; [P-<1 zero-padded to W>] when there
    is none". *)
Definition spec_next (prefix : text) (width : nat) (store : list text) : text :=
  match max_agg (suffixes prefix store) with
  | Some m => prefix +:+ zero_padded width (m + 1)
  | None => prefix +:+ zero_padded width 1
  end.

(** The identifiers numbered [m+1], ..., [m+n]. *)
Fixpoint numbered_from (prefix : text) (width : nat) (m : Z) (n : nat) : list text :=
  match n with
  | O => []
  | S n' => (prefix +:+ zero_padded width (m + 1))
            :: numbered_from prefix width (m + 1) n'
  end.

End SequenceGenerator.

(** ** Persisted data *)

(** Row identifiers ([UUID] columns, strings in the client). *)
Abbreviation uuid := string.

(** [DECIMAL(p,2)] and [NUMERIC(p,2)] amounts, counted in hundredths. *)
Abbreviation cents := Z.

(** [DATE] values, as day numbers. *)
Abbreviation date := Z.

Inductive invoice_status := inv_draft | inv_sent | inv_paid | inv_overdue | inv_cancelled.
Inductive order_status :=
  | ord_draft | ord_pending | ord_confirmed | ord_shipped | ord_delivered | ord_cancelled.
Inductive po_status := po_draft | po_sent | po_received | po_cancelled.
Inductive movement_type := purchase | sale | adjustment | return_ | transfer.

#[global] Instance invoice_status_eq_dec : EqDecision invoice_status.
Proof. solve_decision. Defined.
#[global] Instance movement_type_eq_dec : EqDecision movement_type.
Proof. solve_decision. Defined.

(** [public.products]: the columns the ledger reads and writes. *)
Record product := Product {
  name : string;
  sku : string;
  stock : option Z;                 (* INTEGER DEFAULT 0, nullable *)
}.

(** [public.stock_movements], without the generated [id] (the key of the
    table) and [created_at]. *)
Record stock_movement := StockMovement {
  product_id : uuid;
  product_name : string;
  product_sku : option string;
  movement_type_of : movement_type;
  quantity_change : Z;
  stock_before : Z;
  stock_after : Z;
  reason : option string;
  reference_id : option uuid;
  reference_type : option string;
  movement_date : string;
  created_by : option uuid;
}.

(** [public.customers]: the cached aggregates. *)
Record customer := Customer {
  customer_display_name : string;
  total_orders : option Z;          (* INTEGER DEFAULT 0 *)
  total_spent : option cents;       (* DECIMAL(10,2) DEFAULT 0 *)
  last_order_date : option date;    (* TIMESTAMP WITH TIME ZONE *)
}.

(** [public.invoices]: the header columns the hooks and the trigger use. *)
Record invoice := Invoice {
  invoice_number : string;          (* TEXT UNIQUE NOT NULL *)
  customer_id : uuid;               (* REFERENCES customers(id) NOT NULL *)
  customer_name : string;
  issue_date : option date;         (* DATE DEFAULT CURRENT_DATE *)
  total_amount : option cents;      (* DECIMAL(12,2) DEFAULT 0 *)
  status : option invoice_status;   (* invoice_status DEFAULT 'draft' *)
}.

(** A line of a document, as the hooks receive it
    ([Omit<InvoiceItem, 'id' | 'invoice_id'>]; the forms hand over the
    same six fields for order lines, named [unit_cost] and [total_cost]
    on a purchase order).  Amounts are taken as the decimal the column
    stores. *)
Record line_item := LineItem {
  item_product_id : option uuid;
  item_product_name : string;
  item_product_sku : option string;
  quantity : Z;
  unit_price : cents;
  total_price : cents;
}.

(** A persisted line: the item with the foreign key the hook adds
    ([{...item, invoice_id: id}]). *)
Record item_row := ItemRow {
  parent_id : uuid;
  item : line_item;
}.

Record sales_order := SalesOrder {
  order_number : string;            (* TEXT UNIQUE NOT NULL *)
  so_customer_id : uuid;
  so_status : order_status;
  so_subtotal : cents;
  so_tax_amount : cents;
  so_total_amount : cents;
}.

Record purchase_order := PurchaseOrder {
  po_number : string;               (* TEXT NOT NULL UNIQUE *)
  vendor_name : string;
  po_status_of : po_status;
  po_subtotal : cents;
  po_tax_rate : cents;
  po_tax_amount : cents;
  po_total_amount : cents;
}.

Record database := Database {
  products : gmap uuid product;
  stock_movements : gmap uuid stock_movement;
  customers : gmap uuid customer;
  invoices : gmap uuid invoice;
  invoice_items : list item_row;
  sales_orders : gmap uuid sales_order;
  sales_order_items : list item_row;
  purchase_orders : gmap uuid purchase_order;
  purchase_order_items : list item_row;
}.

Definition set_products v d :=
  Database v (stock_movements d) (customers d) (invoices d) (invoice_items d)
    (sales_orders d) (sales_order_items d) (purchase_orders d) (purchase_order_items d).
Definition set_stock_movements v d :=
  Database (products d) v (customers d) (invoices d) (invoice_items d)
    (sales_orders d) (sales_order_items d) (purchase_orders d) (purchase_order_items d).
Definition set_customers v d :=
  Database (products d) (stock_movements d) v (invoices d) (invoice_items d)
    (sales_orders d) (sales_order_items d) (purchase_orders d) (purchase_order_items d).
Definition set_invoices v d :=
  Database (products d) (stock_movements d) (customers d) v (invoice_items d)
    (sales_orders d) (sales_order_items d) (purchase_orders d) (purchase_order_items d).
Definition set_invoice_items v d :=
  Database (products d) (stock_movements d) (customers d) (invoices d) v
    (sales_orders d) (sales_order_items d) (purchase_orders d) (purchase_order_items d).
Definition set_sales_orders v d :=
  Database (products d) (stock_movements d) (customers d) (invoices d) (invoice_items d)
    v (sales_order_items d) (purchase_orders d) (purchase_order_items d).
Definition set_sales_order_items v d :=
  Database (products d) (stock_movements d) (customers d) (invoices d) (invoice_items d)
    (sales_orders d) v (purchase_orders d) (purchase_order_items d).
Definition set_purchase_orders v d :=
  Database (products d) (stock_movements d) (customers d) (invoices d) (invoice_items d)
    (sales_orders d) (sales_order_items d) v (purchase_order_items d).
Definition set_purchase_order_items v d :=
  Database (products d) (stock_movements d) (customers d) (invoices d) (invoice_items d)
    (sales_orders d) (sales_order_items d) (purchase_orders d) v.

(** The rows of an items table that belong to one document. *)
Definition items_of (id : uuid) (rows : list item_row) : list line_item :=
  item <$> List.filter (fun r => bool_decide (parent_id r = id)) rows.

(** [DELETE FROM <items> WHERE <parent> = id]. *)
Definition delete_items (id : uuid) (rows : list item_row) : list item_row :=
  List.filter (fun r => negb (bool_decide (parent_id r = id))) rows.

(** ** The database client *)

(** Whether a request reached the database and was let through (network,
    session, row-level policy), or came back with an error object. *)
Inductive outcome := served | refused.

(** What a hook runs against: the database, the signed-in user, the
    wall clock, and how the coming requests fare, in order (requests
    beyond the end of the script are served). *)
Record world := World {
  db : database;
  session_user : option uuid;
  clock : string;
  script : list outcome;
}.

(** Hooks are [async] functions: they run in a world, change it, and
    either return or throw. *)
Definition io (A : Type) : Type := world -> result A * world.

#[global] Instance io_ret : MRet io := fun _ a w => (Ok a, w).
#[global] Instance io_bind : MBind io := fun _ _ k m w =>
  match m w with
  | (Ok a, w') => k a w'
  | (Err e, w') => (Err e, w')
  end.

Definition throw {A} (e : error) : io A := fun w => (Err e, w).

(** [try { m } catch (err) { h err }]. *)
Definition try_catch {A} (m : io A) (h : error -> io A) : io A := fun w =>
  match m w with
  | (Ok a, w') => (Ok a, w')
  | (Err e, w') => h e w'
  end.

(** [if (error) throw error], on the [{ data, error }] a request resolves to. *)
Definition or_throw {A} (response : result A) : io A :=
  match response with
  | Ok a => mret a
  | Err e => throw e
  end.

(** One awaited request.  It never throws: it resolves to [{ data, error }].
    A statement that the database refuses leaves the database as it was. *)
Definition request {A} (statement : database -> result (A * database))
    : io (result A) := fun w =>
  let rest := tail (script w) in
  match head (script w) with
  | Some refused =>
      (Ok (Err request_failed), World (db w) (session_user w) (clock w) rest)
  | _ =>
      match statement (db w) with
      | Ok (a, d) => (Ok (Ok a), World d (session_user w) (clock w) rest)
      | Err e => (Ok (Err e), World (db w) (session_user w) (clock w) rest)
      end
  end.

(** Whether the next entry of a script refuses its request. *)
Definition refuses (o : option outcome) : bool :=
  match o with Some refused => true | _ => false end.

(** [supabase.auth.getUser()], read as [user?.id]. *)
Definition getUser : io (option uuid) := fun w => (Ok (session_user w), w).

(** [new Date().toISOString()]. *)
Definition now : io string := fun w => (Ok (clock w), w).

(** ** Stock ledger ([useStockMovements]) *)

Module StockLedger.
Import Sql.

(** [INSERT INTO stock_movements ... RETURNING *] *)
Definition insert_stock_movement (m : stock_movement) (d : database)
    : result ((uuid * stock_movement) * database) :=
  if negb (in_int4 (quantity_change m) && in_int4 (stock_before m)
           && in_int4 (stock_after m))
  then Err numeric_value_out_of_range
  else if negb (bool_decide (is_Some (products d !! product_id m)))
  then Err foreign_key_violation
  else
    let id := fresh (dom (stock_movements d)) in
    Ok ((id, m), set_stock_movements (<[id := m]> (stock_movements d)) d).

(** [UPDATE products SET stock = v WHERE id = pid] *)
Definition update_product_stock (pid : uuid) (v : Z) (d : database)
    : result (unit * database) :=
  if in_int4 v then
    Ok (tt, set_products
              (alter (fun p => Product (name p) (sku p) (Some v)) pid (products d)) d)
  else Err numeric_value_out_of_range.

(** [UPDATE stock_movements SET <updates> WHERE id = id]; the partial
    object is read as the change it makes to a row. *)
Definition update_stock_movement (id : uuid)
    (updates : stock_movement -> stock_movement) (d : database)
    : result (unit * database) :=
  match stock_movements d !! id with
  | None => Ok (tt, d)
  | Some old =>
      let m := updates old in
      if negb (in_int4 (quantity_change m) && in_int4 (stock_before m)
               && in_int4 (stock_after m))
      then Err numeric_value_out_of_range
      else if negb (bool_decide (is_Some (products d !! product_id m)))
      then Err foreign_key_violation
      else Ok (tt, set_stock_movements (<[id := m]> (stock_movements d)) d)
  end.

(** [DELETE FROM stock_movements WHERE id = id] *)
Definition delete_stock_movement (id : uuid) (d : database)
    : result (unit * database) :=
  Ok (tt, set_stock_movements (delete id (stock_movements d)) d).

(** [SELECT * FROM stock_movements ORDER BY movement_date DESC] *)
Definition select_stock_movements (d : database)
    : result (list (uuid * stock_movement) * database) :=
  Ok (map_to_list (stock_movements d), d).

(** The list a fetch returns goes into component state only; a failed
    fetch is reported and not rethrown. *)
Definition fetchStockMovements : io unit :=
  try_catch
    (response ← request select_stock_movements;
     _ ← or_throw response;
     mret tt)
    (fun _ => mret tt).

(** The row [createStockMovement] inserts: the caller's data with
    [created_by] set to the signed-in user. *)
Definition payload_of (w : world) (m : stock_movement) : stock_movement :=
  StockMovement (product_id m) (product_name m) (product_sku m)
    (movement_type_of m) (quantity_change m) (stock_before m) (stock_after m)
    (reason m) (reference_id m) (reference_type m) (movement_date m)
    (session_user w).

Definition createStockMovement (movementData : stock_movement)
    : io (uuid * stock_movement) :=
  try_catch
    (user ← getUser;
     let stockMovementPayload :=
       StockMovement (product_id movementData) (product_name movementData)
         (product_sku movementData) (movement_type_of movementData)
         (quantity_change movementData) (stock_before movementData)
         (stock_after movementData) (reason movementData)
         (reference_id movementData) (reference_type movementData)
         (movement_date movementData) user in
     inserted ← request (insert_stock_movement stockMovementPayload);
     newMovement ← or_throw inserted;
     (* Update product stock *)
     updated ← request (update_product_stock (product_id movementData)
                          (stock_after movementData));
     _ ← or_throw updated;
     _ ← fetchStockMovements;
     mret newMovement)
    (fun err => throw err).

Definition updateStockMovement (id : uuid)
    (updates : stock_movement -> stock_movement) : io unit :=
  try_catch
    (response ← request (update_stock_movement id updates);
     _ ← or_throw response;
     fetchStockMovements)
    (fun err => throw err).

Definition deleteStockMovement (id : uuid) : io unit :=
  try_catch
    (response ← request (delete_stock_movement id);
     _ ← or_throw response;
     fetchStockMovements)
    (fun err => throw err).

Definition createStockAdjustment (productId : uuid) (productName : string)
    (productSku : option string) (currentStock newStock : Z)
    (reason : string) : io unit :=
  let quantityChange := newStock - currentStock in
  today ← now;
  _ ← createStockMovement
        (StockMovement productId productName productSku adjustment
           quantityChange currentStock newStock (Some reason) None None
           today None);
  mret tt.

End StockLedger.

(** ** Invoices in the database, and the customer-totals trigger *)

Module CustomerRollup.
Import Sql.

(** A [DECIMAL(p,2)] column holds at most [p] digits in all. *)
Definition in_numeric (p : Z) (v : cents) : bool := Z.abs v <? 10 ^ p.

(** [SUM] over a nullable column: NULLs are skipped, NULL on no value. *)
Definition sum_agg (l : list (option Z)) : option Z :=
  match omap id l with
  | [] => None
  | vs => Some (foldr Z.add 0 vs)
  end.

(** [status = 'paid'] (not so for a NULL status). *)
Definition is_paid (i : invoice) : Prop := status i = Some inv_paid.

#[global] Instance is_paid_dec i : Decision (is_paid i).
Proof. unfold is_paid. apply _. Defined.

(** [FROM public.invoices WHERE customer_id = cid] *)
Definition customer_invoices (cid : uuid) (m : gmap uuid invoice) : list invoice :=
  filter (fun i => customer_id i = cid) (snd <$> map_to_list m).

Definition invoices_of (cid : uuid) (d : database) : list invoice :=
  customer_invoices cid (invoices d).

(** The three subqueries of the trigger's [SET] list. *)
Definition count_paid (cid : uuid) (d : database) : Z :=
  Z.of_nat (length (filter is_paid (invoices_of cid d))).

Definition sum_paid (cid : uuid) (d : database) : cents :=
  coalesce (sum_agg (total_amount <$> filter is_paid (invoices_of cid d))) 0.

Definition max_issue_date (cid : uuid) (d : database) : option date :=
  max_agg (omap issue_date (invoices_of cid d)).

(** [UPDATE public.customers SET total_orders = (...), total_spent = (...),
    last_order_date = (...) WHERE id = cid] *)
Definition recompute_totals (cid : uuid) (d : database) : result database :=
  match customers d !! cid with
  | None => Ok d
  | Some c =>
      if negb (in_int4 (count_paid cid d)) then Err numeric_value_out_of_range
      else if negb (in_numeric 10 (sum_paid cid d)) then Err numeric_value_out_of_range
      else
        Ok (set_customers
              (<[cid := Customer (customer_display_name c) (Some (count_paid cid d))
                          (Some (sum_paid cid d)) (max_issue_date cid d)]>
                 (customers d)) d)
  end.

(** The row-level trigger event with its [NEW] and [OLD] rows. *)
Inductive tg_event :=
  | tg_insert (new : invoice)
  | tg_update (old new : invoice)
  | tg_delete (old : invoice).

(** [update_customer_totals()], fired [AFTER INSERT OR UPDATE OR DELETE ON
    public.invoices FOR EACH ROW]. *)
Definition update_customer_totals (ev : tg_event) (d : database) : result database :=
  d1 ← match ev with
       | tg_insert new | tg_update _ new => recompute_totals (customer_id new) d
       | tg_delete _ => Ok d
       end;
  match ev with
  | tg_delete old => recompute_totals (customer_id old) d1
  | _ => Ok d1
  end.

(** The one customer an event has recomputed. *)
Definition touched (ev : tg_event) : uuid :=
  match ev with
  | tg_insert new | tg_update _ new => customer_id new
  | tg_delete old => customer_id old
  end.

(** Another row already carries this number ([UNIQUE]). *)
Definition number_taken (id : uuid) (number : string) (d : database) : bool :=
  existsb (fun kv => negb (bool_decide (fst kv = id))
                     && bool_decide (invoice_number (snd kv) = number))
    (map_to_list (invoices d)).

Definition check_invoice (id : uuid) (i : invoice) (d : database) : result unit :=
  if negb (in_numeric 12 (coalesce (total_amount i) 0)) then Err numeric_value_out_of_range
  else if number_taken id (invoice_number i) d then Err unique_violation
  else if negb (bool_decide (is_Some (customers d !! customer_id i)))
  then Err foreign_key_violation
  else Ok tt.

(** [INSERT INTO invoices ... RETURNING *]: the row, then the trigger;
    an error in the trigger undoes the statement. *)
Definition insert_invoice (i : invoice) (d : database)
    : result ((uuid * invoice) * database) :=
  let id := fresh (dom (invoices d)) in
  _ ← check_invoice id i d;
  d' ← update_customer_totals (tg_insert i)
         (set_invoices (<[id := i]> (invoices d)) d);
  Ok ((id, i), d').

(** [UPDATE invoices SET <changes> WHERE id = id RETURNING *] *)
Definition update_invoice (id : uuid) (changes : invoice -> invoice) (d : database)
    : result (option invoice * database) :=
  match invoices d !! id with
  | None => Ok (None, d)
  | Some old =>
      let new := changes old in
      _ ← check_invoice id new d;
      d' ← update_customer_totals (tg_update old new)
             (set_invoices (<[id := new]> (invoices d)) d);
      Ok (Some new, d')
  end.

(** [DELETE FROM invoices WHERE id = id]; the items go with the invoice
    ([ON DELETE CASCADE]).  Payments, which can hold a delete back, are
    not part of the model. *)
Definition delete_invoice (id : uuid) (d : database) : result (unit * database) :=
  match invoices d !! id with
  | None => Ok (tt, d)
  | Some old =>
      d' ← update_customer_totals (tg_delete old)
             (set_invoice_items (delete_items id (invoice_items d))
                (set_invoices (delete id (invoices d)) d));
      Ok (tt, d')
  end.

(** *** The aggregates as the specification words them *)

Record aggregates := Aggregates {
  agg_total_orders : Z;
  agg_total_spent : cents;
  agg_last_order_date : option date;
}.

(** "count of the customer's invoices with status paid, sum of
    total_amount over those, max(issue_date) over all of the customer's
    invoices". *)
Definition aggregates_of (cid : uuid) (d : database) : aggregates :=
  Aggregates (count_paid cid d) (sum_paid cid d) (max_issue_date cid d).

(** What the customer's row caches. *)
Definition cached (c : customer) : option aggregates :=
  n ← total_orders c; s ← total_spent c;
  Some (Aggregates n s (last_order_date c)).

(** The customer's cached aggregates are those of its invoices. *)
Definition consistent (cid : uuid) (d : database) : Prop :=
  match customers d !! cid with
  | Some c => cached c = Some (aggregates_of cid d)
  | None => True
  end.

(** The change [updateInvoice] makes for [{ customer_id, customer_name }]. *)
Definition reassign (cid : uuid) (display : string) (i : invoice) : invoice :=
  Invoice (invoice_number i) cid display (issue_date i) (total_amount i) (status i).

End CustomerRollup.

(** ** Document hooks ([useInvoices], [useSalesOrders], [usePurchaseOrders]) *)

Module Documents.
Import Sql CustomerRollup.

(** What the items tables accept: [quantity INTEGER], the unit amount
    [DECIMAL(10,2)], the line total [DECIMAL(total_digits,2)], and a
    product reference that exists when given. *)
Definition check_item (total_digits : Z) (d : database) (r : item_row) : bool :=
  in_int4 (quantity (item r))
  && in_numeric 10 (unit_price (item r))
  && in_numeric total_digits (total_price (item r))
  && match item_product_id (item r) with
     | Some pid => bool_decide (is_Some (products d !! pid))
     | None => true
     end.

(** [INSERT INTO invoice_items] of all the rows, or of none. *)
Definition insert_invoice_items (rows : list item_row) (d : database)
    : result (unit * database) :=
  if negb (forallb (fun r => bool_decide (is_Some (invoices d !! parent_id r))) rows)
  then Err foreign_key_violation
  else if negb (forallb (check_item 12 d) rows) then Err numeric_value_out_of_range
  else Ok (tt, set_invoice_items (invoice_items d ++ rows) d).

Definition insert_sales_order_items (rows : list item_row) (d : database)
    : result (unit * database) :=
  if negb (forallb (fun r => bool_decide (is_Some (sales_orders d !! parent_id r))) rows)
  then Err foreign_key_violation
  else if negb (forallb (check_item 12 d) rows) then Err numeric_value_out_of_range
  else Ok (tt, set_sales_order_items (sales_order_items d ++ rows) d).

Definition insert_purchase_order_items (rows : list item_row) (d : database)
    : result (unit * database) :=
  if negb (forallb (fun r => bool_decide (is_Some (purchase_orders d !! parent_id r))) rows)
  then Err foreign_key_violation
  else if negb (forallb (check_item 10 d) rows) then Err numeric_value_out_of_range
  else Ok (tt, set_purchase_order_items (purchase_order_items d ++ rows) d).

(** [DELETE FROM <items> WHERE <document>_id = id] *)
Definition delete_invoice_items (id : uuid) (d : database) : result (unit * database) :=
  Ok (tt, set_invoice_items (delete_items id (invoice_items d)) d).

Definition delete_sales_order_items (id : uuid) (d : database)
    : result (unit * database) :=
  Ok (tt, set_sales_order_items (delete_items id (sales_order_items d)) d).

Definition delete_purchase_order_items (id : uuid) (d : database)
    : result (unit * database) :=
  Ok (tt, set_purchase_order_items (delete_items id (purchase_order_items d)) d).

(** [SELECT * FROM invoices WHERE id = id], read with [.single()]: no
    row is an error. *)
Definition select_invoice_single (id : uuid) (d : database)
    : result (invoice * database) :=
  match invoices d !! id with
  | Some i => Ok (i, d)
  | None => Err no_rows_returned
  end.

(** [SELECT * FROM invoice_items WHERE invoice_id = id] *)
Definition select_invoice_items (id : uuid) (d : database)
    : result (list line_item * database) :=
  Ok (items_of id (invoice_items d), d).

(** [UPDATE invoices ... RETURNING *], read with [.single()]. *)
Definition update_invoice_single (id : uuid) (changes : invoice -> invoice)
    (d : database) : result (invoice * database) :=
  '(row, d') ← update_invoice id changes d;
  match row with
  | Some i => Ok (i, d')
  | None => Err no_rows_returned
  end.

Definition order_number_taken (id : uuid) (number : string) (d : database) : bool :=
  existsb (fun kv => negb (bool_decide (fst kv = id))
                     && bool_decide (order_number (snd kv) = number))
    (map_to_list (sales_orders d)).

(** [UPDATE sales_orders SET <changes> WHERE id = id] *)
Definition update_sales_order (id : uuid) (changes : sales_order -> sales_order)
    (d : database) : result (unit * database) :=
  match sales_orders d !! id with
  | None => Ok (tt, d)
  | Some old =>
      let new := changes old in
      if negb (in_numeric 12 (so_subtotal new) && in_numeric 12 (so_tax_amount new)
               && in_numeric 12 (so_total_amount new))
      then Err numeric_value_out_of_range
      else if order_number_taken id (order_number new) d then Err unique_violation
      else if negb (bool_decide (is_Some (customers d !! so_customer_id new)))
      then Err foreign_key_violation
      else Ok (tt, set_sales_orders (<[id := new]> (sales_orders d)) d)
  end.

Definition po_number_taken (id : uuid) (number : string) (d : database) : bool :=
  existsb (fun kv => negb (bool_decide (fst kv = id))
                     && bool_decide (po_number (snd kv) = number))
    (map_to_list (purchase_orders d)).

(** [UPDATE purchase_orders SET <changes> WHERE id = id] *)
Definition update_purchase_order (id : uuid)
    (changes : purchase_order -> purchase_order) (d : database)
    : result (unit * database) :=
  match purchase_orders d !! id with
  | None => Ok (tt, d)
  | Some old =>
      let new := changes old in
      if negb (in_numeric 10 (po_subtotal new) && in_numeric 5 (po_tax_rate new)
               && in_numeric 10 (po_tax_amount new)
               && in_numeric 10 (po_total_amount new))
      then Err numeric_value_out_of_range
      else if po_number_taken id (po_number new) d then Err unique_violation
      else Ok (tt, set_purchase_orders (<[id := new]> (purchase_orders d)) d)
  end.

(** The list fetches refresh component state; their failure is
    reported and not rethrown. *)
Definition fetchInvoices : io unit :=
  try_catch
    (response ← request (fun d => Ok (map_to_list (invoices d), d));
     _ ← or_throw response;
     mret tt)
    (fun _ => mret tt).

Definition fetchSalesOrders : io unit :=
  try_catch
    (response ← request (fun d => Ok (map_to_list (sales_orders d), d));
     _ ← or_throw response;
     mret tt)
    (fun _ => mret tt).

Definition fetchPurchaseOrders : io unit :=
  try_catch
    (response ← request (fun d => Ok (map_to_list (purchase_orders d), d));
     _ ← or_throw response;
     mret tt)
    (fun _ => mret tt).

Definition fetchInvoiceById (id : uuid) : io (option invoice * list line_item) :=
  try_catch
    (invoiceResponse ← request (select_invoice_single id);
     invoiceData ← or_throw invoiceResponse;
     itemsResponse ← request (select_invoice_items id);
     itemsData ← or_throw itemsResponse;
     mret (Some invoiceData, itemsData))
    (fun _ => mret (None, [])).

(** [updateInvoice(id, { items, ...invoice })]: [items] is [None] when
    the payload has no item list (an empty list is still a list). *)
Definition updateInvoice (id : uuid) (invoiceChanges : invoice -> invoice)
    (items : option (list line_item)) : io invoice :=
  try_catch
    (invoiceResponse ← request (update_invoice_single id invoiceChanges);
     updatedInvoice ← or_throw invoiceResponse;
     _ ← match items with
         | Some items =>
             (* Delete existing items *)
             deleteResponse ← request (delete_invoice_items id);
             _ ← or_throw deleteResponse;
             (* Insert new items *)
             let invoiceItems := ItemRow id <$> items in
             itemsResponse ← request (insert_invoice_items invoiceItems);
             _ ← or_throw itemsResponse;
             mret tt
         | None => mret tt
         end;
     _ ← fetchInvoices;
     mret updatedInvoice)
    (fun err => throw err).

Definition updateSalesOrder (id : uuid) (orderUpdates : sales_order -> sales_order)
    (items : option (list line_item)) : io unit :=
  try_catch
    (orderResponse ← request (update_sales_order id orderUpdates);
     _ ← or_throw orderResponse;
     _ ← match items with
         | Some items =>
             _ ← request (delete_sales_order_items id);
             if (0 <? length items)%nat then
               let itemsPayload := ItemRow id <$> items in
               itemsResponse ← request (insert_sales_order_items itemsPayload);
               _ ← or_throw itemsResponse;
               mret tt
             else mret tt
         | None => mret tt
         end;
     fetchSalesOrders)
    (fun err => throw err).

Definition updatePurchaseOrder (id : uuid)
    (orderUpdates : purchase_order -> purchase_order)
    (items : option (list line_item)) : io unit :=
  try_catch
    (poResponse ← request (update_purchase_order id orderUpdates);
     _ ← or_throw poResponse;
     _ ← match items with
         | Some items =>
             (* Delete existing items *)
             _ ← request (delete_purchase_order_items id);
             (* Insert new items *)
             if (0 <? length items)%nat then
               let itemsPayload := ItemRow id <$> items in
               itemsResponse ← request (insert_purchase_order_items itemsPayload);
               _ ← or_throw itemsResponse;
               mret tt
             else mret tt
         | None => mret tt
         end;
     fetchPurchaseOrders)
    (fun err => throw err).

End Documents.

(** ** Document forms: line totals and document totals *)

(** The form values are JavaScript numbers: IEEE 754 binary64, which is
    what [float] and its operations are. *)

(** The purchase-order form ([CreateEditPurchaseOrderModal]). *)
Module PurchaseOrderForm.
Local Open Scope float_scope.

Record item := Item {
  quantity : float;
  unit_cost : float;
  total_cost : float;
}.

Record values := Values {
  items : list item;
  tax_rate : float;
}.

Definition defaultValues : values := Values [Item 1 0 0] 0.

(** [form.setValue(`items.${index}.<field>`, v)] on a rendered row. *)
Definition setItem (index : nat) (change : item -> item) (f : values) : values :=
  Values (alter change index (items f)) (tax_rate f).

Definition calculateItemTotal (index : nat) (f : values) : values :=
  match items f !! index with
  | Some row =>
      let quantity := quantity row in
      let unitCost := unit_cost row in
      let total := quantity * unitCost in
      setItem index (fun r => Item (PurchaseOrderForm.quantity r) (unit_cost r) total) f
  | None => f
  end.

Record totals := Totals {
  subtotal : float;
  taxAmount : float;
  total : float;
}.

Definition calculateTotals (f : values) : totals :=
  let subtotal := fold_left (fun sum item => sum + total_cost item) (items f) 0 in
  let taxRate := tax_rate f in
  let taxAmount := (subtotal * taxRate) / 100 in
  let total := subtotal + taxAmount in
  Totals subtotal taxAmount total.

(** What the user can do to the form.  The numbers are what the input
    handlers store: [parseInt(value) || 1], [parseFloat(value) || 0],
    [product.cost || 0].  Row events carry the index of a rendered row;
    on any other index the model leaves the form as it is. *)
Inductive event :=
  | productChange (index : nat) (cost : float)
  | quantityChange (index : nat) (v : float)
  | unitCostChange (index : nat) (v : float)
  | taxRateChange (v : float)
  | append
  | remove (index : nat).

Definition handle (f : values) (e : event) : values :=
  match e with
  | productChange index cost =>
      calculateItemTotal index
        (setItem index (fun r => Item (quantity r) cost (total_cost r)) f)
  | quantityChange index v =>
      calculateItemTotal index
        (setItem index (fun r => Item v (unit_cost r) (total_cost r)) f)
  | unitCostChange index v =>
      calculateItemTotal index
        (setItem index (fun r => Item (quantity r) v (total_cost r)) f)
  | taxRateChange v => Values (items f) v
  | append => Values (items f ++ [Item 1 0 0]) (tax_rate f)
  | remove index => Values (delete index (items f)) (tax_rate f)
  end.

(** The payload [onSubmit] hands to the hook. *)
Record orderData := OrderData {
  data_tax_rate : float;
  data_subtotal : float;
  data_tax_amount : float;
  data_total_amount : float;
  data_items : list item;
}.

Definition onSubmit (f : values) : orderData :=
  let t := calculateTotals f in
  OrderData (tax_rate f) (subtotal t) (taxAmount t) (total t)
    ((fun item => Item (quantity item) (unit_cost item) (total_cost item)) <$> items f).

(** The form after a series of events, from the empty form. *)
Definition after (events : list event) : values :=
  fold_left handle events defaultValues.

(** "total = quantity × unit cost", on a line. *)
Definition line_total_ok (r : item) : Prop :=
  total_cost r = quantity r * unit_cost r.

(** "the sum of the line totals", added up in list order from 0. *)
Definition sum_of (l : list float) : float := fold_left PrimFloat.add l 0.

End PurchaseOrderForm.

(** The sales-order form ([CreateEditSalesOrderModal]). *)
Module SalesOrderForm.
Local Open Scope float_scope.

Record item := Item {
  quantity : float;
  unit_price : float;
  total_price : float;
}.

Record values := Values {
  items : list item;
  tax_rate : float;
}.

Definition defaultValues : values := Values [Item 1 0 0] 0.

Definition setItem (index : nat) (change : item -> item) (f : values) : values :=
  Values (alter change index (items f)) (tax_rate f).

Definition calculateItemTotal (index : nat) (f : values) : values :=
  match items f !! index with
  | Some row =>
      let quantity := quantity row in
      let unitPrice := unit_price row in
      setItem index
        (fun r => Item (SalesOrderForm.quantity r) (unit_price r) (quantity * unitPrice)) f
  | None => f
  end.

Record totals := Totals {
  subtotal : float;
  taxAmount : float;
  total : float;
}.

Definition calculateTotals (f : values) : totals :=
  let subtotal := fold_left (fun sum item => sum + total_price item) (items f) 0 in
  let taxRate := tax_rate f in
  let taxAmount := (subtotal * taxRate) / 100 in
  let total := subtotal + taxAmount in
  Totals subtotal taxAmount total.

(** The stored numbers are [parseInt(value || '0', 10)],
    [parseFloat(value || '0')] and [product.price || 0]. *)
Inductive event :=
  | productChange (index : nat) (price : float)
  | quantityChange (index : nat) (v : float)
  | unitPriceChange (index : nat) (v : float)
  | taxRateChange (v : float)
  | append
  | remove (index : nat).

Definition handle (f : values) (e : event) : values :=
  match e with
  | productChange index price =>
      calculateItemTotal index
        (setItem index (fun r => Item (quantity r) price (total_price r)) f)
  | quantityChange index v =>
      calculateItemTotal index
        (setItem index (fun r => Item v (unit_price r) (total_price r)) f)
  | unitPriceChange index v =>
      calculateItemTotal index
        (setItem index (fun r => Item (quantity r) v (total_price r)) f)
  | taxRateChange v => Values (items f) v
  | append => Values (items f ++ [Item 1 0 0]) (tax_rate f)
  | remove index => Values (delete index (items f)) (tax_rate f)
  end.

(** The sales-order payload has no [tax_rate] (the table has no such
    column). *)
Record orderData := OrderData {
  data_subtotal : float;
  data_tax_amount : float;
  data_total_amount : float;
  data_items : list item;
}.

Definition onSubmit (f : values) : orderData :=
  let t := calculateTotals f in
  OrderData (subtotal t) (taxAmount t) (total t)
    ((fun item => Item (quantity item) (unit_price item) (total_price item)) <$> items f).

Definition after (events : list event) : values :=
  fold_left handle events defaultValues.

Definition line_total_ok (r : item) : Prop :=
  total_price r = quantity r * unit_price r.

Definition sum_of (l : list float) : float := fold_left PrimFloat.add l 0.

End SalesOrderForm.

(** ** Sample data *)

Module Sample.

(** One product with 50 in stock, one purchase order with five lines,
    one invoice with one line, two customers. *)
Definition line (name : string) (q : Z) : line_item :=
  LineItem None name None q 250 (q * 250).

Definition five_lines : list line_item :=
  [line "bolt" 1; line "nut" 2; line "washer" 3; line "screw" 4; line "rivet" 5].

Definition two_lines : list line_item := [line "hinge" 6; line "latch" 7].

Definition ann_invoice : invoice :=
  Invoice "INV-001" "ann" "Ann" (Some 20300) (Some 12000) (Some inv_paid).

Definition data : database :=
  Database
    {[ "p1" := Product "Widget" "W-1" (Some 50) ]}
    ∅
    {[ "ann" := Customer "Ann" (Some 1) (Some 12000) (Some 20300);
       "bob" := Customer "Bob" (Some 0) (Some 0) None ]}
    {[ "i1" := ann_invoice ]}
    [ItemRow "i1" (line "bolt" 1)]
    {[ "so1" := SalesOrder "ORD-001" "ann" ord_draft 0 0 0 ]}
    (ItemRow "so1" <$> five_lines)
    {[ "po1" := PurchaseOrder "PO-000001" "Acme" po_draft 0 0 0 0 ]}
    (ItemRow "po1" <$> five_lines).

(** The header changes [{ status: 'sent' }] and [{ status: 'confirmed' }]. *)
Definition mark_sent (o : purchase_order) : purchase_order :=
  PurchaseOrder (po_number o) (vendor_name o) po_sent (po_subtotal o)
    (po_tax_rate o) (po_tax_amount o) (po_total_amount o).

Definition mark_confirmed (o : sales_order) : sales_order :=
  SalesOrder (order_number o) (so_customer_id o) ord_confirmed (so_subtotal o)
    (so_tax_amount o) (so_total_amount o).

Definition mark_invoice_sent (i : invoice) : invoice :=
  Invoice (invoice_number i) (customer_id i) (customer_name i) (issue_date i)
    (total_amount i) (Some inv_sent).

Definition world_of (script : list outcome) : world :=
  World data (Some "u1") "2025-08-01T09:00:00Z" script.

(** An adjustment from 50 to 35, and a movement whose numbers do not
    add up. *)
Definition adjustment_50_35 : stock_movement :=
  StockMovement "p1" "Widget" (Some "W-1") adjustment (-15) 50 35
    (Some "recount") None None "2025-08-01T09:00:00Z" None.

Definition inconsistent_movement : stock_movement :=
  StockMovement "p1" "Widget" (Some "W-1") sale 5 50 0 None None None
    "2025-08-01T09:00:00Z" None.

End Sample.

(** ** Creating and deleting documents, status changes *)

Module Lifecycle.
Import Sql SequenceGenerator CustomerRollup Documents.

(** [createInvoice({ items, ...invoice })] of [useInvoices]: the header,
    then the lines under the id the header came back with.  The
    arguments are the rows as the columns hold them; [InvoiceBody] below
    has the hook on the numbers of the request body. *)
Definition createInvoice (invoiceData : invoice) (items : list line_item)
    : io (uuid * invoice) :=
  try_catch
    ((* Create invoice *)
     invoiceResponse ← request (insert_invoice invoiceData);
     createdInvoice ← or_throw invoiceResponse;
     (* Create invoice items *)
     let invoiceItems := ItemRow (fst createdInvoice) <$> items in
     itemsResponse ← request (insert_invoice_items invoiceItems);
     _ ← or_throw itemsResponse;
     _ ← fetchInvoices;
     mret createdInvoice)
    (fun err => throw err).

Definition deleteInvoice (id : uuid) : io unit :=
  try_catch
    ((* Delete invoice items first *)
     itemsResponse ← request (delete_invoice_items id);
     _ ← or_throw itemsResponse;
     (* Delete invoice *)
     invoiceResponse ← request (delete_invoice id);
     _ ← or_throw invoiceResponse;
     fetchInvoices)
    (fun err => throw err).

(** The [order_number] column, as the generator's SELECT reads it. *)
Definition order_numbers (d : database) : list text :=
  order_number <$> (snd <$> map_to_list (sales_orders d)).

(** [supabase.rpc('generate_order_number')] *)
Definition rpc_generate_order_number (vc : variable_conflict) (d : database)
    : result (text * database) :=
  number ← generate_order_number vc (order_numbers d);
  Ok (number, d).

Definition generateOrderNumber (vc : variable_conflict) : io text :=
  response ← request (rpc_generate_order_number vc);
  or_throw response.

(** [INSERT INTO sales_orders ... RETURNING *].  [created_by] is the
    profile of the signed-in user, which is taken to exist. *)
Definition insert_sales_order (o : sales_order) (d : database)
    : result ((uuid * sales_order) * database) :=
  let id := fresh (dom (sales_orders d)) in
  if negb (in_numeric 12 (so_subtotal o) && in_numeric 12 (so_tax_amount o)
           && in_numeric 12 (so_total_amount o))
  then Err numeric_value_out_of_range
  else if order_number_taken id (order_number o) d then Err unique_violation
  else if negb (bool_decide (is_Some (customers d !! so_customer_id o)))
  then Err foreign_key_violation
  else Ok ((id, o), set_sales_orders (<[id := o]> (sales_orders d)) d).

(** [createSalesOrder({ items, ...orderPayload })] of [useSalesOrders];
    the [order_number] of [orderData] is not part of the argument's type
    and is replaced by the generated one.  The inserted row comes back
    with the insert, so [newOrder] is not null. *)
Definition createSalesOrder (vc : variable_conflict) (orderData : sales_order)
    (items : option (list line_item)) : io (uuid * sales_order) :=
  try_catch
    (orderNumber ← generateOrderNumber vc;
     user ← getUser;
     let payload :=
       SalesOrder orderNumber (so_customer_id orderData) (so_status orderData)
         (so_subtotal orderData) (so_tax_amount orderData)
         (so_total_amount orderData) in
     orderResponse ← request (insert_sales_order payload);
     newOrder ← or_throw orderResponse;
     _ ← match items with
         | Some items =>
             if (0 <? length items)%nat then
               let itemsPayload := ItemRow (fst newOrder) <$> items in
               itemsResponse ← request (insert_sales_order_items itemsPayload);
               _ ← or_throw itemsResponse;
               mret tt
             else mret tt
         | None => mret tt
         end;
     _ ← fetchSalesOrders;
     mret newOrder)
    (fun err => throw err).

(** [DELETE FROM sales_orders WHERE id = id]; the lines go with the
    order ([ON DELETE CASCADE]). *)
Definition delete_sales_order (id : uuid) (d : database) : result (unit * database) :=
  match sales_orders d !! id with
  | None => Ok (tt, d)
  | Some _ =>
      Ok (tt, set_sales_order_items (delete_items id (sales_order_items d))
                (set_sales_orders (delete id (sales_orders d)) d))
  end.

(** [DELETE FROM purchase_orders WHERE id = id], with the same cascade. *)
Definition delete_purchase_order (id : uuid) (d : database)
    : result (unit * database) :=
  match purchase_orders d !! id with
  | None => Ok (tt, d)
  | Some _ =>
      Ok (tt, set_purchase_order_items (delete_items id (purchase_order_items d))
                (set_purchase_orders (delete id (purchase_orders d)) d))
  end.

Definition deleteSalesOrder (id : uuid) : io unit :=
  try_catch
    ((* Delete items first to avoid potential FK issues *)
     _ ← request (delete_sales_order_items id);
     response ← request (delete_sales_order id);
     _ ← or_throw response;
     fetchSalesOrders)
    (fun err => throw err).

Definition deletePurchaseOrder (id : uuid) : io unit :=
  try_catch
    (response ← request (delete_purchase_order id);
     _ ← or_throw response;
     fetchPurchaseOrders)
    (fun err => throw err).

(** The header changes [{ status }]. *)
Definition with_order_status (s : order_status) (o : sales_order) : sales_order :=
  SalesOrder (order_number o) (so_customer_id o) s (so_subtotal o)
    (so_tax_amount o) (so_total_amount o).

Definition with_po_status (s : po_status) (o : purchase_order) : purchase_order :=
  PurchaseOrder (po_number o) (vendor_name o) s (po_subtotal o) (po_tax_rate o)
    (po_tax_amount o) (po_total_amount o).

Definition updateOrderStatus (id : uuid) (status : order_status) : io unit :=
  try_catch
    (response ← request (update_sales_order id (with_order_status status));
     _ ← or_throw response;
     fetchSalesOrders)
    (fun err => throw err).

Definition updatePOStatus (id : uuid) (status : po_status) : io unit :=
  try_catch
    (response ← request (update_purchase_order id (with_po_status status));
     _ ← or_throw response;
     fetchPurchaseOrders)
    (fun err => throw err).

End Lifecycle.

(** ** Products ([useProducts]) *)

Module Catalog.

(** A line of any document, or a stock movement, names the product
    ([product_id UUID REFERENCES public.products(id)], four tables). *)
Definition line_refers (pid : uuid) (r : item_row) : bool :=
  bool_decide (item_product_id (item r) = Some pid).

Definition movement_refers (pid : uuid) (kv : uuid * stock_movement) : bool :=
  bool_decide (product_id (snd kv) = pid).

Definition product_referenced (pid : uuid) (d : database) : bool :=
  existsb (line_refers pid) (invoice_items d)
  || existsb (line_refers pid) (sales_order_items d)
  || existsb (line_refers pid) (purchase_order_items d)
  || existsb (movement_refers pid) (map_to_list (stock_movements d)).

(** [DELETE FROM products WHERE id = pid]: none of the references
    cascades. *)
Definition delete_product (pid : uuid) (d : database) : result (unit * database) :=
  match products d !! pid with
  | None => Ok (tt, d)
  | Some _ =>
      if product_referenced pid d then Err foreign_key_violation
      else Ok (tt, set_products (delete pid (products d)) d)
  end.

(** The list fetch refreshes component state; its failure is reported
    and not rethrown. *)
Definition fetchProducts : io unit :=
  try_catch
    (response ← request (fun d => Ok (map_to_list (products d), d));
     _ ← or_throw response;
     mret tt)
    (fun _ => mret tt).

Definition deleteProduct (id : uuid) : io unit :=
  try_catch
    (response ← request (delete_product id);
     _ ← or_throw response;
     fetchProducts)
    (fun err => throw err).

End Catalog.

(** ** Editing a stock movement ([EditStockMovementModal]) *)

Module MovementForms.
Import StockLedger.

(** The update [{ reason }] of the form data, whose one field is
    [reason: z.string().optional()]: a key that is undefined is not sent
    and leaves the column as it is. *)
Definition reason_update (data : option string) (m : stock_movement) : stock_movement :=
  match data with
  | Some _ =>
      StockMovement (product_id m) (product_name m) (product_sku m)
        (movement_type_of m) (quantity_change m) (stock_before m) (stock_after m)
        data (reference_id m) (reference_type m) (movement_date m) (created_by m)
  | None => m
  end.

(** [onSubmit] of the modal; [movement] is the id of the movement being
    edited, when there is one ([if (!movement?.id) return]).  A failure
    is reported and not rethrown. *)
Definition onSubmit (movement : option uuid) (data : option string) : io unit :=
  match movement with
  | None => mret tt
  | Some id =>
      try_catch (updateStockMovement id (reason_update data)) (fun _ => mret tt)
  end.

End MovementForms.

(** ** Application settings ([useAppSettings]) *)

Module AppSettings.

(** The values a [GeneralSettings] object holds (strings and booleans),
    and the null a row can hold. *)
Inductive js_value :=
  | text (s : string)
  | boolean (b : bool)
  | null.

(** [public.app_settings], keyed by [setting_key] ([text NOT NULL
    UNIQUE]): the two columns the hook reads and writes. *)
Record app_setting := AppSetting {
  setting_value : option string;
  setting_type : option string;
}.

(** The table, and the [settings] object in component state. *)
Record state := State {
  app_settings : gmap string app_setting;
  settings : gmap string js_value;
}.

(** [let value = setting.setting_value;
     if (setting.setting_type === 'boolean') value = value === 'true'] *)
Definition decode (setting : app_setting) : js_value :=
  let value := match setting_value setting with
               | Some s => text s
               | None => null
               end in
  if bool_decide (setting_type setting = Some "boolean")
  then boolean (bool_decide (setting_value setting = Some "true"))
  else value.

(** [{ setting_value: typeof value === 'boolean' ? value.toString() : value,
       setting_type: typeof value === 'boolean' ? 'boolean' : 'string' }] *)
Definition encode (value : js_value) : app_setting :=
  match value with
  | boolean b => AppSetting (Some (if b then "true" else "false")) (Some "boolean")
  | text s => AppSetting (Some s) (Some "string")
  | null => AppSetting None (Some "string")
  end.

(** [fetchSettings]: the rows, converted, are laid over the previous
    object ([{ ...prev, ...settingsObj }]); a failed request leaves the
    object as it is. *)
Definition fetchSettings (o : outcome) (st : state) : state :=
  match o with
  | refused => st
  | served =>
      let settingsObj := decode <$> app_settings st in
      State (app_settings st) (settingsObj ∪ settings st)
  end.

(** [updateSetting(key, value)]: an upsert on [setting_key], then the
    key of the object. *)
Definition updateSetting (o : outcome) (key : string) (value : js_value)
    (st : state) : state :=
  match o with
  | refused => st
  | served =>
      State (<[key := encode value]> (app_settings st))
            (<[key := value]> (settings st))
  end.

(** [saveAllSettings(newSettings)]: one upsert of a row per entry of the
    object, then the object replaces the state. *)
Definition saveAllSettings (o : outcome) (newSettings : gmap string js_value)
    (st : state) : state :=
  match o with
  | refused => st
  | served =>
      let settingsArray := encode <$> newSettings in
      State (settingsArray ∪ app_settings st) newSettings
  end.

End AppSettings.

(** ** Report figures ([useInventoryReports], [useFinancialReports]) *)

Module Reports.
Local Open Scope float_scope.

(** [Number(v)] of an INTEGER value and of a DECIMAL(p,2) value as the
    API sends them: the integer itself, and the double nearest to the
    decimal, which is what the division of the hundredths by 100 rounds
    to.  Column values are far below 2^53 in size. *)
Definition number_of_Z (z : Z) : float :=
  if (z <? 0)%Z then - PrimFloat.of_uint63 (Uint63.of_Z (- z))
  else PrimFloat.of_uint63 (Uint63.of_Z z).

Definition number_of_cents (c : cents) : float := number_of_Z c / 100.

(** [x || fallback] on a number: 0, -0 and NaN are falsy. *)
Definition or_else (x fallback : float) : float :=
  if PrimFloat.eqb x 0 || PrimFloat.is_nan x then fallback else x.

(** The columns of [public.products] that the inventory report selects
    ([stock INTEGER DEFAULT 0], [price DECIMAL(10,2) NOT NULL],
    [low_stock_threshold INTEGER DEFAULT 10]). *)
Record product_row := ProductRow {
  row_stock : option Z;
  row_price : cents;
  row_low_stock_threshold : option Z;
}.

(** [Number(product.stock) || 0] and [Number(product.low_stock_threshold)
    || 10], on integers, which a number holds exactly; a NULL reads as 0. *)
Definition stock_number (p : product_row) : Z := default 0%Z (row_stock p).

Definition threshold_number (p : product_row) : Z :=
  match row_low_stock_threshold p with
  | Some 0%Z | None => 10%Z
  | Some t => t
  end.

Definition is_low_stock (p : product_row) : bool :=
  (stock_number p <=? threshold_number p)%Z && (0 <? stock_number p)%Z.

Definition is_out_of_stock (p : product_row) : bool := (stock_number p =? 0)%Z.

Record inventory_data := InventoryData {
  total_products : nat;
  total_stock_value : float;
  low_stock_items : nat;
  out_of_stock_items : nat;
}.

(** [generateInventoryData]; [products] is the [data] of the request for
    the active products, null when the request failed. *)
Definition generateInventoryData (products : option (list product_row))
    : inventory_data :=
  match products with
  | None => InventoryData 0 0 0 0
  | Some products =>
      let totalProducts := length products in
      let totalStockValue :=
        fold_left (fun sum product =>
                     let stock := number_of_Z (stock_number product) in
                     let price := or_else (number_of_cents (row_price product)) 0 in
                     sum + stock * price) products 0 in
      let lowStockItems := length (List.filter is_low_stock products) in
      let outOfStockItems := length (List.filter is_out_of_stock products) in
      InventoryData totalProducts totalStockValue lowStockItems outOfStockItems
  end.

(** The columns of [public.purchase_orders] that the financial report
    selects; [status] is [TEXT CHECK (status IN ('draft', 'sent',
    'received', 'cancelled'))]. *)
Record purchase_order_row := PurchaseOrderRow {
  row_total_amount : cents;
  row_status : po_status;
  row_order_date : date;
}.

Definition po_status_text (s : po_status) : string :=
  match s with
  | po_draft => "draft"
  | po_sent => "sent"
  | po_received => "received"
  | po_cancelled => "cancelled"
  end.

(** [.gte('issue_date', startDate).lte('issue_date', endDate)
     .eq('status', 'paid')] on [invoices]; a NULL date or status does
    not pass. *)
Definition paid_invoices_between (startDate endDate : date) (table : list invoice)
    : list invoice :=
  List.filter (fun i =>
                 match issue_date i with
                 | Some day => (startDate <=? day)%Z && (day <=? endDate)%Z
                 | None => false
                 end
                 && bool_decide (status i = Some inv_paid)) table.

(** [.gte('order_date', startDate).lte('order_date', endDate)
     .eq('status', 'completed')] on [purchase_orders]. *)
Definition completed_orders_between (startDate endDate : date)
    (table : list purchase_order_row) : list purchase_order_row :=
  List.filter (fun po =>
                 (startDate <=? row_order_date po)%Z
                 && (row_order_date po <=? endDate)%Z
                 && bool_decide (po_status_text (row_status po) = "completed")) table.

Record financial_data := FinancialData {
  total_revenue : float;
  total_expenses : float;
  net_profit : float;
}.

(** [generateFinancialData(startDate, endDate, reportType)] over the two
    tables; each of its two requests is served, or comes back with null
    data. *)
Definition generateFinancialData (invoicesTable : list invoice)
    (purchaseOrdersTable : list purchase_order_row)
    (invoicesRequest purchaseOrdersRequest : outcome)
    (startDate endDate : date) : financial_data :=
  let invoices :=
    match invoicesRequest with
    | served => Some (paid_invoices_between startDate endDate invoicesTable)
    | refused => None
    end in
  let purchaseOrders :=
    match purchaseOrdersRequest with
    | served => Some (completed_orders_between startDate endDate purchaseOrdersTable)
    | refused => None
    end in
  let totalRevenue :=
    match invoices with
    | Some invoices =>
        or_else
          (fold_left (fun sum invoice =>
                        sum + or_else (number_of_cents
                                         (default 0%Z (total_amount invoice))) 0)
             invoices 0) 0
    | None => 0
    end in
  let totalExpenses :=
    match purchaseOrders with
    | Some purchaseOrders =>
        or_else
          (fold_left (fun sum po =>
                        sum + or_else (number_of_cents (row_total_amount po)) 0)
             purchaseOrders 0) 0
    | None => 0
    end in
  let netProfit := totalRevenue - totalExpenses in
  FinancialData totalRevenue totalExpenses netProfit.

End Reports.

(** ** The ledger's balance *)

Module LedgerBalance.

(** The movements recorded for a product, and the sum of their quantity
    changes. *)
Definition movements_of (pid : uuid) (d : database) : list stock_movement :=
  filter (fun m => product_id m = pid) (snd <$> map_to_list (stock_movements d)).

Definition net_change (pid : uuid) (d : database) : Z :=
  foldr Z.add 0 (quantity_change <$> movements_of pid d).

(** The stock a product has, when the product exists and its stock is
    not NULL. *)
Definition stock_of (pid : uuid) (d : database) : option Z :=
  p ← products d !! pid; stock p.

End LedgerBalance.

(** ** Invoices as the request body carries them *)

Module InvoiceBody.
Import Sql CustomerRollup Documents.

(** A number of a request body: the decimal literal [digits × 10^-scale]
    that [JSON.stringify] writes for a finite JavaScript number
    ([10.8108] is [Number 108108 4]). *)
Record number := Number {
  digits : Z;
  scale : nat;
}.

(** The value a [DECIMAL(p,2)] column takes for the literal, in
    hundredths: rounded to two decimals, a tie away from zero. *)
Definition to_decimal (x : number) : cents :=
  if (scale x <=? 2)%nat then digits x * 10 ^ Z.of_nat (2 - scale x)
  else
    let unit := 10 ^ Z.of_nat (scale x - 2) in
    let q := Z.abs (digits x) / unit in
    let r := Z.abs (digits x) mod unit in
    Z.sgn (digits x) * (if 2 * r <? unit then q else q + 1).

(** The value an [INTEGER] column takes: the literal has to denote an
    integer. *)
Definition to_integer (x : number) : result Z :=
  let unit := 10 ^ Z.of_nat (scale x) in
  if digits x mod unit =? 0 then Ok (digits x / unit)
  else Err invalid_text_representation.

(** [Omit<InvoiceItem, 'id' | 'invoice_id'>] *)
Record item_data := ItemData {
  body_product_id : option uuid;
  body_product_name : string;
  body_product_sku : option string;
  body_quantity : number;
  body_unit_price : number;
  body_total_price : number;
}.

(** [CreateInvoiceData], with the header fields that [invoice] has
    columns for; [status] is ['draft' | 'sent']. *)
Record invoice_data := InvoiceData {
  body_invoice_number : string;
  body_customer_id : uuid;
  body_customer_name : string;
  body_issue_date : date;
  body_total_amount : number;
  body_status : invoice_status;
  body_items : list item_data;
}.

(** The rows an INSERT makes of a body: each value assigned to its
    column. *)
Definition header_row (data : invoice_data) : invoice :=
  Invoice (body_invoice_number data) (body_customer_id data)
    (body_customer_name data) (Some (body_issue_date data))
    (Some (to_decimal (body_total_amount data))) (Some (body_status data)).

Definition line_of (item : item_data) : result line_item :=
  q ← to_integer (body_quantity item);
  Ok (LineItem (body_product_id item) (body_product_name item)
        (body_product_sku item) q (to_decimal (body_unit_price item))
        (to_decimal (body_total_price item))).

(** [INSERT INTO invoices ... RETURNING *] of a body. *)
Definition insert_invoice_body (data : invoice_data) (d : database)
    : result ((uuid * invoice) * database) :=
  insert_invoice (header_row data) d.

(** [INSERT INTO invoice_items] of [{ ...item, invoice_id }] bodies. *)
Definition insert_invoice_items_body (rows : list (uuid * item_data)) (d : database)
    : result (unit * database) :=
  stored ← mapM (fun r => line ← line_of (snd r); Ok (ItemRow (fst r) line)) rows;
  insert_invoice_items stored d.

(** [createInvoice({ items, ...invoice })] of [useInvoices], on the
    numbers the caller passes. *)
Definition createInvoice (invoiceData : invoice_data) : io (uuid * invoice) :=
  try_catch
    ((* Create invoice *)
     invoiceResponse ← request (insert_invoice_body invoiceData);
     createdInvoice ← or_throw invoiceResponse;
     (* Create invoice items *)
     let invoiceItems :=
       (fun item => (fst createdInvoice, item)) <$> body_items invoiceData in
     itemsResponse ← request (insert_invoice_items_body invoiceItems);
     _ ← or_throw itemsResponse;
     _ ← fetchInvoices;
     mret createdInvoice)
    (fun err => throw err).

End InvoiceBody.

(** ** More sample data *)

Module Examples.

(** An invoice for Bob, sent, and an order for Bob as the order form
    hands it over (the number is filled in by the hook). *)
Definition bob_invoice : invoice :=
  Invoice "INV-002" "bob" "Bob" (Some 20301) (Some 5000) (Some inv_sent).

Definition bob_order : sales_order := SalesOrder "" "bob" ord_pending 1000 100 1100.

(** An invoice body for Bob: total 10.8108, one line of 6 at 2.505 with
    total 15.03. *)
Definition bob_invoice_body : InvoiceBody.invoice_data :=
  InvoiceBody.InvoiceData "INV-002" "bob" "Bob" 20301
    (InvoiceBody.Number 108108 4) inv_sent
    [InvoiceBody.ItemData None "hinge" None (InvoiceBody.Number 6 0)
       (InvoiceBody.Number 2505 3) (InvoiceBody.Number 1503 2)].




End Examples.

(** * Facts *)

Lemma bind_Ok {A B} (a : A) (k : A -> result B) : Ok a ≫= k = k a.
Proof. done. Qed.


(** ** Text primitives *)

Section text_facts.
Import Sql.

Lemma all_digits_app s1 s2 :
  all_digits (s1 +:+ s2) = all_digits s1 && all_digits s2.
Proof.
  induction s1 as [|c s1 IH]; simpl; [done|].
  rewrite IH. by rewrite andb_assoc.
Qed.

Lemma digits1_all_digits s : digits1 s = true -> all_digits s = true.
Proof. by destruct s. Qed.

Lemma digits1_app s1 s2 :
  all_digits s1 = true -> digits1 s2 = true -> digits1 (s1 +:+ s2) = true.
Proof.
  intros H1 H2. destruct s1 as [|c s1]; [done|].
  change (all_digits (String c s1 +:+ s2) = true).
  by rewrite all_digits_app, H1, digits1_all_digits.
Qed.

Lemma digits_value_app acc s1 s2 :
  digits_value acc (s1 +:+ s2) = digits_value (digits_value acc s1) s2.
Proof. revert acc. induction s1 as [|c s1 IH]; intros acc; simpl; [done|]. apply IH. Qed.

Lemma digits_value_nonneg acc s : 0 <= acc -> 0 <= digits_value acc s.
Proof.
  revert acc. induction s as [|c s IH]; intros acc Hacc; simpl; [done|].
  apply IH. unfold digit_value. destruct (Ascii.is_nat c); lia.
Qed.

Lemma string_length_app s1 s2 :
  String.length (s1 +:+ s2) = (String.length s1 + String.length s2)%nat.
Proof. induction s1 as [|c s1 IH]; simpl; [done|]. by rewrite IH. Qed.

Lemma all_digits_replicate_zero n : all_digits (replicate n "0") = true.
Proof. induction n as [|n IH]; simpl; [done|]. exact IH. Qed.

Lemma digits_value_replicate_zero n s :
  digits_value 0 (replicate n "0" +:+ s) = digits_value 0 s.
Proof. induction n as [|n IH]; simpl; [done|]. exact IH. Qed.

Lemma string_take_length s : take (String.length s) s = s.
Proof. induction s as [|c s IH]; simpl; [done|]. by rewrite IH. Qed.

Lemma strip_prefix_app p s : strip_prefix p (p +:+ s) = Some s.
Proof.
  induction p as [|c p IH]; simpl; [by destruct s|].
  rewrite bool_decide_eq_true_2 by done. exact IH.
Qed.

Lemma strip_prefix_Some p s rest :
  strip_prefix p s = Some rest -> s = p +:+ rest.
Proof.
  revert s. induction p as [|c p IH]; intros s H.
  - destruct s; simpl in H; by simplify_eq.
  - destruct s as [|b s]; simpl in H; [done|].
    case_bool_decide; [|done]. subst b.
    change (String c s = String c (p +:+ rest)). f_equal. by apply IH.
Qed.

Lemma string_drop_app p s : drop (String.length p) (p +:+ s) = s.
Proof. induction p as [|c p IH]; simpl; [by destruct s|]. exact IH. Qed.

Lemma take_digits_all s : all_digits s = true -> take_digits s = s.
Proof.
  induction s as [|c s IH]; simpl; [done|].
  intros [Hc Hs]%andb_true_iff. rewrite Hc. f_equal. by apply IH.
Qed.

(** The decimal text of a number, read back. *)

Lemma pretty_N_go_app x s : pretty_N_go x s = pretty_N_go x "" +:+ s.
Proof.
  revert s. induction (N.lt_wf_0 x) as [x _ IH]; intros s.
  destruct (decide (x = 0)%N) as [->|Hx]; [done|].
  assert (x `div` 10 < x)%N as Hlt by (apply N.div_lt; lia).
  rewrite !(pretty_N_go_step x) by lia.
  rewrite (IH _ Hlt (String _ s)), (IH _ Hlt (String _ "")).
  generalize (pretty_N_go (x `div` 10) ""). intros t.
  induction t as [|c t IHt]; [done|].
  change (String c (t +:+ String (pretty_N_char (x `mod` 10)) s)
          = String c ((t +:+ String (pretty_N_char (x `mod` 10)) "") +:+ s)).
  by rewrite IHt.
Qed.

Lemma pretty_N_char_digit x :
  (x < 10)%N ->
  is_digit (pretty_N_char x) = true /\ digit_value (pretty_N_char x) = Z.of_N x.
Proof.
  intros Hx.
  assert (x = 0 \/ x = 1 \/ x = 2 \/ x = 3 \/ x = 4 \/ x = 5 \/ x = 6
          \/ x = 7 \/ x = 8 \/ x = 9)%N as H by lia.
  destruct H as [->|[->|[->|[->|[->|[->|[->|[->|[->| ->]]]]]]]]]; by compute.
Qed.

Lemma pretty_N_go_digits x :
  all_digits (pretty_N_go x "") = true
  /\ digits_value 0 (pretty_N_go x "") = Z.of_N x.
Proof.
  induction (N.lt_wf_0 x) as [x _ IH].
  destruct (decide (x = 0)%N) as [->|Hx]; [done|].
  rewrite pretty_N_go_step, pretty_N_go_app by lia.
  destruct (IH (x `div` 10)%N) as [IHa IHv]; [apply N.div_lt; lia|].
  destruct (pretty_N_char_digit (x `mod` 10)%N) as [Hd Hv];
    [apply N.mod_lt; lia|].
  rewrite all_digits_app, digits_value_app, IHa, IHv. simpl.
  rewrite Hd, Hv. split; [done|].
  rewrite (N.div_mod x 10) at 3 by lia. lia.
Qed.

Lemma pretty_N_go_length x (w : nat) :
  (x < 10 ^ N.of_nat w)%N -> (String.length (pretty_N_go x "") <= w)%nat.
Proof.
  revert x. induction w as [|w IH]; intros x Hx.
  - assert (x = 0)%N as -> by (simpl in Hx; lia). simpl. lia.
  - destruct (decide (x = 0)%N) as [->|Hx0]; [simpl; lia|].
    rewrite pretty_N_go_step, pretty_N_go_app, string_length_app by lia. simpl.
    assert (x `div` 10 < 10 ^ N.of_nat w)%N.
    { apply N.Div0.div_lt_upper_bound.
      rewrite Nat2N.inj_succ, N.pow_succ_r' in Hx. lia. }
    specialize (IH _ H). lia.
Qed.

Lemma pretty_N_go_length_lower x (w : nat) :
  (10 ^ N.of_nat w <= x)%N -> (w < String.length (pretty_N_go x ""))%nat.
Proof.
  revert x. induction w as [|w IH]; intros x Hx.
  - rewrite pretty_N_go_step, pretty_N_go_app, string_length_app
      by (simpl in Hx; lia).
    simpl. lia.
  - rewrite Nat2N.inj_succ, N.pow_succ_r' in Hx.
    assert (0 < 10 ^ N.of_nat w)%N by (apply N.neq_0_lt_0, N.pow_nonzero; lia).
    rewrite pretty_N_go_step, pretty_N_go_app, string_length_app by lia. simpl.
    assert (10 ^ N.of_nat w <= x `div` 10)%N
      by (apply N.div_le_lower_bound; lia).
    specialize (IH _ H0). lia.
Qed.

Lemma string_length_take n s :
  (n <= String.length s)%nat -> String.length (take n s) = n.
Proof.
  revert s. induction n as [|n IH]; intros [|c s] Hn; simpl in *; try lia.
  by rewrite IH by lia.
Qed.

Lemma integer_text_pos (n : Z) :
  0 < n -> integer_text n = pretty_N_go (Z.to_N n) "".
Proof.
  intros Hn. destruct n as [|p|p]; try lia.
  unfold integer_text, pretty, pretty_Z, pretty, pretty_positive, pretty, pretty_N.
  by rewrite decide_False by done.
Qed.

Lemma integer_text_digits (n : Z) :
  0 < n ->
  digits1 (integer_text n) = true /\ digits_value 0 (integer_text n) = n.
Proof.
  intros Hn. rewrite integer_text_pos by done.
  destruct (pretty_N_go_digits (Z.to_N n)) as [Ha Hv].
  rewrite Hv, Z2N.id by lia. split; [|done].
  destruct (pretty_N_go (Z.to_N n) "") eqn:E; [|done].
  simpl in Hv. lia.
Qed.

Lemma integer_text_length_lower (n : Z) (w : nat) :
  10 ^ Z.of_nat w <= n -> (w < String.length (integer_text n))%nat.
Proof.
  intros Hw. assert (0 < n) by (pose proof (Z.pow_pos_nonneg 10 (Z.of_nat w)); lia).
  rewrite integer_text_pos by done.
  apply pretty_N_go_length_lower.
  apply N2Z.inj_le. rewrite Z2N.id, N2Z.inj_pow, nat_N_Z by lia. done.
Qed.

Lemma integer_text_length (n : Z) (w : nat) :
  0 < n -> n < 10 ^ Z.of_nat w -> (String.length (integer_text n) <= w)%nat.
Proof.
  intros Hn Hw. rewrite integer_text_pos by done.
  apply pretty_N_go_length.
  apply N2Z.inj_lt. rewrite Z2N.id, N2Z.inj_pow, nat_N_Z by lia. done.
Qed.

End text_facts.

(** ** Sequence generator *)

Section sequence_facts.
Import Sql SequenceGenerator.

Lemma max_agg_cons x l :
  max_agg (x :: l) = Some (from_option (Z.max x) x (max_agg l)).
Proof. done. Qed.

Lemma max_agg_upper l x :
  x ∈ l -> exists m, max_agg l = Some m /\ x <= m.
Proof.
  induction l as [|y l IH]; [by intros ?%elem_of_nil|].
  rewrite max_agg_cons. intros [->|Hx]%elem_of_cons.
  - eexists; split; [done|]. destruct (max_agg l); simpl; lia.
  - destruct (IH Hx) as (m & -> & Hm). eexists; split; [done|]. simpl. lia.
Qed.

Lemma max_agg_elem l m : max_agg l = Some m -> m ∈ l.
Proof.
  revert m. induction l as [|y l IH]; intros m; [done|].
  rewrite max_agg_cons. intros [= <-].
  destruct (max_agg l) as [m'|] eqn:E; simpl; [|by left].
  destruct (Z.max_spec y m') as [[_ ->]|[_ ->]]; [right; by apply IH|by left].
Qed.

Lemma max_agg_snoc l x :
  Forall (fun y => y < x) l -> max_agg (l ++ [x]) = Some x.
Proof.
  induction l as [|y l IH]; [done|].
  intros [Hy Hl]%Forall_cons. simpl app. rewrite max_agg_cons, IH by done.
  simpl. f_equal. lia.
Qed.

Lemma strictly_sorted_NoDup (l : list Z) : StronglySorted Z.lt l -> NoDup l.
Proof.
  induction 1 as [|x l _ IH Hx]; constructor; [|done].
  intros Hin. apply (proj1 (Forall_forall _ _) Hx) in Hin. lia.
Qed.

Lemma suffix_of_nonneg prefix s v : suffix_of prefix s = Some v -> 0 <= v.
Proof.
  unfold suffix_of. destruct (strip_prefix prefix s) as [d|]; simpl; [|done].
  destruct (digits1 d); [|done]. intros [= <-]. by apply digits_value_nonneg.
Qed.

Lemma suffixes_nonneg prefix store : Forall (fun v => 0 <= v) (suffixes prefix store).
Proof.
  apply Forall_forall. intros v Hv. unfold suffixes in Hv.
  apply list_elem_of_omap in Hv as (s & _ & Hs). by eapply suffix_of_nonneg.
Qed.

Lemma highest_nonneg prefix store : 0 <= highest prefix store.
Proof.
  unfold highest. destruct (max_agg _) as [m|] eqn:E; simpl; [|done].
  apply max_agg_elem in E.
  by apply (proj1 (Forall_forall _ _) (suffixes_nonneg prefix store)).
Qed.

Lemma highest_upper prefix store v :
  v ∈ suffixes prefix store -> v <= highest prefix store.
Proof. intros (m & Hm & ?)%max_agg_upper. unfold highest. by rewrite Hm. Qed.

Lemma spec_next_highest prefix width store :
  spec_next prefix width store
  = prefix +:+ zero_padded width (highest prefix store + 1).
Proof. unfold spec_next, highest. by destruct (max_agg _). Qed.

Lemma lpad_zero_padded (n : Z) (w : nat) :
  0 < n -> n < 10 ^ Z.of_nat w ->
  lpad (integer_text n) w "0" = zero_padded w n.
Proof.
  intros Hn Hw. pose proof (integer_text_length n w Hn Hw) as Hlen.
  unfold lpad, zero_padded. fold (integer_text n).
  destruct (w <=? String.length (integer_text n))%nat eqn:E; [|done].
  apply Nat.leb_le in E.
  assert (w = String.length (integer_text n)) as Hw' by lia.
  rewrite Hw' at 1. rewrite string_take_length.
  by replace (w - String.length (integer_text n))%nat with 0%nat by lia.
Qed.

Lemma zero_padded_suffix prefix (w : nat) (n : Z) :
  0 < n -> suffix_of prefix (prefix +:+ zero_padded w n) = Some n.
Proof.
  intros Hn. unfold suffix_of. rewrite strip_prefix_app. simpl.
  destruct (integer_text_digits n Hn) as [Hd Hv].
  unfold zero_padded. fold (integer_text n).
  rewrite digits1_app by (done || apply all_digits_replicate_zero).
  by rewrite digits_value_replicate_zero, Hv.
Qed.

Lemma where_matches_cons pattern s store :
  where_matches pattern (Some <$> s :: store)
  = (if pattern s then [s] else []) ++ where_matches pattern (Some <$> store).
Proof. unfold where_matches. simpl. by destruct (pattern s). Qed.

Lemma suffixes_cons prefix s store :
  suffixes prefix (s :: store)
  = option_list (suffix_of prefix s) ++ suffixes prefix store.
Proof. unfold suffixes. simpl. by destruct (suffix_of prefix s). Qed.

Lemma omap_id_Some {A} (l : list A) : omap id (Some <$> l) = l.
Proof. induction l as [|x l IH]; [done|]. cbn. by f_equal. Qed.

Lemma cast_integer_digits d :
  digits1 d = true -> digits_value 0 d <= int4_max ->
  cast_integer d = Ok (digits_value 0 d).
Proof.
  intros Hd Hv. unfold cast_integer. rewrite Hd.
  assert (in_int4 (digits_value 0 d) = true) as ->; [|done].
  unfold in_int4. pose proof (digits_value_nonneg 0 d).
  apply andb_true_iff; split; apply Z.leb_le; unfold int4_min; lia.
Qed.

Section one_family.
Variables (prefix : text) (extract : text -> option text).
Hypothesis extract_suffix : forall s rest,
  strip_prefix prefix s = Some rest -> digits1 rest = true ->
  extract s = Some rest.

Lemma cast_selected store :
  Forall (fun v => v <= int4_max) (suffixes prefix store) ->
  mapM (fun s => match extract s with
                 | Some d => n ← cast_integer d; Ok (Some n)
                 | None => Ok None
                 end)
    (where_matches (matches_numbered prefix) (Some <$> store))
  = Ok (Some <$> suffixes prefix store).
Proof.
  induction store as [|s store IH]; [done|].
  rewrite where_matches_cons, suffixes_cons.
  unfold matches_numbered at 1. unfold suffix_of.
  destruct (strip_prefix prefix s) as [rest|] eqn:Hs; simpl; [|exact IH].
  destruct (digits1 rest) eqn:Hd; simpl; [|exact IH].
  intros [Hv Hrest]%Forall_cons.
  rewrite (extract_suffix _ _ Hs Hd), cast_integer_digits by done.
  simpl. by rewrite (IH Hrest).
Qed.

Lemma select_next_number_highest store :
  highest prefix store < int4_max ->
  select_next_number (matches_numbered prefix) extract (Some <$> store)
  = Ok (highest prefix store + 1).
Proof.
  intros Hmax. unfold select_next_number. rewrite cast_selected.
  - simpl. rewrite omap_id_Some. fold (highest prefix store).
    unfold int4_add, in_int4. pose proof (highest_nonneg prefix store).
    rewrite (proj2 (andb_true_iff _ _)); [done|].
    split; apply Z.leb_le; unfold int4_min; lia.
  - apply Forall_forall. intros v Hv%highest_upper. lia.
Qed.
End one_family.

Lemma substring_from_suffix prefix s rest :
  strip_prefix prefix s = Some rest ->
  substring_from s (S (String.length prefix)) = rest.
Proof.
  intros ->%strip_prefix_Some. unfold substring_from.
  replace (S (String.length prefix) - 1)%nat with (String.length prefix) by lia.
  apply string_drop_app.
Qed.

Lemma substring_capture_suffix prefix s rest :
  strip_prefix prefix s = Some rest -> digits1 rest = true ->
  substring_capture prefix s = Some rest.
Proof.
  intros Hs Hd.
  assert (take_digits rest = rest) as Ht
    by (by apply take_digits_all, digits1_all_digits).
  destruct s; simpl; rewrite Hs, Ht; by destruct rest.
Qed.

(** Below the width, the purchase-order generator returns what the
    specification asks for. *)
Lemma generate_po_number_in_range store :
  highest "PO-" store + 1 < 10 ^ 6 ->
  generate_po_number store = Ok (spec_next "PO-" 6 store).
Proof.
  intros Hm. unfold generate_po_number.
  rewrite (select_next_number_highest "PO-");
    [|apply substring_capture_suffix|unfold int4_max; lia].
  simpl. pose proof (highest_nonneg "PO-" store).
  rewrite (lpad_zero_padded _ 6) by (done || lia).
  by rewrite spec_next_highest.
Qed.

(** So do the other three when the conflicting name is taken for the
    column. *)
Lemma generate_invoice_number_in_range store :
  highest "INV-" store + 1 < 10 ^ 3 ->
  generate_invoice_number use_column store = Ok (spec_next "INV-" 3 store).
Proof.
  intros Hm. unfold generate_invoice_number.
  change (resolve _ _ _ _) with (Ok to_column).
  change (Ok to_column ≫= ?k) with (k to_column). cbv beta.
  change (reference to_column <$> store) with (Some <$> store).
  rewrite (select_next_number_highest "INV-");
    [|intros s rest Hs _; f_equal; by apply (substring_from_suffix "INV-")
     |unfold int4_max; lia].
  simpl. pose proof (highest_nonneg "INV-" store).
  rewrite (lpad_zero_padded _ 3) by (done || lia).
  by rewrite spec_next_highest.
Qed.

Lemma generate_order_number_in_range store :
  highest "ORD-" store + 1 < 10 ^ 3 ->
  generate_order_number use_column store = Ok (spec_next "ORD-" 3 store).
Proof.
  intros Hm. unfold generate_order_number.
  change (resolve _ _ _ _) with (Ok to_column).
  change (Ok to_column ≫= ?k) with (k to_column). cbv beta.
  change (reference to_column <$> store) with (Some <$> store).
  rewrite (select_next_number_highest "ORD-");
    [|intros s rest Hs _; f_equal; by apply (substring_from_suffix "ORD-")
     |unfold int4_max; lia].
  simpl. pose proof (highest_nonneg "ORD-" store).
  rewrite (lpad_zero_padded _ 3) by (done || lia).
  by rewrite spec_next_highest.
Qed.

Lemma generate_payment_number_in_range store :
  highest "PAY-" store + 1 < 10 ^ 3 ->
  generate_payment_number use_column store = Ok (spec_next "PAY-" 3 store).
Proof.
  intros Hm. unfold generate_payment_number.
  change (resolve _ _ _ _) with (Ok to_column).
  change (Ok to_column ≫= ?k) with (k to_column). cbv beta.
  change (reference to_column <$> store) with (Some <$> store).
  rewrite (select_next_number_highest "PAY-");
    [|intros s rest Hs _; f_equal; by apply (substring_from_suffix "PAY-")
     |unfold int4_max; lia].
  simpl. pose proof (highest_nonneg "PAY-" store).
  rewrite (lpad_zero_padded _ 3) by (done || lia).
  by rewrite spec_next_highest.
Qed.

(** *** Sequential generation below the width *)

Lemma numbered_from_suffix prefix width m n :
  0 <= m ->
  suffix_of prefix <$> numbered_from prefix width m n
  = Some <$> ((fun k => m + Z.of_nat k) <$> seq 1 n).
Proof.
  revert m. induction n as [|n IH]; intros m Hm; [done|].
  simpl numbered_from. rewrite fmap_cons, zero_padded_suffix, IH by lia.
  change (seq 1 (S n)) with (1%nat :: seq 2 n).
  rewrite <-(fmap_S_seq 1), !fmap_cons. f_equal.
  rewrite <-(list_fmap_compose S). f_equal. apply list_fmap_ext.
  intros _ k _. simpl. lia.
Qed.

Lemma consecutive_sorted m a n :
  StronglySorted Z.lt ((fun k => m + Z.of_nat k) <$> seq a n).
Proof.
  revert a. induction n as [|n IH]; intros a; [constructor|].
  simpl. constructor; [apply IH|].
  apply Forall_fmap, Forall_forall. intros k Hk%elem_of_seq. simpl. lia.
Qed.

Lemma suffixes_of_fmap prefix ids nums :
  suffix_of prefix <$> ids = Some <$> nums -> suffixes prefix ids = nums.
Proof.
  revert nums. induction ids as [|i ids IH]; intros [|x nums] H; try done.
  rewrite !fmap_cons in H. injection H as Hi Hids.
  rewrite suffixes_cons, Hi. simpl. f_equal. by apply IH.
Qed.

Lemma generate_sequentially_step gen n store :
  generate_sequentially gen (S (S n)) store
  = number ← gen store;
    store' ← persist number store;
    rest ← generate_sequentially gen (S n) store';
    Ok (number :: rest).
Proof. done. Qed.

Section sequential.
Variables (prefix : text) (width : nat) (gen : list text -> result text).
Hypothesis gen_in_range : forall store,
  highest prefix store + 1 < 10 ^ Z.of_nat width ->
  gen store = Ok (spec_next prefix width store).

Lemma next_not_in_store store :
  prefix +:+ zero_padded width (highest prefix store + 1) ∉ store.
Proof.
  intros Hin. pose proof (highest_nonneg prefix store).
  assert (highest prefix store + 1 ∈ suffixes prefix store) as Hs.
  { apply list_elem_of_omap. eexists; split; [done|].
    apply zero_padded_suffix. lia. }
  apply highest_upper in Hs. lia.
Qed.

Lemma highest_after_persist store :
  highest prefix
    (store ++ [prefix +:+ zero_padded width (highest prefix store + 1)])
  = highest prefix store + 1.
Proof.
  pose proof (highest_nonneg prefix store).
  unfold highest at 1, suffixes. rewrite omap_app. simpl.
  rewrite zero_padded_suffix by lia. simpl.
  rewrite max_agg_snoc; [done|].
  apply Forall_forall. intros v Hv%highest_upper. lia.
Qed.

Lemma generate_sequentially_in_range n store :
  highest prefix store + Z.of_nat n < 10 ^ Z.of_nat width ->
  generate_sequentially gen n store
  = Ok (numbered_from prefix width (highest prefix store) n).
Proof.
  revert store. induction n as [|n IH]; intros store Hn; [done|].
  destruct n as [|n].
  - simpl. by rewrite gen_in_range, spec_next_highest by lia.
  - rewrite generate_sequentially_step, gen_in_range, spec_next_highest by lia.
    rewrite bind_Ok. unfold persist.
    rewrite bool_decide_eq_false_2 by apply next_not_in_store.
    rewrite bind_Ok, IH by (rewrite highest_after_persist; lia).
    by rewrite bind_Ok, highest_after_persist.
Qed.

Lemma suffix_matches s v :
  suffix_of prefix s = Some v -> matches_numbered prefix s = true.
Proof.
  unfold suffix_of, matches_numbered.
  destruct (strip_prefix prefix s) as [d|]; simpl; [|done].
  by destruct (digits1 d).
Qed.

(** Below the width, [n] identifiers generated in sequence all match
    the family's pattern, and their suffixes are the next [n] numbers:
    strictly increasing, hence pairwise distinct. *)
Lemma sequence_in_range n store :
  highest prefix store + Z.of_nat n < 10 ^ Z.of_nat width ->
  exists ids,
    generate_sequentially gen n store = Ok ids
    /\ length ids = n
    /\ Forall (fun i => matches_numbered prefix i = true) ids
    /\ suffixes prefix ids
       = (fun k => highest prefix store + Z.of_nat k) <$> seq 1 n
    /\ StronglySorted Z.lt (suffixes prefix ids)
    /\ NoDup ids.
Proof.
  intros Hn. eexists. split; [by apply generate_sequentially_in_range|].
  pose proof (numbered_from_suffix prefix width _ n
                (highest_nonneg prefix store)) as Hs.
  pose proof (suffixes_of_fmap _ _ _ Hs) as Hs'.
  pose proof (consecutive_sorted (highest prefix store) 1 n) as Hsorted.
  repeat split.
  - apply (f_equal length) in Hs. by rewrite !length_fmap, length_seq in Hs.
  - apply Forall_forall. intros i Hi.
    assert (suffix_of prefix i ∈ suffix_of prefix <$> numbered_from prefix
              width (highest prefix store) n) as Hin
      by (by apply list_elem_of_fmap_2).
    rewrite Hs in Hin. apply list_elem_of_fmap in Hin as (v & Hv & _).
    by eapply suffix_matches.
  - done.
  - by rewrite Hs'.
  - apply (NoDup_fmap_1 (suffix_of prefix)). rewrite Hs.
    apply (NoDup_fmap_2 _). by apply strictly_sorted_NoDup.
Qed.
End sequential.

End sequence_facts.

(** C1. The sequence generator is to return the prefix followed by the
    highest matching suffix plus one, zero-padded to the family's width.
    The functions pad with [LPAD], which cuts a longer number down to the
    width: after [PO-999999] the purchase-order generator returns
    [PO-100000] where the specified identifier is [PO-1000000].  The
    invoice, order and payment generators do not return at all under the
    server's default setting: each names its number column unqualified
    next to a variable of the same name, which PL/pgSQL refuses. *)
Theorem generator_departs_from_spec :
  SequenceGenerator.generate_po_number ["PO-999999"] = Ok "PO-100000"
  /\ SequenceGenerator.spec_next "PO-" 6 ["PO-999999"] = "PO-1000000"
  /\ (forall invoices,
        SequenceGenerator.generate_invoice_number
          SequenceGenerator.conflict_error invoices
        = Err (ambiguous_column "invoice_number"))
  /\ (forall sales_orders,
        SequenceGenerator.generate_order_number
          SequenceGenerator.conflict_error sales_orders
        = Err (ambiguous_column "order_number"))
  /\ (forall payments,
        SequenceGenerator.generate_payment_number
          SequenceGenerator.conflict_error payments
        = Err (ambiguous_column "payment_number")).
Proof. repeat split; by vm_compute. Qed.

(** X6. Once the highest purchase-order suffix plus one needs more than six
    digits (and still fits an INTEGER), [generate_po_number] returns an
    identifier of nine characters, which is never the specified one. *)
Theorem po_generator_past_width (store : list Sql.text) :
  10 ^ 6 <= SequenceGenerator.highest "PO-" store + 1 ->
  SequenceGenerator.highest "PO-" store < Sql.int4_max ->
  exists number,
    SequenceGenerator.generate_po_number store = Ok number
    /\ String.length number = 9%nat
    /\ number <> SequenceGenerator.spec_next "PO-" 6 store.
Proof.
  intros Hlow Hmax. unfold SequenceGenerator.generate_po_number.
  rewrite (select_next_number_highest "PO-");
    [|apply substring_capture_suffix|done].
  rewrite bind_Ok. eexists. split; [done|].
  pose proof (integer_text_length_lower _ 6 Hlow) as Hlen.
  assert (String.length
            ("PO-" +:+ Sql.lpad
               (Sql.integer_text (SequenceGenerator.highest "PO-" store + 1)) 6 "0")
          = 9%nat) as Hnine.
  { rewrite string_length_app. unfold Sql.lpad.
    rewrite (proj2 (Nat.leb_le _ _)) by lia.
    by rewrite string_length_take by lia. }
  split; [done|].
  intros Heq. rewrite Heq, spec_next_highest in Hnine.
  unfold SequenceGenerator.zero_padded in Hnine.
  fold (Sql.integer_text (SequenceGenerator.highest "PO-" store + 1)) in Hnine.
  rewrite !string_length_app in Hnine. simpl in Hnine. lia.
Qed.

Lemma po_generator_past_width_witness :
  exists number,
    SequenceGenerator.generate_po_number ["PO-1234567"; "PO-000002"] = Ok number
    /\ String.length number = 9%nat
    /\ number <> SequenceGenerator.spec_next "PO-" 6 ["PO-1234567"; "PO-000002"].
Proof.
  apply (po_generator_past_width ["PO-1234567"; "PO-000002"]); by vm_compute.
Defined.

(** C2. Identifiers generated in sequence, each persisted before the next
    is generated, are to be pairwise distinct with strictly increasing
    suffixes.  From a store holding [PO-999999] the generator returns
    [PO-100000] twice in a row (and [INV-100] twice after [INV-999], even
    with the column reading of the conflicting name); with the default
    setting the specification's own example, the store
    [{INV-001, INV-003, INV-BAD}], yields an error instead of [INV-004]. *)
Theorem sequence_repeats_past_width :
  SequenceGenerator.generate_sequentially
    SequenceGenerator.generate_po_number 2 ["PO-999999"]
  = Ok ["PO-100000"; "PO-100000"]
  /\ SequenceGenerator.generate_sequentially
       (SequenceGenerator.generate_invoice_number SequenceGenerator.use_column)
       2 ["INV-999"]
     = Ok ["INV-100"; "INV-100"]
  /\ SequenceGenerator.generate_invoice_number SequenceGenerator.use_column
       ["INV-001"; "INV-003"; "INV-BAD"]
     = Ok "INV-004"
  /\ SequenceGenerator.generate_invoice_number SequenceGenerator.conflict_error
       ["INV-001"; "INV-003"; "INV-BAD"]
     = Err (ambiguous_column "invoice_number").
Proof. repeat split; by vm_compute. Qed.

(** X1. Below the width (and, for the three older functions, with the
    conflicting name read as the column) every generator returns the
    identifier the specification describes; identifiers that do not match
    the pattern play no part, since [spec_next] does not look at them. *)
Theorem generators_agree_below_width :
  (forall store,
     SequenceGenerator.highest "PO-" store + 1 < 10 ^ 6 ->
     SequenceGenerator.generate_po_number store
     = Ok (SequenceGenerator.spec_next "PO-" 6 store))
  /\ (forall store,
        SequenceGenerator.highest "INV-" store + 1 < 10 ^ 3 ->
        SequenceGenerator.generate_invoice_number SequenceGenerator.use_column store
        = Ok (SequenceGenerator.spec_next "INV-" 3 store))
  /\ (forall store,
        SequenceGenerator.highest "ORD-" store + 1 < 10 ^ 3 ->
        SequenceGenerator.generate_order_number SequenceGenerator.use_column store
        = Ok (SequenceGenerator.spec_next "ORD-" 3 store))
  /\ (forall store,
        SequenceGenerator.highest "PAY-" store + 1 < 10 ^ 3 ->
        SequenceGenerator.generate_payment_number SequenceGenerator.use_column store
        = Ok (SequenceGenerator.spec_next "PAY-" 3 store)).
Proof.
  split; [exact generate_po_number_in_range|].
  split; [exact generate_invoice_number_in_range|].
  split; [exact generate_order_number_in_range|].
  exact generate_payment_number_in_range.
Qed.

Lemma generators_agree_below_width_witness :
  SequenceGenerator.generate_po_number ["PO-000041"; "PO-12x"; "xPO-77"]
  = Ok "PO-000042".
Proof.
  apply (proj1 generators_agree_below_width ["PO-000041"; "PO-12x"; "xPO-77"]).
  by vm_compute.
Defined.

(** X2. Below the width, purchase-order numbers generated in sequence
    match the pattern, are pairwise distinct, and carry the next [n]
    numbers. *)
Theorem po_sequence_below_width (n : nat) (store : list Sql.text) :
  SequenceGenerator.highest "PO-" store + Z.of_nat n < 10 ^ 6 ->
  exists ids,
    SequenceGenerator.generate_sequentially
      SequenceGenerator.generate_po_number n store = Ok ids
    /\ length ids = n
    /\ Forall (fun i => Sql.matches_numbered "PO-" i = true) ids
    /\ SequenceGenerator.suffixes "PO-" ids
       = (fun k => SequenceGenerator.highest "PO-" store + Z.of_nat k) <$> seq 1 n
    /\ StronglySorted Z.lt (SequenceGenerator.suffixes "PO-" ids)
    /\ NoDup ids.
Proof.
  apply (sequence_in_range "PO-" 6). exact generate_po_number_in_range.
Qed.

Lemma po_sequence_below_width_witness :
  exists ids,
    SequenceGenerator.generate_sequentially
      SequenceGenerator.generate_po_number 3 ["PO-000007"; "PO-BAD"] = Ok ids
    /\ length ids = 3%nat
    /\ Forall (fun i => Sql.matches_numbered "PO-" i = true) ids
    /\ SequenceGenerator.suffixes "PO-" ids
       = (fun k => SequenceGenerator.highest "PO-" ["PO-000007"; "PO-BAD"]
                   + Z.of_nat k) <$> seq 1 3
    /\ StronglySorted Z.lt (SequenceGenerator.suffixes "PO-" ids)
    /\ NoDup ids.
Proof.
  apply (po_sequence_below_width 3 ["PO-000007"; "PO-BAD"]). by vm_compute.
Defined.

(** ** Document forms *)


Lemma Forall_alter_set {A} (P : A -> Prop) (g h : A -> A) (index : nat) (l : list A) :
  Forall P l ->
  (forall x, l !! index = Some x -> P (h (g x))) ->
  Forall P (alter h index (alter g index l)).
Proof.
  intros Hl Hx. rewrite list_alter_alter_eq.
  apply Forall_alter; [done|]. intros x Hix _. by apply Hx.
Qed.

Section purchase_order_form.
Import PurchaseOrderForm.

Lemma po_set_and_total index g f :
  Forall line_total_ok (items f) ->
  Forall line_total_ok (items (calculateItemTotal index (setItem index g f))).
Proof.
  intros Hf. unfold calculateItemTotal.
  destruct (items (setItem index g f) !! index) as [row|] eqn:Hrow.
  - simpl in *. rewrite list_lookup_alter_eq in Hrow.
    apply Forall_alter_set; [done|].
    intros x Hx. rewrite Hx in Hrow. simpl in Hrow. injection Hrow as <-.
    reflexivity.
  - simpl in *. rewrite list_lookup_alter_eq in Hrow.
    apply Forall_alter; [done|]. intros x Hx. by rewrite Hx in Hrow.
Qed.

Lemma po_handle_ok f e :
  Forall line_total_ok (items f) -> Forall line_total_ok (items (handle f e)).
Proof.
  intros Hf. destruct e; simpl handle; try by apply po_set_and_total.
  - done.
  - simpl. apply Forall_app; split; [done|]. by repeat constructor.
  - simpl. by apply Forall_delete.
Qed.

Lemma po_fold_ok events f :
  Forall line_total_ok (items f) ->
  Forall line_total_ok (items (fold_left handle events f)).
Proof.
  revert f. induction events as [|e events IH]; intros f Hf; [done|].
  simpl. by apply IH, po_handle_ok.
Qed.

Lemma po_after_ok events : Forall line_total_ok (items (after events)).
Proof. apply po_fold_ok. by repeat constructor. Qed.

End purchase_order_form.

Section sales_order_form.
Import SalesOrderForm.

Lemma so_set_and_total index g f :
  Forall line_total_ok (items f) ->
  Forall line_total_ok (items (calculateItemTotal index (setItem index g f))).
Proof.
  intros Hf. unfold calculateItemTotal.
  destruct (items (setItem index g f) !! index) as [row|] eqn:Hrow.
  - simpl in *. rewrite list_lookup_alter_eq in Hrow.
    apply Forall_alter_set; [done|].
    intros x Hx. rewrite Hx in Hrow. simpl in Hrow. injection Hrow as <-.
    reflexivity.
  - simpl in *. rewrite list_lookup_alter_eq in Hrow.
    apply Forall_alter; [done|]. intros x Hx. by rewrite Hx in Hrow.
Qed.

Lemma so_handle_ok f e :
  Forall line_total_ok (items f) -> Forall line_total_ok (items (handle f e)).
Proof.
  intros Hf. destruct e; simpl handle; try by apply so_set_and_total.
  - done.
  - simpl. apply Forall_app; split; [done|]. by repeat constructor.
  - simpl. by apply Forall_delete.
Qed.

Lemma so_fold_ok events f :
  Forall line_total_ok (items f) ->
  Forall line_total_ok (items (fold_left handle events f)).
Proof.
  revert f. induction events as [|e events IH]; intros f Hf; [done|].
  simpl. by apply IH, so_handle_ok.
Qed.

Lemma so_after_ok events : Forall line_total_ok (items (after events)).
Proof. apply so_fold_ok. by repeat constructor. Qed.

End sales_order_form.

Section form_payloads.



End form_payloads.




(** X5. A form opened on a stored document whose line totals are quantity ×
    unit price keeps them so through every event. *)
Theorem form_events_keep_line_totals :
  (forall f events,
     Forall PurchaseOrderForm.line_total_ok (PurchaseOrderForm.items f) ->
     Forall PurchaseOrderForm.line_total_ok
       (PurchaseOrderForm.items (fold_left PurchaseOrderForm.handle events f)))
  /\ (forall f events,
        Forall SalesOrderForm.line_total_ok (SalesOrderForm.items f) ->
        Forall SalesOrderForm.line_total_ok
          (SalesOrderForm.items (fold_left SalesOrderForm.handle events f))).
Proof.
  split; intros f events Hf; [by apply po_fold_ok|by apply so_fold_ok].
Qed.

Lemma form_events_keep_line_totals_witness :
  Forall SalesOrderForm.line_total_ok
    (SalesOrderForm.items
       (fold_left SalesOrderForm.handle
          [SalesOrderForm.append; SalesOrderForm.productChange 1 4.25;
           SalesOrderForm.quantityChange 1 2]
          (SalesOrderForm.Values [SalesOrderForm.Item 3 12.5 37.5] 8))).
Proof.
  apply (proj2 form_events_keep_line_totals).
  repeat constructor.
Defined.

(** ** Stock ledger *)

Section ledger_facts.
Import Sql StockLedger.

Lemma request_run {A} (statement : database -> result (A * database)) w :
  request statement w
  = if refuses (head (script w)) then
      (Ok (Err request_failed),
       World (db w) (session_user w) (clock w) (tail (script w)))
    else
      match statement (db w) with
      | Ok (a, d) => (Ok (Ok a), World d (session_user w) (clock w) (tail (script w)))
      | Err e =>
          (Ok (Err e), World (db w) (session_user w) (clock w) (tail (script w)))
      end.
Proof. unfold request. by destruct (head (script w)) as [[]|]. Qed.

(** [createStockMovement], step by step. *)
Lemma createStockMovement_run m w :
  createStockMovement m w
  = let s1 := tail (script w) in
    let s2 := tail s1 in
    let s3 := tail s2 in
    if refuses (head (script w)) then
      (Err request_failed, World (db w) (session_user w) (clock w) s1)
    else
      match insert_stock_movement (payload_of w m) (db w) with
      | Err e => (Err e, World (db w) (session_user w) (clock w) s1)
      | Ok (new, d1) =>
          if refuses (head s1) then
            (Err request_failed, World d1 (session_user w) (clock w) s2)
          else
            match update_product_stock (product_id m) (stock_after m) d1 with
            | Err e => (Err e, World d1 (session_user w) (clock w) s2)
            | Ok (_, d2) => (Ok new, World d2 (session_user w) (clock w) s3)
            end
      end.
Proof.
  unfold createStockMovement, try_catch, fetchStockMovements, try_catch.
  unfold mbind, io_bind, getUser. rewrite request_run. fold (payload_of w m).
  destruct (refuses (head (script w))); [done|].
  destruct (insert_stock_movement _ _) as [[new d1]|e]; [|done].
  cbn [or_throw mret io_ret]. rewrite request_run. cbn [script db session_user clock].
  destruct (refuses (head (tail (script w)))); [done|].
  destruct (update_product_stock _ _ _) as [[[] d2]|e]; [|done].
  cbn [or_throw mret io_ret]. rewrite request_run. cbn [script db session_user clock].
  unfold select_stock_movements.
  by destruct (refuses _).
Qed.

Lemma insert_stock_movement_Ok m d id stored d1 :
  insert_stock_movement m d = Ok ((id, stored), d1) ->
  stored = m
  /\ stock_movements d !! id = None
  /\ is_Some (products d !! product_id m)
  /\ d1 = set_stock_movements (<[id := m]> (stock_movements d)) d.
Proof.
  unfold insert_stock_movement.
  destruct (negb _); [done|].
  destruct (negb (bool_decide _)) eqn:Hfk; [done|].
  intros [= <- <- <-].
  apply negb_false_iff, bool_decide_eq_true in Hfk.
  repeat split; [|done].
  apply not_elem_of_dom, is_fresh.
Qed.

Lemma update_product_stock_Ok pid v d u d2 :
  update_product_stock pid v d = Ok (u, d2) ->
  d2 = set_products
         (alter (fun p => Product (name p) (sku p) (Some v)) pid (products d)) d.
Proof. unfold update_product_stock. destruct (in_int4 v); [|done]. by intros [= <- <-]. Qed.

(** What a successful [createStockMovement] leaves behind. *)
Lemma createStockMovement_Ok m w id stored w' :
  createStockMovement m w = (Ok (id, stored), w') ->
  stored = payload_of w m
  /\ stock_movements (db w) !! id = None
  /\ stock_movements (db w') = <[id := stored]> (stock_movements (db w))
  /\ is_Some (products (db w) !! product_id m)
  /\ products (db w')
     = alter (fun p => Product (name p) (sku p) (Some (stock_after m)))
         (product_id m) (products (db w)).
Proof.
  rewrite createStockMovement_run. cbv zeta.
  destruct (refuses (head (script w))); [done|].
  destruct (insert_stock_movement _ _) as [[[id' stored'] d1]|e] eqn:Hins; [|done].
  destruct (refuses _); [done|].
  destruct (update_product_stock _ _ _) as [[u d2]|e] eqn:Hupd; [|done].
  intros [= -> -> <-].
  apply insert_stock_movement_Ok in Hins as (-> & Hfresh & Hprod & ->).
  apply update_product_stock_Ok in Hupd as ->. by simpl.
Qed.

End ledger_facts.

(** C4, as the code has it.  A movement recorded through
    [createStockMovement] is stored with the quantities the caller
    supplied, and right after it the product's stock is the movement's
    [stock_after]; the adjustment helper, called with current stock [c]
    and new stock [n], records quantity_change = n - c, type adjustment,
    stock_before = c and stock_after = n, so that stock_after -
    stock_before = quantity_change, and leaves the product's stock at
    [n]. *)
Theorem ledger_records_what_it_is_given :
  (forall w m id stored w',
     StockLedger.createStockMovement m w = (Ok (id, stored), w') ->
     stock_movements (db w') !! id = Some stored
     /\ stock_movements (db w) !! id = None
     /\ quantity_change stored = quantity_change m
     /\ stock_before stored = stock_before m
     /\ stock_after stored = stock_after m
     /\ stock <$> products (db w') !! product_id m = Some (Some (stock_after stored)))
  /\ (forall w productId productName productSku c n why w',
        StockLedger.createStockAdjustment productId productName productSku c n why w
        = (Ok tt, w') ->
        exists id stored,
          stock_movements (db w') !! id = Some stored
          /\ stock_movements (db w) !! id = None
          /\ product_id stored = productId
          /\ movement_type_of stored = adjustment
          /\ quantity_change stored = n - c
          /\ stock_before stored = c
          /\ stock_after stored = n
          /\ stock_after stored - stock_before stored = quantity_change stored
          /\ stock <$> products (db w') !! productId = Some (Some n)).
Proof.
  assert (forall w m id stored w',
     StockLedger.createStockMovement m w = (Ok (id, stored), w') ->
     stock_movements (db w') !! id = Some stored
     /\ stock_movements (db w) !! id = None
     /\ stored = StockLedger.payload_of w m
     /\ stock <$> products (db w') !! product_id m = Some (Some (stock_after m)))
    as Hcreate.
  { intros w m id stored w' (-> & Hfresh & Hmov & [p Hp] & Hprod)%createStockMovement_Ok.
    rewrite Hmov, Hprod, lookup_insert_eq, lookup_alter_eq, Hp. done. }
  split.
  - intros w m id stored w' (? & ? & -> & ?)%Hcreate. by simpl.
  - intros w productId productName productSku c n why w' H.
    unfold StockLedger.createStockAdjustment, mbind, io_bind, now in H.
    destruct (StockLedger.createStockMovement _ w) as [[[id stored]|e] w1] eqn:Hrun;
      [|done].
    injection H as <-.
    apply Hcreate in Hrun as (? & ? & -> & ?).
    exists id, (StockLedger.payload_of w
                  (StockMovement productId productName productSku adjustment
                     (n - c) c n (Some why) None None (clock w) None)).
    simpl in *. by repeat split.
Qed.

Lemma ledger_records_what_it_is_given_witness :
  stock <$> products
    (db (snd (StockLedger.createStockMovement Sample.adjustment_50_35
                (Sample.world_of [])))) !! "p1"
  = Some (Some 35).
Proof.
  assert (StockLedger.createStockMovement Sample.adjustment_50_35 (Sample.world_of [])
          = (Ok ("0", StockLedger.payload_of (Sample.world_of []) Sample.adjustment_50_35),
             snd (StockLedger.createStockMovement Sample.adjustment_50_35
                    (Sample.world_of [])))) as Hrun by (by vm_compute).
  exact (proj2 (proj2 (proj2 (proj2 (proj2
    (proj1 ledger_records_what_it_is_given _ _ _ _ _ Hrun)))))).
Defined.

(** C4, the claim as stated fails: [createStockMovement] stores a movement
    whose [stock_after - stock_before] is not its [quantity_change] when
    the caller supplies such numbers (here 0, 50 and 5). *)
Lemma ledger_stores_inconsistent_movement :
  exists id stored w',
    StockLedger.createStockMovement Sample.inconsistent_movement (Sample.world_of [])
    = (Ok (id, stored), w')
    /\ stock_movements (db w') !! id = Some stored
    /\ stock_after stored - stock_before stored <> quantity_change stored.
Proof. eexists _, _, _. by vm_compute. Qed.

(** C6, the claim as stated fails: when the insert is served and the
    product update is refused, the operation reports the failure and the
    movement is persisted while the product's stock is still 50. *)
Lemma ledger_partial_write :
  exists e w',
    StockLedger.createStockMovement Sample.adjustment_50_35
      (Sample.world_of [served; refused]) = (Err e, w')
    /\ stock_movements (db (Sample.world_of [served; refused])) !! "0" = None
    /\ stock_movements (db w') !! "0"
       = Some (StockLedger.payload_of (Sample.world_of [served; refused])
                 Sample.adjustment_50_35)
    /\ stock <$> products (db w') !! "p1" = Some (Some 50).
Proof. eexists _, _. by vm_compute. Qed.

(** C6, as the code has it.  [createStockMovement] sends the insert of the
    movement and then the update of the product's stock, and stops at the
    first of the two that fails.  If the insert fails (the request is
    refused, or the table rejects the row), the operation throws that
    error and nothing is written.  If the insert goes through and the
    update fails (the request is refused, or the value is rejected), the
    operation throws that error, the movement stays persisted and the
    products table is as it was.  If both go through, the operation
    returns the inserted movement, the movement is persisted and the
    product's stock is the movement's [stock_after]. *)
Theorem ledger_outcomes (w : world) (m : stock_movement) :
  let run := StockLedger.createStockMovement m w in
  let insert :=
    if refuses (head (script w)) then Err request_failed
    else StockLedger.insert_stock_movement (StockLedger.payload_of w m) (db w) in
  match insert with
  | Err e => fst run = Err e /\ db (snd run) = db w
  | Ok ((id, stored), d1) =>
      let update :=
        if refuses (head (tail (script w))) then Err request_failed
        else StockLedger.update_product_stock (product_id m) (stock_after m) d1 in
      stored = StockLedger.payload_of w m
      /\ stock_movements (db w) !! id = None
      /\ d1 = set_stock_movements (<[id := stored]> (stock_movements (db w))) (db w)
      /\ match update with
         | Err e =>
             fst run = Err e
             /\ db (snd run) = d1
             /\ stock_movements (db (snd run)) !! id = Some stored
             /\ products (db (snd run)) = products (db w)
         | Ok (_, d2) =>
             fst run = Ok (id, stored)
             /\ db (snd run) = d2
             /\ stock_movements (db (snd run)) !! id = Some stored
             /\ products (db (snd run))
                = alter (fun p => Product (name p) (sku p) (Some (stock_after m)))
                    (product_id m) (products (db w))
         end
  end.
Proof.
  cbv zeta. rewrite createStockMovement_run. cbv zeta.
  destruct (refuses (head (script w))); [done|].
  destruct (StockLedger.insert_stock_movement _ _) as [[[id stored] d1]|e] eqn:Hins;
    [|done].
  apply insert_stock_movement_Ok in Hins as (-> & Hfresh & _ & ->).
  split; [done|]. split; [done|]. split; [done|].
  destruct (refuses (head (tail (script w)))).
  { simpl. by rewrite lookup_insert_eq. }
  destruct (StockLedger.update_product_stock _ _ _) as [[u d2]|e] eqn:Hupd.
  - apply update_product_stock_Ok in Hupd as ->. simpl. by rewrite lookup_insert_eq.
  - simpl. by rewrite lookup_insert_eq.
Qed.

(** C8. Updating a stock movement, whatever the change, and deleting one
    leave the products table, and with it every product's stock, as it
    was, whether the request is served or refused. *)
Theorem movement_edits_leave_products (id : uuid)
    (updates : stock_movement -> stock_movement) (w : world) :
  products (db (snd (StockLedger.updateStockMovement id updates w))) = products (db w)
  /\ products (db (snd (StockLedger.deleteStockMovement id w))) = products (db w).
Proof.
  split.
  - unfold StockLedger.updateStockMovement, StockLedger.fetchStockMovements, try_catch.
    unfold mbind, io_bind. rewrite request_run.
    destruct (refuses (head (script w))); [done|].
    unfold StockLedger.update_stock_movement.
    destruct (stock_movements (db w) !! id) as [old|]; cbn [or_throw mret io_ret].
    + destruct (negb _); [done|]. destruct (negb _); [done|].
      cbn [or_throw mret io_ret]. rewrite request_run.
      by destruct (refuses _).
    + rewrite request_run. by destruct (refuses _).
  - unfold StockLedger.deleteStockMovement, StockLedger.fetchStockMovements, try_catch.
    unfold mbind, io_bind. rewrite request_run.
    destruct (refuses (head (script w))); [done|].
    unfold StockLedger.delete_stock_movement. cbn [or_throw mret io_ret].
    rewrite request_run. by destruct (refuses _).
Qed.

(** ** Documents *)

Section document_facts.
Import Sql CustomerRollup Documents.

Lemma items_of_app id rows1 rows2 :
  items_of id (rows1 ++ rows2) = items_of id rows1 ++ items_of id rows2.
Proof. unfold items_of. by rewrite List.filter_app, fmap_app. Qed.

Lemma items_of_own id (items : list line_item) :
  items_of id (ItemRow id <$> items) = items.
Proof.
  unfold items_of. induction items as [|i items IH]; [done|].
  simpl. rewrite bool_decide_eq_true_2 by done. simpl. by f_equal.
Qed.

Lemma items_of_deleted id rows : items_of id (delete_items id rows) = [].
Proof.
  unfold items_of, delete_items. induction rows as [|r rows IH]; [done|].
  simpl. destruct (bool_decide (parent_id r = id)) eqn:E; simpl; [done|].
  by rewrite E.
Qed.

Lemma update_sales_order_items id changes d u d1 :
  update_sales_order id changes d = Ok (u, d1) ->
  sales_order_items d1 = sales_order_items d.
Proof.
  unfold update_sales_order. destruct (sales_orders d !! id); [|by intros [= <- <-]].
  destruct (negb _); [done|]. destruct (order_number_taken _ _ _); [done|].
  destruct (negb _); [done|]. by intros [= <- <-].
Qed.

Lemma update_purchase_order_items id changes d u d1 :
  update_purchase_order id changes d = Ok (u, d1) ->
  purchase_order_items d1 = purchase_order_items d.
Proof.
  unfold update_purchase_order. destruct (purchase_orders d !! id); [|by intros [= <- <-]].
  destruct (negb _); [done|]. destruct (po_number_taken _ _ _); [done|].
  by intros [= <- <-].
Qed.

Lemma insert_sales_order_items_Ok rows d u d2 :
  insert_sales_order_items rows d = Ok (u, d2) ->
  sales_order_items d2 = sales_order_items d ++ rows.
Proof.
  unfold insert_sales_order_items. destruct (negb _); [done|].
  destruct (negb _); [done|]. by intros [= <- <-].
Qed.

Lemma insert_purchase_order_items_Ok rows d u d2 :
  insert_purchase_order_items rows d = Ok (u, d2) ->
  purchase_order_items d2 = purchase_order_items d ++ rows.
Proof.
  unfold insert_purchase_order_items. destruct (negb _); [done|].
  destruct (negb _); [done|]. by intros [= <- <-].
Qed.

Lemma length_pos_nonempty {A} (l : list A) : l <> [] -> (0 <? length l)%nat = true.
Proof. by destruct l. Qed.

(** [updateSalesOrder] when the delete is refused and the other two
    requests go through. *)
Lemma updateSalesOrder_delete_refused w id changes items d1 d2 :
  refuses (head (script w)) = false ->
  update_sales_order id changes (db w) = Ok (tt, d1) ->
  refuses (head (tail (script w))) = true ->
  items <> [] ->
  refuses (head (tail (tail (script w)))) = false ->
  insert_sales_order_items (ItemRow id <$> items) d1 = Ok (tt, d2) ->
  fst (updateSalesOrder id changes (Some items) w) = Ok tt
  /\ db (snd (updateSalesOrder id changes (Some items) w)) = d2.
Proof.
  intros H1 Hupd H2 Hne H3 Hins.
  unfold updateSalesOrder, fetchSalesOrders, try_catch, mbind, io_bind.
  rewrite request_run, H1, Hupd. cbn [or_throw mret io_ret].
  rewrite request_run. cbn [script db session_user clock]. rewrite H2.
  rewrite (length_pos_nonempty _ Hne).
  rewrite request_run. cbn [script db session_user clock]. rewrite H3, Hins.
  cbn [or_throw mret io_ret]. rewrite request_run. cbn [script db session_user clock].
  by destruct (refuses (head (tail (tail (tail (script w)))))).
Qed.

Lemma updatePurchaseOrder_delete_refused w id changes items d1 d2 :
  refuses (head (script w)) = false ->
  update_purchase_order id changes (db w) = Ok (tt, d1) ->
  refuses (head (tail (script w))) = true ->
  items <> [] ->
  refuses (head (tail (tail (script w)))) = false ->
  insert_purchase_order_items (ItemRow id <$> items) d1 = Ok (tt, d2) ->
  fst (updatePurchaseOrder id changes (Some items) w) = Ok tt
  /\ db (snd (updatePurchaseOrder id changes (Some items) w)) = d2.
Proof.
  intros H1 Hupd H2 Hne H3 Hins.
  unfold updatePurchaseOrder, fetchPurchaseOrders, try_catch, mbind, io_bind.
  rewrite request_run, H1, Hupd. cbn [or_throw mret io_ret].
  rewrite request_run. cbn [script db session_user clock]. rewrite H2.
  rewrite (length_pos_nonempty _ Hne).
  rewrite request_run. cbn [script db session_user clock]. rewrite H3, Hins.
  cbn [or_throw mret io_ret]. rewrite request_run. cbn [script db session_user clock].
  by destruct (refuses (head (tail (tail (tail (script w)))))).
Qed.

Lemma insert_invoice_items_Ok rows d u d2 :
  insert_invoice_items rows d = Ok (u, d2) ->
  invoice_items d2 = invoice_items d ++ rows.
Proof.
  unfold insert_invoice_items. destruct (negb _); [done|].
  destruct (negb _); [done|]. by intros [= <- <-].
Qed.

(** [updateInvoice] with an item list: when it returns, the invoice has
    exactly the supplied lines. *)
Lemma updateInvoice_items w id changes items updated w' :
  updateInvoice id changes (Some items) w = (Ok updated, w') ->
  items_of id (invoice_items (db w')) = items.
Proof.
  unfold updateInvoice, fetchInvoices, try_catch, mbind, io_bind.
  rewrite request_run. destruct (refuses (head (script w))); [done|].
  destruct (update_invoice_single id changes (db w)) as [[i d1]|e]; [|done].
  cbn [or_throw mret io_ret]. rewrite request_run. cbn [script db session_user clock].
  destruct (refuses (head (tail (script w)))); [done|].
  unfold delete_invoice_items. cbn [or_throw mret io_ret].
  rewrite request_run. cbn [script db session_user clock].
  destruct (refuses (head (tail (tail (script w))))); [done|].
  destruct (insert_invoice_items _ _) as [[u d3]|e] eqn:Hins; [|done].
  cbn [or_throw mret io_ret]. rewrite request_run. cbn [script db session_user clock].
  apply insert_invoice_items_Ok in Hins. simpl in Hins.
  destruct (refuses (head (tail (tail (tail (script w))))));
    intros [= <- <-]; simpl; rewrite Hins;
    by rewrite items_of_app, items_of_deleted, items_of_own.
Qed.

End document_facts.

(** C9. [fetchInvoiceById] always returns and never throws: when the
    header request or the items request is refused, or no invoice has the
    id, it returns no invoice and no items; otherwise it returns the
    stored header with the items stored for it.  It writes nothing. *)
Theorem fetchInvoiceById_never_throws (id : uuid) (w : world) :
  fst (Documents.fetchInvoiceById id w)
  = Ok (if refuses (head (script w)) then (None, [])
        else match invoices (db w) !! id with
             | None => (None, [])
             | Some header =>
                 if refuses (head (tail (script w))) then (None, [])
                 else (Some header, items_of id (invoice_items (db w)))
             end)
  /\ db (snd (Documents.fetchInvoiceById id w)) = db w.
Proof.
  unfold Documents.fetchInvoiceById, try_catch, mbind, io_bind. rewrite request_run.
  destruct (refuses (head (script w))); [done|].
  unfold Documents.select_invoice_single.
  destruct (invoices (db w) !! id) as [header|]; [|done].
  cbn [or_throw mret io_ret]. rewrite request_run. cbn [script db].
  by destruct (refuses (head (tail (script w)))).
Qed.

(** C10. In [updateSalesOrder] and [updatePurchaseOrder] the outcome of the
    delete of the existing lines is not looked at: when the header update
    goes through, the delete is refused and the insert of the (non-empty)
    replacement goes through, the operation returns normally and the
    document's lines are the prior ones followed by the new ones. *)
Theorem order_update_overlooks_failed_delete :
  (forall w id changes items d1 d2,
     refuses (head (script w)) = false ->
     Documents.update_sales_order id changes (db w) = Ok (tt, d1) ->
     refuses (head (tail (script w))) = true ->
     items <> [] ->
     refuses (head (tail (tail (script w)))) = false ->
     Documents.insert_sales_order_items (ItemRow id <$> items) d1 = Ok (tt, d2) ->
     fst (Documents.updateSalesOrder id changes (Some items) w) = Ok tt
     /\ items_of id
          (sales_order_items
             (db (snd (Documents.updateSalesOrder id changes (Some items) w))))
        = items_of id (sales_order_items (db w)) ++ items)
  /\ (forall w id changes items d1 d2,
        refuses (head (script w)) = false ->
        Documents.update_purchase_order id changes (db w) = Ok (tt, d1) ->
        refuses (head (tail (script w))) = true ->
        items <> [] ->
        refuses (head (tail (tail (script w)))) = false ->
        Documents.insert_purchase_order_items (ItemRow id <$> items) d1 = Ok (tt, d2) ->
        fst (Documents.updatePurchaseOrder id changes (Some items) w) = Ok tt
        /\ items_of id
             (purchase_order_items
                (db (snd (Documents.updatePurchaseOrder id changes (Some items) w))))
           = items_of id (purchase_order_items (db w)) ++ items).
Proof.
  split; intros w id changes items d1 d2 H1 Hupd H2 Hne H3 Hins.
  - destruct (updateSalesOrder_delete_refused _ _ _ _ _ _ H1 Hupd H2 Hne H3 Hins)
      as [-> ->].
    split; [done|].
    rewrite (insert_sales_order_items_Ok _ _ _ _ Hins),
      (update_sales_order_items _ _ _ _ _ Hupd).
    by rewrite items_of_app, items_of_own.
  - destruct (updatePurchaseOrder_delete_refused _ _ _ _ _ _ H1 Hupd H2 Hne H3 Hins)
      as [-> ->].
    split; [done|].
    rewrite (insert_purchase_order_items_Ok _ _ _ _ Hins),
      (update_purchase_order_items _ _ _ _ _ Hupd).
    by rewrite items_of_app, items_of_own.
Qed.

Lemma order_update_overlooks_failed_delete_witness :
  fst (Documents.updateSalesOrder "so1" Sample.mark_confirmed (Some Sample.two_lines)
         (Sample.world_of [served; refused; served])) = Ok tt
  /\ items_of "so1"
       (sales_order_items
          (db (snd (Documents.updateSalesOrder "so1" Sample.mark_confirmed (Some Sample.two_lines)
                      (Sample.world_of [served; refused; served])))))
     = items_of "so1" (sales_order_items (db (Sample.world_of [served; refused; served])))
       ++ Sample.two_lines.
Proof.
  apply (proj1 order_update_overlooks_failed_delete
           (Sample.world_of [served; refused; served]) "so1" Sample.mark_confirmed Sample.two_lines
           (set_sales_orders
              (<["so1" := Sample.mark_confirmed
                            (SalesOrder "ORD-001" "ann" ord_draft 0 0 0)]>
                 (sales_orders Sample.data)) Sample.data)
           (set_sales_order_items
              (sales_order_items Sample.data ++ (ItemRow "so1" <$> Sample.two_lines))
              (set_sales_orders
                 (<["so1" := Sample.mark_confirmed
                               (SalesOrder "ORD-001" "ann" ord_draft 0 0 0)]>
                    (sales_orders Sample.data)) Sample.data))); by vm_compute.
Defined.

(** C7. An update that supplies [k] lines is to leave exactly those [k]
    lines.  [updatePurchaseOrder] over a purchase order with five lines,
    given two lines, with the delete refused and the other requests
    served, returns normally and leaves seven lines: the five prior ones
    and the two supplied. *)
Theorem purchase_order_update_leaves_prior_lines :
  fst (Documents.updatePurchaseOrder "po1" Sample.mark_sent (Some Sample.two_lines)
         (Sample.world_of [served; refused; served])) = Ok tt
  /\ items_of "po1"
       (purchase_order_items
          (db (snd (Documents.updatePurchaseOrder "po1" Sample.mark_sent (Some Sample.two_lines)
                      (Sample.world_of [served; refused; served])))))
     = Sample.five_lines ++ Sample.two_lines
  /\ length (Sample.five_lines ++ Sample.two_lines) = 7%nat.
Proof. by vm_compute. Qed.

(** ** Customer rollup *)

Section rollup_facts.
Import Sql CustomerRollup.

Lemma max_agg_perm (l1 l2 : list Z) : l1 ≡ₚ l2 -> max_agg l1 = max_agg l2.
Proof.
  unfold max_agg. apply (foldr_permutation_proper (=)); [solve_proper|].
  intros a1 a2 [m|]; simpl; f_equal; lia.
Qed.

Lemma sum_agg_perm (l1 l2 : list (option Z)) : l1 ≡ₚ l2 -> sum_agg l1 = sum_agg l2.
Proof.
  intros Hl. unfold sum_agg.
  assert (omap id l1 ≡ₚ omap id l2) as Hv by (by rewrite Hl).
  destruct (omap id l1) as [|x xs] eqn:E1, (omap id l2) as [|y ys] eqn:E2.
  - done.
  - by apply Permutation_nil_cons in Hv.
  - symmetry in Hv. by apply Permutation_nil_cons in Hv.
  - f_equal. revert Hv. generalize (x :: xs) (y :: ys). intros v1 v2 Hv.
    apply (foldr_permutation_proper (=)); [solve_proper| |done].
    intros a1 a2 b. lia.
Qed.

(** The aggregates look at the customer's invoices only, in any order. *)
Lemma aggregates_of_perm cid d d' :
  invoices_of cid d ≡ₚ invoices_of cid d' ->
  aggregates_of cid d = aggregates_of cid d'.
Proof.
  intros H. unfold aggregates_of, count_paid, sum_paid, max_issue_date.
  assert (filter is_paid (invoices_of cid d) ≡ₚ filter is_paid (invoices_of cid d'))
    as Hpaid by (by rewrite H).
  f_equal.
  - by rewrite Hpaid.
  - f_equal. apply sum_agg_perm. by rewrite Hpaid.
  - apply max_agg_perm. by rewrite H.
Qed.

Lemma customer_invoices_fresh cid id i m :
  m !! id = None ->
  customer_invoices cid (<[id := i]> m)
  ≡ₚ (if decide (customer_id i = cid) then [i] else []) ++ customer_invoices cid m.
Proof.
  intros Hid. unfold customer_invoices.
  rewrite (map_to_list_insert m id i Hid). simpl.
  destruct (decide (customer_id i = cid)).
  - by rewrite filter_cons_True.
  - by rewrite filter_cons_False.
Qed.

Lemma customer_invoices_present cid id old m :
  m !! id = Some old ->
  customer_invoices cid m
  ≡ₚ (if decide (customer_id old = cid) then [old] else [])
     ++ customer_invoices cid (delete id m).
Proof.
  intros Hid. unfold customer_invoices.
  rewrite <-(map_to_list_delete m id old Hid). simpl.
  destruct (decide (customer_id old = cid)).
  - by rewrite filter_cons_True.
  - by rewrite filter_cons_False.
Qed.

Lemma customer_invoices_insert_other cid id i m :
  customer_id i <> cid ->
  (forall old, m !! id = Some old -> customer_id old <> cid) ->
  customer_invoices cid (<[id := i]> m) ≡ₚ customer_invoices cid m.
Proof.
  intros Hi Hold. destruct (m !! id) as [old|] eqn:Hid.
  - rewrite <-insert_delete_eq.
    rewrite customer_invoices_fresh by apply lookup_delete_eq.
    rewrite (customer_invoices_present cid id old m Hid).
    rewrite !decide_False by eauto. done.
  - rewrite customer_invoices_fresh by done. by rewrite decide_False.
Qed.

Lemma customer_invoices_delete_other cid id m :
  (forall old, m !! id = Some old -> customer_id old <> cid) ->
  customer_invoices cid (delete id m) ≡ₚ customer_invoices cid m.
Proof.
  intros Hold. destruct (m !! id) as [old|] eqn:Hid.
  - rewrite (customer_invoices_present cid id old m Hid).
    by rewrite decide_False by eauto.
  - by rewrite delete_id.
Qed.

Lemma consistent_frame cid d d' :
  customers d' !! cid = customers d !! cid ->
  invoices_of cid d' ≡ₚ invoices_of cid d ->
  consistent cid d -> consistent cid d'.
Proof.
  intros Hc Hi. unfold consistent. rewrite Hc, (aggregates_of_perm cid d' d Hi). done.
Qed.

(** The trigger's UPDATE makes its customer consistent and leaves every
    other row of [customers], and all invoices, as they were. *)
Lemma recompute_totals_Ok cid d d' :
  recompute_totals cid d = Ok d' ->
  invoices d' = invoices d
  /\ consistent cid d'
  /\ (forall cid', cid' <> cid -> customers d' !! cid' = customers d !! cid').
Proof.
  unfold recompute_totals. destruct (customers d !! cid) as [c|] eqn:Hc.
  - destruct (negb _); [done|]. destruct (negb _); [done|].
    intros [= <-]. split; [done|]. split.
    + unfold consistent. simpl. by rewrite lookup_insert_eq.
    + intros cid' Hne. simpl. by rewrite lookup_insert_ne.
  - intros [= <-]. split; [done|]. split; [|done].
    unfold consistent. by rewrite Hc.
Qed.

Lemma update_customer_totals_run ev d :
  update_customer_totals ev d = recompute_totals (touched ev) d.
Proof.
  unfold update_customer_totals.
  destruct ev; simpl; [by destruct (recompute_totals _ _)..|done].
Qed.

Lemma rollup_after_insert i d r d' :
  (forall cid, consistent cid d) -> insert_invoice i d = Ok (r, d') ->
  forall cid, consistent cid d'.
Proof.
  intros Hd. unfold insert_invoice.
  destruct (check_invoice _ _ _); [|done]. rewrite bind_Ok.
  rewrite update_customer_totals_run. cbn [touched].
  destruct (recompute_totals _ _) as [d1|] eqn:Hrec; [|done].
  intros [= <- <-]. apply recompute_totals_Ok in Hrec as (Hinv & Hnew & Hother).
  intros cid. destruct (decide (cid = customer_id i)) as [->|Hne]; [done|].
  apply (consistent_frame cid d); [by rewrite Hother| |done].
  unfold invoices_of. rewrite Hinv. simpl.
  apply customer_invoices_insert_other; [done|].
  intros old Hold. exfalso.
  pose proof (is_fresh (dom (invoices d))) as Hfresh.
  by apply not_elem_of_dom in Hfresh; rewrite Hfresh in Hold.
Qed.

Lemma rollup_after_delete id d r d' :
  (forall cid, consistent cid d) -> delete_invoice id d = Ok (r, d') ->
  forall cid, consistent cid d'.
Proof.
  intros Hd. unfold delete_invoice.
  destruct (invoices d !! id) as [old|] eqn:Hold; [|by intros [= <- <-]].
  rewrite update_customer_totals_run. cbn [touched].
  destruct (recompute_totals _ _) as [d1|] eqn:Hrec; [|done].
  intros [= <- <-]. apply recompute_totals_Ok in Hrec as (Hinv & Hnew & Hother).
  intros cid. destruct (decide (cid = customer_id old)) as [->|Hne]; [done|].
  apply (consistent_frame cid d); [by rewrite Hother| |done].
  unfold invoices_of. rewrite Hinv. simpl.
  apply customer_invoices_delete_other.
  intros old' Hold'. rewrite Hold in Hold'. by injection Hold' as <-.
Qed.

Lemma rollup_after_update id changes d old new d' cid :
  (forall cid, consistent cid d) ->
  invoices d !! id = Some old ->
  update_invoice id changes d = Ok (Some new, d') ->
  cid <> customer_id old \/ customer_id new = customer_id old ->
  consistent cid d'.
Proof.
  intros Hd Hold. unfold update_invoice. rewrite Hold.
  destruct (check_invoice _ _ _); [|done]. rewrite bind_Ok.
  rewrite update_customer_totals_run. cbn [touched].
  destruct (recompute_totals _ _) as [d1|] eqn:Hrec; [|done].
  intros [= <- <-] Hcid.
  apply recompute_totals_Ok in Hrec as (Hinv & Hnew & Hother).
  destruct (decide (cid = customer_id (changes old))) as [->|Hne]; [done|].
  apply (consistent_frame cid d); [by rewrite Hother| |done].
  unfold invoices_of. rewrite Hinv. simpl.
  apply customer_invoices_insert_other; [done|].
  intros old' Hold'. rewrite Hold in Hold'. injection Hold' as <-.
  destruct Hcid as [?|Heq]; [done|]. by rewrite <-Heq.
Qed.

End rollup_facts.

(** X3. When every customer is consistent, it is so again after the insert of
    an invoice, after the delete of one, and after an update that keeps
    the invoice with its customer; an update that moves the invoice keeps
    every customer consistent but the previous one. *)
Theorem rollup_preserved :
  (forall i d r d',
     (forall cid, CustomerRollup.consistent cid d) ->
     CustomerRollup.insert_invoice i d = Ok (r, d') ->
     forall cid, CustomerRollup.consistent cid d')
  /\ (forall id d r d',
        (forall cid, CustomerRollup.consistent cid d) ->
        CustomerRollup.delete_invoice id d = Ok (r, d') ->
        forall cid, CustomerRollup.consistent cid d')
  /\ (forall id changes d old new d' cid,
        (forall cid, CustomerRollup.consistent cid d) ->
        invoices d !! id = Some old ->
        CustomerRollup.update_invoice id changes d = Ok (Some new, d') ->
        cid <> customer_id old \/ customer_id new = customer_id old ->
        CustomerRollup.consistent cid d').
Proof.
  split; [exact rollup_after_insert|]. split; [exact rollup_after_delete|].
  exact rollup_after_update.
Qed.

Lemma rollup_preserved_witness :
  CustomerRollup.consistent "bob"
    (snd (default ((), Sample.data)
            (match CustomerRollup.delete_invoice "i1" Sample.data with
             | Ok r => Some r
             | Err _ => None
             end)))
  /\ CustomerRollup.consistent "ann"
       (snd (default ((), Sample.data)
               (match CustomerRollup.delete_invoice "i1" Sample.data with
                | Ok r => Some r
                | Err _ => None
                end))).
Proof.
  assert (forall cid, CustomerRollup.consistent cid Sample.data) as Hall.
  { intros cid. unfold CustomerRollup.consistent.
    destruct (decide (cid = "ann")) as [->|Hann]; [by vm_compute|].
    destruct (decide (cid = "bob")) as [->|Hbob]; [by vm_compute|].
    change (customers Sample.data)
      with (<["ann" := Customer "Ann" (Some 1) (Some 12000) (Some 20300)]>
              ({[ "bob" := Customer "Bob" (Some 0) (Some 0) None ]}
                 : gmap uuid customer)).
    by rewrite lookup_insert_ne, lookup_singleton_ne. }
  split;
    apply (proj1 (proj2 rollup_preserved) "i1" Sample.data tt _ Hall);
    by vm_compute.
Defined.

(** C5. After a create, update or delete of an invoice every customer's
    cached aggregates are to be those of the customer's current invoices.
    The trigger recomputes the customer of the NEW row on an update, and
    not the customer of the OLD row: moving Ann's only invoice (paid,
    120.00) to Bob, at the statement and through [updateInvoice], leaves
    Ann's row at one order and 120.00 spent while she has no invoice
    left.  Before the update both customers were consistent; after it Bob
    is and Ann is not. *)
Theorem rollup_skips_previous_customer :
  CustomerRollup.consistent "ann" Sample.data
  /\ CustomerRollup.consistent "bob" Sample.data
  /\ (exists d',
        CustomerRollup.update_invoice "i1" (CustomerRollup.reassign "bob" "Bob")
          Sample.data
        = Ok (Some (CustomerRollup.reassign "bob" "Bob" Sample.ann_invoice), d')
        /\ db (snd (Documents.updateInvoice "i1" (CustomerRollup.reassign "bob" "Bob")
                      None (Sample.world_of []))) = d'
        /\ CustomerRollup.invoices_of "ann" d' = []
        /\ CustomerRollup.aggregates_of "ann" d' = CustomerRollup.Aggregates 0 0 None
        /\ customers d' !! "ann"
           = Some (Customer "Ann" (Some 1) (Some 12000) (Some 20300))
        /\ CustomerRollup.consistent "bob" d'
        /\ ~ CustomerRollup.consistent "ann" d').
Proof.
  split; [by vm_compute|]. split; [by vm_compute|].
  eexists. split; [by vm_compute|].
  split; [by vm_compute|]. split; [by vm_compute|]. split; [by vm_compute|].
  split; [by vm_compute|]. split; [by vm_compute|].
  vm_compute. discriminate.
Qed.

(** X4. [updateInvoice], which does look at the outcome of its delete: when
    it returns for a payload with [k] lines, the invoice has exactly those
    [k] lines, whatever it had before. *)
Theorem invoice_update_replaces_lines
    (w : world) (id : uuid) (changes : invoice -> invoice)
    (items : list line_item) (updated : invoice) (w' : world) :
  Documents.updateInvoice id changes (Some items) w = (Ok updated, w') ->
  items_of id (invoice_items (db w')) = items
  /\ length (items_of id (invoice_items (db w'))) = length items.
Proof. intros H%updateInvoice_items. by rewrite H. Qed.

Lemma invoice_update_replaces_lines_witness :
  items_of "i1"
    (invoice_items
       (db (snd (Documents.updateInvoice "i1" Sample.mark_invoice_sent (Some Sample.two_lines)
                   (Sample.world_of [])))))
  = Sample.two_lines.
Proof.
  apply (invoice_update_replaces_lines (Sample.world_of []) "i1" Sample.mark_invoice_sent Sample.two_lines
           (Sample.mark_invoice_sent Sample.ann_invoice)
           (snd (Documents.updateInvoice "i1" Sample.mark_invoice_sent (Some Sample.two_lines)
                   (Sample.world_of [])))).
  by vm_compute.
Defined.

(** ** Creating and deleting documents *)

Section lifecycle_facts.
Import Sql SequenceGenerator CustomerRollup Documents Lifecycle.

Lemma recompute_totals_shape cid d d' :
  recompute_totals cid d = Ok d' -> exists cs, d' = set_customers cs d.
Proof.
  unfold recompute_totals. destruct (customers d !! cid) as [c|].
  - destruct (negb _); [done|]. destruct (negb _); [done|].
    intros [= <-]. by eexists.
  - intros [= <-]. exists (customers d). by destruct d.
Qed.

Lemma insert_invoice_Ok i d id stored d' :
  insert_invoice i d = Ok ((id, stored), d') ->
  stored = i
  /\ id = fresh (dom (invoices d))
  /\ invoices d !! id = None
  /\ exists cs, d' = set_customers cs (set_invoices (<[id := i]> (invoices d)) d).
Proof.
  unfold insert_invoice. destruct (check_invoice _ _ _); [|done]. rewrite bind_Ok.
  rewrite update_customer_totals_run. cbn [touched].
  destruct (recompute_totals _ _) as [d1|] eqn:Hrec; [|done].
  intros [= <- <- <-]. apply recompute_totals_shape in Hrec as [cs ->].
  split; [done|]. split; [done|]. split; [|by exists cs].
  apply not_elem_of_dom, is_fresh.
Qed.

(** [createInvoice], step by step. *)
Lemma createInvoice_run i items w :
  createInvoice i items w
  = let s1 := tail (script w) in
    let s2 := tail s1 in
    let s3 := tail s2 in
    if refuses (head (script w)) then
      (Err request_failed, World (db w) (session_user w) (clock w) s1)
    else
      match insert_invoice i (db w) with
      | Err e => (Err e, World (db w) (session_user w) (clock w) s1)
      | Ok (created, d1) =>
          if refuses (head s1) then
            (Err request_failed, World d1 (session_user w) (clock w) s2)
          else
            match insert_invoice_items (ItemRow (fst created) <$> items) d1 with
            | Err e => (Err e, World d1 (session_user w) (clock w) s2)
            | Ok (_, d2) => (Ok created, World d2 (session_user w) (clock w) s3)
            end
      end.
Proof.
  unfold createInvoice, try_catch, fetchInvoices, try_catch.
  unfold mbind, io_bind. rewrite request_run.
  destruct (refuses (head (script w))); [done|].
  destruct (insert_invoice _ _) as [[created d1]|e]; [|done].
  cbn [or_throw mret io_ret]. rewrite request_run. cbn [script db session_user clock].
  destruct (refuses (head (tail (script w)))); [done|].
  destruct (insert_invoice_items _ _) as [[[] d2]|e]; [|done].
  cbn [or_throw mret io_ret]. rewrite request_run. cbn [script db session_user clock].
  by destruct (refuses _).
Qed.

(** No line of a fresh invoice id exists when every line belongs to an
    invoice. *)
Lemma items_of_unknown id (m : gmap uuid invoice) rows :
  Forall (fun r => is_Some (m !! parent_id r)) rows ->
  m !! id = None ->
  items_of id rows = [] /\ delete_items id rows = rows.
Proof.
  intros Hrows Hid. unfold items_of, delete_items.
  induction Hrows as [|r rows [x Hr] _ [IH1 IH2]]; [done|].
  simpl. rewrite bool_decide_eq_false_2.
  - simpl. split; [done|]. by f_equal.
  - intros Heq. rewrite Heq, Hid in Hr. done.
Qed.

Lemma delete_items_own id (items : list line_item) :
  delete_items id (ItemRow id <$> items) = [].
Proof.
  unfold delete_items. induction items as [|i items IH]; [done|].
  simpl. by rewrite bool_decide_eq_true_2.
Qed.

Lemma delete_items_app id rows1 rows2 :
  delete_items id (rows1 ++ rows2) = delete_items id rows1 ++ delete_items id rows2.
Proof. unfold delete_items. by rewrite List.filter_app. Qed.

Lemma insert_invoice_items_shape rows d u d2 :
  insert_invoice_items rows d = Ok (u, d2) ->
  d2 = set_invoice_items (invoice_items d ++ rows) d.
Proof.
  unfold insert_invoice_items. destruct (negb _); [done|].
  destruct (negb _); [done|]. by intros [= <- <-].
Qed.

Lemma fetchInvoiceById_served id w header :
  refuses (head (script w)) = false ->
  refuses (head (tail (script w))) = false ->
  invoices (db w) !! id = Some header ->
  fst (fetchInvoiceById id w) = Ok (Some header, items_of id (invoice_items (db w))).
Proof.
  intros H1 H2 Hid.
  unfold fetchInvoiceById, try_catch, mbind, io_bind. rewrite request_run, H1.
  unfold select_invoice_single. rewrite Hid.
  cbn [or_throw mret io_ret]. rewrite request_run. cbn [script db]. by rewrite H2.
Qed.

Lemma delete_items_idemp id rows :
  delete_items id (delete_items id rows) = delete_items id rows.
Proof.
  unfold delete_items. induction rows as [|r rows IH]; [done|].
  simpl. destruct (bool_decide (parent_id r = id)) eqn:E; simpl; [done|].
  rewrite E. simpl. by f_equal.
Qed.

(** [deleteInvoice], step by step. *)
Lemma deleteInvoice_run id w :
  deleteInvoice id w
  = let s1 := tail (script w) in
    let s2 := tail s1 in
    let s3 := tail s2 in
    let d1 := set_invoice_items (delete_items id (invoice_items (db w))) (db w) in
    if refuses (head (script w)) then
      (Err request_failed, World (db w) (session_user w) (clock w) s1)
    else if refuses (head s1) then
      (Err request_failed, World d1 (session_user w) (clock w) s2)
    else
      match delete_invoice id d1 with
      | Err e => (Err e, World d1 (session_user w) (clock w) s2)
      | Ok (_, d2) => (Ok tt, World d2 (session_user w) (clock w) s3)
      end.
Proof.
  unfold deleteInvoice, try_catch, fetchInvoices, try_catch.
  unfold mbind, io_bind. rewrite request_run.
  destruct (refuses (head (script w))); [done|].
  unfold delete_invoice_items. cbn [or_throw mret io_ret].
  rewrite request_run. cbn [script db session_user clock].
  destruct (refuses (head (tail (script w)))); [done|].
  destruct (delete_invoice _ _) as [[[] d2]|e]; [|done].
  cbn [or_throw mret io_ret]. rewrite request_run. cbn [script db session_user clock].
  by destruct (refuses _).
Qed.

Lemma delete_invoice_Ok id d u d' :
  delete_invoice id d = Ok (u, d') ->
  exists cs,
    d' = set_customers cs
           (set_invoice_items (delete_items id (invoice_items d))
              (set_invoices (delete id (invoices d)) d))
    \/ (invoices d !! id = None /\ d' = d).
Proof.
  unfold delete_invoice. destruct (invoices d !! id) as [old|] eqn:Hold.
  - rewrite update_customer_totals_run. cbn [touched].
    destruct (recompute_totals _ _) as [d1|] eqn:Hrec; [|done].
    intros [= <- <-]. apply recompute_totals_shape in Hrec as [cs ->].
    exists cs. by left.
  - intros [= <- <-]. exists (customers d). by right.
Qed.

(** The trigger's UPDATE, when the customer exists. *)
Lemma recompute_totals_present cid d d' c :
  customers d !! cid = Some c ->
  recompute_totals cid d = Ok d' ->
  d' = set_customers
         (<[cid := Customer (customer_display_name c) (Some (count_paid cid d))
                     (Some (sum_paid cid d)) (max_issue_date cid d)]>
            (customers d)) d.
Proof.
  intros Hc. unfold recompute_totals. rewrite Hc.
  destruct (negb _); [done|]. destruct (negb _); [done|]. by intros [= <-].
Qed.

End lifecycle_facts.

Section invoice_body_facts.
Import Sql CustomerRollup Documents InvoiceBody.

Lemma body_rows (id : uuid) (items : list item_data) :
  mapM (fun r : uuid * item_data => line ← line_of (snd r); Ok (ItemRow (fst r) line))
    ((fun item => (id, item)) <$> items)
  = (lines ← mapM line_of items; Ok (ItemRow id <$> lines) : result (list item_row)).
Proof.
  induction items as [|item items IH]; [done|].
  cbn [fmap list_fmap mapM fst snd]. rewrite IH.
  destruct (line_of item) as [line|e]; [|done]. rewrite !bind_Ok.
  by destruct (mapM line_of items).
Qed.

(** [InvoiceBody.createInvoice], step by step. *)
Lemma createInvoice_body_run data w :
  InvoiceBody.createInvoice data w
  = let s1 := tail (script w) in
    let s2 := tail s1 in
    let s3 := tail s2 in
    if refuses (head (script w)) then
      (Err request_failed, World (db w) (session_user w) (clock w) s1)
    else
      match insert_invoice (header_row data) (db w) with
      | Err e => (Err e, World (db w) (session_user w) (clock w) s1)
      | Ok (created, d1) =>
          if refuses (head s1) then
            (Err request_failed, World d1 (session_user w) (clock w) s2)
          else
            match mapM line_of (body_items data) with
            | Err e => (Err e, World d1 (session_user w) (clock w) s2)
            | Ok lines =>
                match insert_invoice_items (ItemRow (fst created) <$> lines) d1 with
                | Err e => (Err e, World d1 (session_user w) (clock w) s2)
                | Ok (_, d2) => (Ok created, World d2 (session_user w) (clock w) s3)
                end
            end
      end.
Proof.
  unfold InvoiceBody.createInvoice, try_catch, fetchInvoices, try_catch.
  unfold mbind at 1 2 3 4 5 6 7, io_bind. rewrite request_run.
  destruct (refuses (head (script w))); [done|].
  unfold insert_invoice_body.
  destruct (insert_invoice _ _) as [[created d1]|e]; [|done].
  cbn [or_throw mret io_ret]. rewrite request_run. cbn [script db session_user clock].
  destruct (refuses (head (tail (script w)))); [done|].
  unfold insert_invoice_items_body. rewrite body_rows.
  destruct (mapM line_of (body_items data)) as [lines|e]; [|done].
  rewrite !bind_Ok.
  destruct (insert_invoice_items _ _) as [[[] d2]|e]; [|done].
  cbn [or_throw mret io_ret]. unfold mbind, io_bind.
  rewrite request_run. cbn [script db session_user clock].
  by destruct (refuses _).
Qed.

Lemma to_decimal_exact x :
  (scale x <= 2)%nat -> to_decimal x * 10 ^ Z.of_nat (scale x) = 100 * digits x.
Proof.
  intros Hk. unfold to_decimal. rewrite (proj2 (Nat.leb_le _ _) Hk).
  rewrite <-Z.mul_assoc, <-Z.pow_add_r by lia.
  replace (Z.of_nat (2 - scale x) + Z.of_nat (scale x)) with 2 by lia. lia.
Qed.

Lemma to_decimal_nearest x :
  2 * Z.abs (to_decimal x * 10 ^ Z.of_nat (scale x) - 100 * digits x)
  <= 10 ^ Z.of_nat (scale x).
Proof.
  destruct (decide (scale x <= 2)%nat) as [Hk|Hk].
  { rewrite to_decimal_exact by done. rewrite Z.sub_diag. simpl.
    apply Z.pow_nonneg. lia. }
  unfold to_decimal. rewrite (proj2 (Nat.leb_gt _ _)) by lia.
  set (unit := 10 ^ Z.of_nat (scale x - 2)).
  assert (0 < unit) as Hunit by (apply Z.pow_pos_nonneg; lia).
  assert (10 ^ Z.of_nat (scale x) = 100 * unit) as ->.
  { unfold unit. replace (Z.of_nat (scale x)) with (2 + Z.of_nat (scale x - 2)) by lia.
    rewrite Z.pow_add_r by lia. lia. }
  pose proof (Z.div_mod (Z.abs (digits x)) unit ltac:(lia)) as Hdiv.
  pose proof (Z.mod_pos_bound (Z.abs (digits x)) unit Hunit) as Hmod.
  cbv zeta.
  set (q := Z.abs (digits x) / unit) in *.
  set (r := Z.abs (digits x) mod unit) in *.
  destruct (Z.ltb_spec (2 * r) unit);
    destruct (Z.sgn_spec (digits x)) as [[Hs ->]|[[Hs ->]|[Hs ->]]]; nia.
Qed.

End invoice_body_facts.

(** X7. [createInvoice] and [fetchInvoiceById], on the numbers the caller
    passes.  When [createInvoice] returns, over a database in which every
    invoice line belongs to an invoice, the row it returns is stored under
    an id no invoice had, and is the body's header with its total rounded
    to two decimals as the column stores it; the lines stored for the id
    are the body's lines with quantity as the integer it denotes and unit
    price and total rounded likewise; and [fetchInvoiceById] of the id,
    its two requests served, returns that row and those lines.  The
    rounding is to the nearest hundredth, and leaves a number of at most
    two decimals as it is. *)
Theorem invoice_create_then_fetch
    (w : world) (data : InvoiceBody.invoice_data)
    (id : uuid) (created : invoice) (w' : world) :
  Forall (fun r => is_Some (invoices (db w) !! parent_id r)) (invoice_items (db w)) ->
  InvoiceBody.createInvoice data w = (Ok (id, created), w') ->
  created = InvoiceBody.header_row data
  /\ total_amount created
     = Some (InvoiceBody.to_decimal (InvoiceBody.body_total_amount data))
  /\ invoices (db w) !! id = None
  /\ invoices (db w') !! id = Some created
  /\ Sql.mapM InvoiceBody.line_of (InvoiceBody.body_items data)
     = Ok (items_of id (invoice_items (db w')))
  /\ (refuses (head (script w')) = false ->
      refuses (head (tail (script w'))) = false ->
      fst (Documents.fetchInvoiceById id w')
      = Ok (Some created, items_of id (invoice_items (db w'))))
  /\ (forall x,
        2 * Z.abs (InvoiceBody.to_decimal x * 10 ^ Z.of_nat (InvoiceBody.scale x)
                   - 100 * InvoiceBody.digits x)
        <= 10 ^ Z.of_nat (InvoiceBody.scale x))
  /\ (forall x,
        (InvoiceBody.scale x <= 2)%nat ->
        InvoiceBody.to_decimal x * 10 ^ Z.of_nat (InvoiceBody.scale x)
        = 100 * InvoiceBody.digits x).
Proof.
  intros Hrows. rewrite createInvoice_body_run. cbv zeta.
  destruct (refuses (head (script w))); [done|].
  destruct (CustomerRollup.insert_invoice _ _) as [[[id' stored] d1]|e] eqn:Hins; [|done].
  destruct (refuses _); [done|].
  destruct (Sql.mapM _ _) as [lines|e]; [|done].
  destruct (Documents.insert_invoice_items _ _) as [[u d2]|e] eqn:Hitems; [|done].
  intros [= -> -> <-].
  apply insert_invoice_Ok in Hins as (-> & _ & Hfresh & cs & ->).
  apply insert_invoice_items_shape in Hitems as ->. cbn [fst].
  assert (items_of id (invoice_items (db w) ++ (ItemRow id <$> lines)) = lines)
    as Hlines.
  { rewrite items_of_app, items_of_own.
    by rewrite (proj1 (items_of_unknown id _ _ Hrows Hfresh)). }
  split; [done|]. split; [done|]. split; [done|]. simpl.
  split; [by rewrite lookup_insert_eq|]. split; [by rewrite Hlines|].
  split; [|split; [exact to_decimal_nearest|exact to_decimal_exact]].
  intros H1 H2.
  rewrite (fetchInvoiceById_served id _ (InvoiceBody.header_row data)); simpl;
    [done..|].
  by rewrite lookup_insert_eq.
Qed.

Lemma invoice_create_then_fetch_witness :
  fst (Documents.fetchInvoiceById "0"
         (snd (InvoiceBody.createInvoice Examples.bob_invoice_body (Sample.world_of []))))
  = Ok (Some (Invoice "INV-002" "bob" "Bob" (Some 20301) (Some 1081) (Some inv_sent)),
        [LineItem None "hinge" None 6 251 1503]).
Proof.
  assert (InvoiceBody.createInvoice Examples.bob_invoice_body (Sample.world_of [])
          = (Ok ("0", Invoice "INV-002" "bob" "Bob" (Some 20301) (Some 1081)
                        (Some inv_sent)),
             snd (InvoiceBody.createInvoice Examples.bob_invoice_body
                    (Sample.world_of [])))) as Hrun by (by vm_compute).
  assert (Forall (fun r => is_Some (invoices (db (Sample.world_of [])) !! parent_id r))
            (invoice_items (db (Sample.world_of [])))) as Hrows.
  { constructor; [by eexists|constructor]. }
  destruct (invoice_create_then_fetch _ _ _ _ _ Hrows Hrun)
    as (_ & _ & _ & _ & _ & Hfetch & _).
  rewrite Hfetch by (by vm_compute). by vm_compute.
Defined.

(** X8. [createInvoice] ends in one of three ways: it returns, with the
    header stored under a fresh id and the supplied lines added for it; it
    throws with nothing written; or it throws with the header stored, no
    line added, and the customer's totals already recomputed with the new
    invoice (the header insert went through and the lines insert did
    not). *)
Theorem invoice_create_outcomes (w : world) (i : invoice) (items : list line_item) :
  match Lifecycle.createInvoice i items w with
  | (Ok (id, created), w') =>
      invoices (db w) !! id = None
      /\ exists cs,
           db w' = set_invoice_items (invoice_items (db w) ++ (ItemRow id <$> items))
                     (set_customers cs
                        (set_invoices (<[id := i]> (invoices (db w))) (db w)))
  | (Err _, w') =>
      db w' = db w
      \/ exists id cs,
           invoices (db w) !! id = None
           /\ db w' = set_customers cs
                        (set_invoices (<[id := i]> (invoices (db w))) (db w))
           /\ CustomerRollup.consistent (customer_id i) (db w')
  end.
Proof.
  rewrite createInvoice_run. cbv zeta.
  destruct (refuses (head (script w))); [by left|].
  destruct (CustomerRollup.insert_invoice _ _) as [[[id stored] d1]|e] eqn:Hins;
    [|by left].
  assert (CustomerRollup.consistent (customer_id i) d1) as Hcons.
  { revert Hins. unfold CustomerRollup.insert_invoice.
    destruct (CustomerRollup.check_invoice _ _ _); [|done]. rewrite bind_Ok.
    rewrite update_customer_totals_run. cbn [CustomerRollup.touched].
    destruct (CustomerRollup.recompute_totals _ _) as [d0|] eqn:Hrec; [|done].
    intros [= <- <- <-]. by apply recompute_totals_Ok in Hrec as (_ & ? & _). }
  apply insert_invoice_Ok in Hins as (-> & _ & Hfresh & cs & ->).
  destruct (refuses _); [right; by exists id, cs|].
  destruct (Documents.insert_invoice_items _ _) as [[u d2]|e] eqn:Hitems.
  - apply insert_invoice_items_shape in Hitems as ->. split; [done|]. by exists cs.
  - right. by exists id, cs.
Qed.

(** X9. [deleteInvoice] ends in one of three ways: it returns, and then no
    invoice has the id and no line is left for it; it throws with nothing
    changed; or it throws with the lines of the invoice deleted and
    everything else, the header included, as it was. *)
Theorem invoice_delete_outcomes (w : world) (id : uuid) :
  match Lifecycle.deleteInvoice id w with
  | (Ok _, w') =>
      invoices (db w') = delete id (invoices (db w))
      /\ invoice_items (db w') = delete_items id (invoice_items (db w))
      /\ items_of id (invoice_items (db w')) = []
  | (Err _, w') =>
      db w' = db w
      \/ db w' = set_invoice_items (delete_items id (invoice_items (db w))) (db w)
  end.
Proof.
  rewrite deleteInvoice_run. cbv zeta.
  destruct (refuses (head (script w))); [by left|].
  destruct (refuses _); [by right|].
  destruct (CustomerRollup.delete_invoice _ _) as [[u d2]|e] eqn:Hdel; [|by right].
  apply delete_invoice_Ok in Hdel as [cs [->|[Hnone ->]]]; simpl in *.
  - by rewrite delete_items_idemp, items_of_deleted.
  - rewrite items_of_deleted. by rewrite delete_id.
Qed.

(** X10. Creating an invoice and deleting it again restores the database:
    when every invoice line belongs to an invoice and the customer's
    cached totals are those of its invoices, [createInvoice] followed, on
    its return, by a [deleteInvoice] of the new id that returns leaves the
    invoices, their lines and the customers' cached totals, and every
    other table, as they were before the two (row timestamps, which the
    records here do not hold, apart). *)
Theorem invoice_create_then_delete
    (w : world) (i : invoice) (items : list line_item)
    (id : uuid) (created : invoice) (w1 w2 : world) :
  Forall (fun r => is_Some (invoices (db w) !! parent_id r)) (invoice_items (db w)) ->
  CustomerRollup.consistent (customer_id i) (db w) ->
  Lifecycle.createInvoice i items w = (Ok (id, created), w1) ->
  Lifecycle.deleteInvoice id w1 = (Ok tt, w2) ->
  db w2 = db w.
Proof.
  intros Hrows Hcons. rewrite createInvoice_run. cbv zeta.
  destruct (refuses (head (script w))); [done|].
  destruct (CustomerRollup.insert_invoice _ _) as [[[id' stored] d1]|e] eqn:Hins; [|done].
  destruct (refuses _); [done|].
  destruct (Documents.insert_invoice_items _ _) as [[u d2]|e] eqn:Hitems; [|done].
  intros [= -> -> <-].
  apply insert_invoice_items_shape in Hitems as ->.
  revert Hins. unfold CustomerRollup.insert_invoice.
  destruct (CustomerRollup.check_invoice _ _ _) eqn:Hcheck; [|done]. rewrite bind_Ok.
  rewrite update_customer_totals_run. cbn [CustomerRollup.touched].
  destruct (CustomerRollup.recompute_totals _ _) as [d0|] eqn:Hrec; [|done].
  intros [= <- <- <-]. cbn [fst].
  set (id := fresh (dom (invoices (db w)))) in *.
  assert (invoices (db w) !! id = None) as Hfresh by apply not_elem_of_dom, is_fresh.
  assert (exists c, customers (db w) !! customer_id i = Some c) as [c Hc].
  { revert Hcheck. unfold CustomerRollup.check_invoice.
    destruct (negb _); [done|]. destruct (CustomerRollup.number_taken _ _ _); [done|].
    destruct (negb (bool_decide _)) eqn:Hfk; [done|]. intros _.
    by apply negb_false_iff, bool_decide_eq_true in Hfk as [c ?]; exists c. }
  apply (recompute_totals_present _ _ _ c) in Hrec as ->; [|done].
  rewrite deleteInvoice_run. cbv zeta. cbn [script db session_user clock].
  destruct (refuses _); [done|]. destruct (refuses _); [done|].
  unfold CustomerRollup.delete_invoice. simpl.
  rewrite lookup_insert_eq.
  rewrite update_customer_totals_run. cbn [CustomerRollup.touched].
  destruct (CustomerRollup.recompute_totals _ _) as [d3|] eqn:Hrec2; [|done].
  intros [= <-].
  apply (recompute_totals_present _ _ _
           (Customer (customer_display_name c)
              (Some (CustomerRollup.count_paid (customer_id i)
                       (set_invoices (<[id := i]> (invoices (db w))) (db w))))
              (Some (CustomerRollup.sum_paid (customer_id i)
                       (set_invoices (<[id := i]> (invoices (db w))) (db w))))
              (CustomerRollup.max_issue_date (customer_id i)
                 (set_invoices (<[id := i]> (invoices (db w))) (db w)))))
    in Hrec2 as ->; [|by simpl; rewrite lookup_insert_eq].
  unfold CustomerRollup.consistent in Hcons. rewrite Hc in Hcons.
  unfold CustomerRollup.count_paid, CustomerRollup.sum_paid,
    CustomerRollup.max_issue_date, CustomerRollup.invoices_of. simpl.
  rewrite delete_insert_id by done.
  rewrite delete_items_idemp, delete_items_app, delete_items_own, app_nil_r.
  rewrite (proj2 (items_of_unknown id _ _ Hrows Hfresh)).
  rewrite insert_insert_eq.
  destruct c as [display [n|] [spent|] last]; simpl in Hcons; try done.
  injection Hcons as -> -> ->.
  unfold set_customers, set_invoice_items, set_invoices. simpl.
  fold (CustomerRollup.invoices_of (customer_id i) (db w)).
  rewrite (insert_id (customers (db w))); [by destruct (db w)|].
  rewrite Hc. done.
Qed.

Lemma invoice_create_then_delete_witness :
  db (snd (Lifecycle.deleteInvoice "0"
             (snd (Lifecycle.createInvoice Examples.bob_invoice Sample.two_lines
                     (Sample.world_of [])))))
  = db (Sample.world_of []).
Proof.
  assert (Forall (fun r => is_Some (invoices (db (Sample.world_of [])) !! parent_id r))
            (invoice_items (db (Sample.world_of [])))) as Hrows.
  { constructor; [by eexists|constructor]. }
  apply (invoice_create_then_delete (Sample.world_of []) Examples.bob_invoice
           Sample.two_lines "0" Examples.bob_invoice
           (snd (Lifecycle.createInvoice Examples.bob_invoice Sample.two_lines
                   (Sample.world_of [])))
           _ Hrows); by vm_compute.
Defined.

(** ** Orders and products *)

Section order_facts.
Import Sql SequenceGenerator CustomerRollup Documents Lifecycle Catalog.

Lemma generate_order_number_conflict store :
  generate_order_number conflict_error store = Err (ambiguous_column "order_number").
Proof. done. Qed.

Lemma insert_sales_order_Ok o d id stored d' :
  insert_sales_order o d = Ok ((id, stored), d') ->
  stored = o
  /\ sales_orders d !! id = None
  /\ order_number_taken id (order_number o) d = false
  /\ d' = set_sales_orders (<[id := o]> (sales_orders d)) d.
Proof.
  unfold insert_sales_order. destruct (negb _); [done|].
  destruct (order_number_taken _ _ _) eqn:Htaken; [done|].
  destruct (negb _); [done|]. intros [= <- <- <-].
  repeat split; [|done]. apply not_elem_of_dom, is_fresh.
Qed.

Lemma insert_sales_order_items_shape rows d u d2 :
  insert_sales_order_items rows d = Ok (u, d2) ->
  d2 = set_sales_order_items (sales_order_items d ++ rows) d.
Proof.
  unfold insert_sales_order_items. destruct (negb _); [done|].
  destruct (negb _); [done|]. by intros [= <- <-].
Qed.

(** [createSalesOrder], step by step. *)
Lemma createSalesOrder_run vc o items w :
  createSalesOrder vc o items w
  = let s1 := tail (script w) in
    let s2 := tail s1 in
    let s3 := tail s2 in
    let s4 := tail s3 in
    if refuses (head (script w)) then
      (Err request_failed, World (db w) (session_user w) (clock w) s1)
    else
      match generate_order_number vc (order_numbers (db w)) with
      | Err e => (Err e, World (db w) (session_user w) (clock w) s1)
      | Ok number =>
          if refuses (head s1) then
            (Err request_failed, World (db w) (session_user w) (clock w) s2)
          else
            match insert_sales_order
                    (SalesOrder number (so_customer_id o) (so_status o)
                       (so_subtotal o) (so_tax_amount o) (so_total_amount o))
                    (db w) with
            | Err e => (Err e, World (db w) (session_user w) (clock w) s2)
            | Ok (new, d1) =>
                if (0 <? length (default [] items))%nat then
                  if refuses (head s2) then
                    (Err request_failed, World d1 (session_user w) (clock w) s3)
                  else
                    match insert_sales_order_items
                            (ItemRow (fst new) <$> default [] items) d1 with
                    | Err e => (Err e, World d1 (session_user w) (clock w) s3)
                    | Ok (_, d2) => (Ok new, World d2 (session_user w) (clock w) s4)
                    end
                else (Ok new, World d1 (session_user w) (clock w) s3)
            end
      end.
Proof.
  unfold createSalesOrder, generateOrderNumber, try_catch, fetchSalesOrders, try_catch.
  unfold mbind, io_bind. rewrite request_run.
  destruct (refuses (head (script w))); [done|].
  unfold rpc_generate_order_number.
  destruct (generate_order_number vc _) as [number|e]; [|done].
  rewrite bind_Ok. cbn [or_throw mret io_ret].
  unfold getUser. rewrite request_run. cbn [script db session_user clock].
  destruct (refuses (head (tail (script w)))); [done|].
  destruct (insert_sales_order _ _) as [[new d1]|e]; [|done].
  cbn [or_throw mret io_ret].
  destruct items as [[|item items]|]; cbn [default length Nat.ltb Nat.leb mret io_ret].
  - rewrite request_run. cbn [script db session_user clock]. by destruct (refuses _).
  - rewrite request_run. cbn [script db session_user clock].
    destruct (refuses (head (tail (tail (script w))))); [done|].
    destruct (insert_sales_order_items _ _) as [[[] d2]|e]; [|done].
    cbn [or_throw mret io_ret]. rewrite request_run. cbn [script db session_user clock].
    by destruct (refuses _).
  - rewrite request_run. cbn [script db session_user clock]. by destruct (refuses _).
Qed.

Lemma order_number_free id number d id' o' :
  order_number_taken id number d = false ->
  sales_orders d !! id = None ->
  sales_orders d !! id' = Some o' ->
  order_number o' <> number.
Proof.
  intros Htaken Hid Hid' Heq.
  assert (order_number_taken id number d = true) as Habs; [|congruence].
  unfold order_number_taken. apply existsb_exists. exists (id', o'). split.
  - by apply list_elem_of_In, elem_of_map_to_list.
  - simpl. rewrite (bool_decide_eq_true_2 _ Heq), andb_true_r.
    apply negb_true_iff, bool_decide_eq_false_2. intros ->. congruence.
Qed.

Lemma items_of_unknown_order id (m : gmap uuid sales_order) rows :
  Forall (fun r => is_Some (m !! parent_id r)) rows ->
  m !! id = None ->
  items_of id rows = [].
Proof.
  intros Hrows Hid. unfold items_of.
  induction Hrows as [|r rows [x Hr] _ IH]; [done|].
  simpl. rewrite bool_decide_eq_false_2; [done|].
  intros Heq. rewrite Heq, Hid in Hr. done.
Qed.

Lemma items_of_delete_other id id' rows :
  id' <> id -> items_of id' (delete_items id rows) = items_of id' rows.
Proof.
  intros Hne. unfold items_of, delete_items.
  induction rows as [|r rows IH]; [done|].
  simpl. destruct (bool_decide (parent_id r = id)) eqn:E; simpl.
  - apply bool_decide_eq_true in E. rewrite bool_decide_eq_false_2 by congruence.
    simpl. exact IH.
  - destruct (bool_decide (parent_id r = id')); simpl; [f_equal|]; exact IH.
Qed.

(** [deleteSalesOrder], step by step: the first response is not looked
    at. *)
Lemma deleteSalesOrder_run id w :
  deleteSalesOrder id w
  = let s1 := tail (script w) in
    let s2 := tail s1 in
    let s3 := tail s2 in
    let d1 := if refuses (head (script w)) then db w
              else set_sales_order_items (delete_items id (sales_order_items (db w)))
                     (db w) in
    if refuses (head s1) then
      (Err request_failed, World d1 (session_user w) (clock w) s2)
    else
      match delete_sales_order id d1 with
      | Err e => (Err e, World d1 (session_user w) (clock w) s2)
      | Ok (_, d2) => (Ok tt, World d2 (session_user w) (clock w) s3)
      end.
Proof.
  unfold deleteSalesOrder, try_catch, fetchSalesOrders, try_catch.
  unfold mbind, io_bind. rewrite request_run. unfold delete_sales_order_items.
  destruct (refuses (head (script w)));
    rewrite request_run; cbn [script db session_user clock];
    (destruct (refuses (head (tail (script w)))); [done|]);
    (destruct (delete_sales_order _ _) as [[[] d2]|e]; [|done]);
    cbn [or_throw mret io_ret]; rewrite request_run;
    cbn [script db session_user clock]; by destruct (refuses _).
Qed.

Lemma deletePurchaseOrder_run id w :
  deletePurchaseOrder id w
  = let s1 := tail (script w) in
    let s2 := tail s1 in
    if refuses (head (script w)) then
      (Err request_failed, World (db w) (session_user w) (clock w) s1)
    else
      match delete_purchase_order id (db w) with
      | Err e => (Err e, World (db w) (session_user w) (clock w) s1)
      | Ok (_, d2) => (Ok tt, World d2 (session_user w) (clock w) s2)
      end.
Proof.
  unfold deletePurchaseOrder, try_catch, fetchPurchaseOrders, try_catch.
  unfold mbind, io_bind. rewrite request_run.
  destruct (refuses (head (script w))); [done|].
  destruct (delete_purchase_order _ _) as [[[] d2]|e]; [|done].
  cbn [or_throw mret io_ret]. rewrite request_run.
  cbn [script db session_user clock]. by destruct (refuses _).
Qed.

Lemma updateOrderStatus_run id s w :
  updateOrderStatus id s w
  = let s1 := tail (script w) in
    let s2 := tail s1 in
    if refuses (head (script w)) then
      (Err request_failed, World (db w) (session_user w) (clock w) s1)
    else
      match update_sales_order id (with_order_status s) (db w) with
      | Err e => (Err e, World (db w) (session_user w) (clock w) s1)
      | Ok (_, d1) => (Ok tt, World d1 (session_user w) (clock w) s2)
      end.
Proof.
  unfold updateOrderStatus, try_catch, fetchSalesOrders, try_catch.
  unfold mbind, io_bind. rewrite request_run.
  destruct (refuses (head (script w))); [done|].
  destruct (update_sales_order _ _ _) as [[[] d1]|e]; [|done].
  cbn [or_throw mret io_ret]. rewrite request_run.
  cbn [script db session_user clock]. by destruct (refuses _).
Qed.

Lemma updatePOStatus_run id s w :
  updatePOStatus id s w
  = let s1 := tail (script w) in
    let s2 := tail s1 in
    if refuses (head (script w)) then
      (Err request_failed, World (db w) (session_user w) (clock w) s1)
    else
      match update_purchase_order id (with_po_status s) (db w) with
      | Err e => (Err e, World (db w) (session_user w) (clock w) s1)
      | Ok (_, d1) => (Ok tt, World d1 (session_user w) (clock w) s2)
      end.
Proof.
  unfold updatePOStatus, try_catch, fetchPurchaseOrders, try_catch.
  unfold mbind, io_bind. rewrite request_run.
  destruct (refuses (head (script w))); [done|].
  destruct (update_purchase_order _ _ _) as [[[] d1]|e]; [|done].
  cbn [or_throw mret io_ret]. rewrite request_run.
  cbn [script db session_user clock]. by destruct (refuses _).
Qed.

Lemma update_sales_order_shape id changes d u d1 :
  update_sales_order id changes d = Ok (u, d1) ->
  d1 = d
  \/ exists old, sales_orders d !! id = Some old
       /\ d1 = set_sales_orders (<[id := changes old]> (sales_orders d)) d.
Proof.
  unfold update_sales_order.
  destruct (sales_orders d !! id) as [old|]; [|intros [= <- <-]; by left].
  destruct (negb _); [done|]. destruct (order_number_taken _ _ _); [done|].
  destruct (negb _); [done|]. intros [= <- <-]. right. by exists old.
Qed.

Lemma update_purchase_order_shape id changes d u d1 :
  update_purchase_order id changes d = Ok (u, d1) ->
  d1 = d
  \/ exists old, purchase_orders d !! id = Some old
       /\ d1 = set_purchase_orders (<[id := changes old]> (purchase_orders d)) d.
Proof.
  unfold update_purchase_order.
  destruct (purchase_orders d !! id) as [old|]; [|intros [= <- <-]; by left].
  destruct (negb _); [done|]. destruct (po_number_taken _ _ _); [done|].
  intros [= <- <-]. right. by exists old.
Qed.

Lemma deleteProduct_run id w :
  deleteProduct id w
  = let s1 := tail (script w) in
    let s2 := tail s1 in
    if refuses (head (script w)) then
      (Err request_failed, World (db w) (session_user w) (clock w) s1)
    else
      match delete_product id (db w) with
      | Err e => (Err e, World (db w) (session_user w) (clock w) s1)
      | Ok (_, d1) => (Ok tt, World d1 (session_user w) (clock w) s2)
      end.
Proof.
  unfold deleteProduct, try_catch, fetchProducts, try_catch.
  unfold mbind, io_bind. rewrite request_run.
  destruct (refuses (head (script w))); [done|].
  destruct (delete_product _ _) as [[[] d1]|e]; [|done].
  cbn [or_throw mret io_ret]. rewrite request_run.
  cbn [script db session_user clock]. by destruct (refuses _).
Qed.

Lemma movement_makes_referenced pid d id m :
  stock_movements d !! id = Some m -> product_id m = pid ->
  product_referenced pid d = true.
Proof.
  intros Hm Hpid. unfold product_referenced.
  apply orb_true_iff. right. apply existsb_exists. exists (id, m). split.
  - by apply list_elem_of_In, elem_of_map_to_list.
  - unfold movement_refers. simpl. by apply bool_decide_eq_true_2.
Qed.

Lemma line_makes_referenced pid d r :
  r ∈ invoice_items d ++ sales_order_items d ++ purchase_order_items d ->
  item_product_id (item r) = Some pid ->
  product_referenced pid d = true.
Proof.
  intros Hr Hpid. unfold product_referenced.
  assert (line_refers pid r = true) as Hline by by apply bool_decide_eq_true_2.
  apply elem_of_app in Hr as [Hr|Hr]; [|apply elem_of_app in Hr as [Hr|Hr]];
    apply list_elem_of_In in Hr.
  - assert (existsb (line_refers pid) (invoice_items d) = true) as ->
      by (apply existsb_exists; eauto). done.
  - assert (existsb (line_refers pid) (sales_order_items d) = true) as ->
      by (apply existsb_exists; eauto). by rewrite orb_true_r.
  - assert (existsb (line_refers pid) (purchase_order_items d) = true) as ->
      by (apply existsb_exists; eauto). by rewrite !orb_true_r.
Qed.

End order_facts.

(** X11. Under the server's default handling of a name that is both a
    variable and a column, [createSalesOrder] creates nothing: for every
    payload and however its requests fare it throws, with the generator's
    ambiguity error or with the failure of the first request, and the
    database is as it was. *)
Theorem sales_order_creation_blocked
    (w : world) (o : sales_order) (items : option (list line_item)) :
  (fst (Lifecycle.createSalesOrder SequenceGenerator.conflict_error o items w)
   = Err (ambiguous_column "order_number")
   \/ fst (Lifecycle.createSalesOrder SequenceGenerator.conflict_error o items w)
      = Err request_failed)
  /\ db (snd (Lifecycle.createSalesOrder SequenceGenerator.conflict_error o items w))
     = db w.
Proof.
  rewrite createSalesOrder_run. cbv zeta.
  destruct (refuses (head (script w))); [by split; [right|]|].
  rewrite generate_order_number_conflict. by split; [left|].
Qed.

(** X12. When [createSalesOrder] returns, over a database in which every
    order line belongs to an order, the order is stored under an id no
    order had, it carries the number the generator computed from the
    stored orders, no other order carries that number, and its lines are
    exactly the supplied ones (none when the payload has no list). *)
Theorem sales_order_create_stores
    (vc : SequenceGenerator.variable_conflict) (w : world) (o : sales_order)
    (items : option (list line_item)) (id : uuid) (stored : sales_order) (w' : world) :
  Forall (fun r => is_Some (sales_orders (db w) !! parent_id r))
    (sales_order_items (db w)) ->
  Lifecycle.createSalesOrder vc o items w = (Ok (id, stored), w') ->
  SequenceGenerator.generate_order_number vc (Lifecycle.order_numbers (db w))
  = Ok (order_number stored)
  /\ sales_orders (db w) !! id = None
  /\ sales_orders (db w') = <[id := stored]> (sales_orders (db w))
  /\ (forall id' o', sales_orders (db w) !! id' = Some o' ->
        order_number o' <> order_number stored)
  /\ items_of id (sales_order_items (db w')) = default [] items.
Proof.
  intros Hrows. rewrite createSalesOrder_run. cbv zeta.
  destruct (refuses (head (script w))); [done|].
  destruct (SequenceGenerator.generate_order_number vc _) as [number|e]; [|done].
  destruct (refuses _); [done|].
  destruct (Lifecycle.insert_sales_order _ _) as [[[id0 new] d1]|e] eqn:Hins; [|done].
  apply insert_sales_order_Ok in Hins as (-> & Hfresh & Hfree & ->).
  cbn [fst].
  assert (items_of id0 (sales_order_items (db w)) = []) as Hnone
    by exact (items_of_unknown_order id0 _ _ Hrows Hfresh).
  destruct (0 <? length (default [] items))%nat eqn:Hlen.
  - destruct (refuses _); [done|].
    destruct (Documents.insert_sales_order_items _ _) as [[u d2]|e] eqn:Hitems; [|done].
    apply insert_sales_order_items_shape in Hitems as ->.
    intros [= <- <- <-]. simpl.
    split; [done|]. split; [done|]. split; [done|].
    split; [intros id' o'; by apply (order_number_free id0 number (db w))|].
    by rewrite items_of_app, Hnone, items_of_own.
  - intros [= <- <- <-]. simpl.
    split; [done|]. split; [done|]. split; [done|].
    split; [intros id' o'; by apply (order_number_free id0 number (db w))|].
    rewrite Hnone. by destruct items as [[|]|].
Qed.

Lemma sales_order_create_stores_witness :
  items_of "0"
    (sales_order_items
       (db (snd (Lifecycle.createSalesOrder SequenceGenerator.use_column
                   Examples.bob_order (Some Sample.two_lines) (Sample.world_of [])))))
  = Sample.two_lines.
Proof.
  assert (Forall (fun r => is_Some (sales_orders (db (Sample.world_of [])) !! parent_id r))
            (sales_order_items (db (Sample.world_of [])))) as Hrows.
  { repeat (constructor; [by eexists|]). constructor. }
  exact (proj2 (proj2 (proj2 (proj2
    (sales_order_create_stores SequenceGenerator.use_column (Sample.world_of [])
       Examples.bob_order (Some Sample.two_lines) "0"
       (SalesOrder "ORD-002" "bob" ord_pending 1000 100 1100)
       (snd (Lifecycle.createSalesOrder SequenceGenerator.use_column
               Examples.bob_order (Some Sample.two_lines) (Sample.world_of [])))
       Hrows ltac:(by vm_compute)))))).
Defined.

(** X13. Deleting an order that exists leaves none of its lines behind, even
    when the hook's own request to delete the lines fails: when
    [deleteSalesOrder] returns, the order is gone, no line is stored for
    it, and the lines of every other order are as they were; the same for
    [deletePurchaseOrder], which sends the one request. *)
Theorem order_delete_cascades :
  (forall w id,
     is_Some (sales_orders (db w) !! id) ->
     fst (Lifecycle.deleteSalesOrder id w) = Ok tt ->
     sales_orders (db (snd (Lifecycle.deleteSalesOrder id w)))
     = delete id (sales_orders (db w))
     /\ items_of id (sales_order_items (db (snd (Lifecycle.deleteSalesOrder id w)))) = []
     /\ forall id', id' <> id ->
          items_of id' (sales_order_items (db (snd (Lifecycle.deleteSalesOrder id w))))
          = items_of id' (sales_order_items (db w)))
  /\ (forall w id,
        is_Some (purchase_orders (db w) !! id) ->
        fst (Lifecycle.deletePurchaseOrder id w) = Ok tt ->
        purchase_orders (db (snd (Lifecycle.deletePurchaseOrder id w)))
        = delete id (purchase_orders (db w))
        /\ items_of id
             (purchase_order_items (db (snd (Lifecycle.deletePurchaseOrder id w)))) = []
        /\ forall id', id' <> id ->
             items_of id'
               (purchase_order_items (db (snd (Lifecycle.deletePurchaseOrder id w))))
             = items_of id' (purchase_order_items (db w))).
Proof.
  split; intros w id [o Ho].
  - rewrite deleteSalesOrder_run. cbv zeta.
    destruct (refuses (head (tail (script w)))); [done|].
    unfold Lifecycle.delete_sales_order.
    destruct (refuses (head (script w))); cbn [sales_orders set_sales_order_items];
      rewrite Ho; intros _; simpl;
      (split; [done|]); (split; [apply items_of_deleted|]);
      intros id' Hne; by rewrite !items_of_delete_other.
  - rewrite deletePurchaseOrder_run. cbv zeta.
    destruct (refuses (head (script w))); [done|].
    unfold Lifecycle.delete_purchase_order. rewrite Ho. intros _. simpl.
    split; [done|]. split; [apply items_of_deleted|].
    intros id' Hne. by apply items_of_delete_other.
Qed.

Lemma order_delete_cascades_witness :
  items_of "so1"
    (sales_order_items
       (db (snd (Lifecycle.deleteSalesOrder "so1" (Sample.world_of [refused; served])))))
  = [].
Proof.
  apply (proj1 order_delete_cascades (Sample.world_of [refused; served]) "so1");
    [by eexists|by vm_compute].
Defined.

(** X14. A status change touches the status of the one order and nothing
    else: after [updateOrderStatus], however it ends, the order lines are
    as they were and every order is stored as before, except that the
    order with the id may carry the new status in place of the old one;
    the same for [updatePOStatus].  For an id that no order has, both
    return normally and leave the database as it was. *)
Theorem status_change_touches_status_only :
  (forall w id s,
     sales_order_items (db (snd (Lifecycle.updateOrderStatus id s w)))
     = sales_order_items (db w)
     /\ (forall id',
           sales_orders (db (snd (Lifecycle.updateOrderStatus id s w))) !! id'
           = sales_orders (db w) !! id'
           \/ (id' = id
               /\ exists old,
                    sales_orders (db w) !! id = Some old
                    /\ sales_orders (db (snd (Lifecycle.updateOrderStatus id s w))) !! id
                       = Some (SalesOrder (order_number old) (so_customer_id old) s
                                 (so_subtotal old) (so_tax_amount old)
                                 (so_total_amount old))))
     /\ (sales_orders (db w) !! id = None ->
         refuses (head (script w)) = false ->
         fst (Lifecycle.updateOrderStatus id s w) = Ok tt
         /\ db (snd (Lifecycle.updateOrderStatus id s w)) = db w))
  /\ (forall w id s,
        purchase_order_items (db (snd (Lifecycle.updatePOStatus id s w)))
        = purchase_order_items (db w)
        /\ (forall id',
              purchase_orders (db (snd (Lifecycle.updatePOStatus id s w))) !! id'
              = purchase_orders (db w) !! id'
              \/ (id' = id
                  /\ exists old,
                       purchase_orders (db w) !! id = Some old
                       /\ purchase_orders (db (snd (Lifecycle.updatePOStatus id s w))) !! id
                          = Some (PurchaseOrder (po_number old) (vendor_name old) s
                                    (po_subtotal old) (po_tax_rate old)
                                    (po_tax_amount old) (po_total_amount old))))
        /\ (purchase_orders (db w) !! id = None ->
            refuses (head (script w)) = false ->
            fst (Lifecycle.updatePOStatus id s w) = Ok tt
            /\ db (snd (Lifecycle.updatePOStatus id s w)) = db w)).
Proof.
  split; intros w id s.
  - rewrite updateOrderStatus_run. cbv zeta.
    destruct (refuses (head (script w))) eqn:Href.
    { split; [done|]. split; [by left|]. by intros _ [=]. }
    destruct (Documents.update_sales_order _ _ _) as [[u d1]|e] eqn:Hupd;
      cbn [snd fst db].
    + split; [by rewrite (update_sales_order_items _ _ _ _ _ Hupd)|]. split.
      * intros id'.
        apply update_sales_order_shape in Hupd as [->|(old & Hold & ->)]; [by left|].
        simpl. destruct (decide (id' = id)) as [->|Hne].
        -- right. split; [done|]. exists old. by rewrite lookup_insert_eq.
        -- left. by rewrite lookup_insert_ne.
      * intros Hnone _. revert Hupd. unfold Documents.update_sales_order.
        rewrite Hnone. destruct u. by intros [= <-].
    + split; [done|]. split; [by left|].
      intros Hnone _. revert Hupd. unfold Documents.update_sales_order.
      by rewrite Hnone.
  - rewrite updatePOStatus_run. cbv zeta.
    destruct (refuses (head (script w))) eqn:Href.
    { split; [done|]. split; [by left|]. by intros _ [=]. }
    destruct (Documents.update_purchase_order _ _ _) as [[u d1]|e] eqn:Hupd;
      cbn [snd fst db].
    + split; [by rewrite (update_purchase_order_items _ _ _ _ _ Hupd)|]. split.
      * intros id'.
        apply update_purchase_order_shape in Hupd as [->|(old & Hold & ->)];
          [by left|].
        simpl. destruct (decide (id' = id)) as [->|Hne].
        -- right. split; [done|]. exists old. by rewrite lookup_insert_eq.
        -- left. by rewrite lookup_insert_ne.
      * intros Hnone _. revert Hupd. unfold Documents.update_purchase_order.
        rewrite Hnone. destruct u. by intros [= <-].
    + split; [done|]. split; [by left|].
      intros Hnone _. revert Hupd. unfold Documents.update_purchase_order.
      by rewrite Hnone.
Qed.

(** X15. A product that the ledger or a document line refers to cannot be
    deleted: [deleteProduct] of an existing product with a stock movement,
    or with a line of an invoice, sales order or purchase order, throws
    and leaves the database as it was.  When [deleteProduct] returns, only
    the products table has changed, the product is gone, and every stock
    movement whose product existed before still has its product. *)
Theorem product_delete_guarded (w : world) (pid : uuid) :
  (is_Some (products (db w) !! pid) ->
   ((exists id m, stock_movements (db w) !! id = Some m /\ product_id m = pid)
    \/ (exists r,
          r ∈ invoice_items (db w) ++ sales_order_items (db w)
              ++ purchase_order_items (db w)
          /\ item_product_id (item r) = Some pid)) ->
   (fst (Catalog.deleteProduct pid w) = Err foreign_key_violation
    \/ fst (Catalog.deleteProduct pid w) = Err request_failed)
   /\ db (snd (Catalog.deleteProduct pid w)) = db w)
  /\ (fst (Catalog.deleteProduct pid w) = Ok tt ->
      db (snd (Catalog.deleteProduct pid w))
      = set_products (delete pid (products (db w))) (db w)
      /\ (forall id m,
            stock_movements (db w) !! id = Some m ->
            is_Some (products (db w) !! product_id m) ->
            is_Some (products (db (snd (Catalog.deleteProduct pid w))) !! product_id m))).
Proof.
  rewrite deleteProduct_run. cbv zeta. split.
  - intros [p Hp] Href.
    assert (Catalog.product_referenced pid (db w) = true) as Hreferenced.
    { destruct Href as [(id & m & Hm & Hpid)|(r & Hr & Hpid)].
      - by apply (movement_makes_referenced pid (db w) id m).
      - by apply (line_makes_referenced pid (db w) r). }
    destruct (refuses (head (script w))); [by split; [right|]|].
    unfold Catalog.delete_product. rewrite Hp, Hreferenced. by split; [left|].
  - destruct (refuses (head (script w))); [done|].
    unfold Catalog.delete_product.
    destruct (products (db w) !! pid) as [p|] eqn:Hp.
    + destruct (Catalog.product_referenced pid (db w)) eqn:Hreferenced; [done|].
      intros _. simpl. split; [done|].
      intros id m Hm Hexists. rewrite lookup_delete_ne; [done|].
      intros Heq.
      by rewrite (movement_makes_referenced pid (db w) id m Hm (eq_sym Heq)) in Hreferenced.
    + intros _. simpl. split.
      * rewrite delete_id by done. by destruct (db w).
      * done.
Qed.

Lemma product_delete_guarded_witness :
  (fst (Catalog.deleteProduct "p1"
          (snd (StockLedger.createStockMovement Sample.adjustment_50_35
                  (Sample.world_of []))))
   = Err foreign_key_violation
   \/ fst (Catalog.deleteProduct "p1"
             (snd (StockLedger.createStockMovement Sample.adjustment_50_35
                     (Sample.world_of []))))
      = Err request_failed)
  /\ db (snd (Catalog.deleteProduct "p1"
                (snd (StockLedger.createStockMovement Sample.adjustment_50_35
                        (Sample.world_of [])))))
     = db (snd (StockLedger.createStockMovement Sample.adjustment_50_35
                  (Sample.world_of []))).
Proof.
  apply (proj1 (product_delete_guarded
                  (snd (StockLedger.createStockMovement Sample.adjustment_50_35
                          (Sample.world_of []))) "p1")).
  - by eexists.
  - left. exists "0", (StockLedger.payload_of (Sample.world_of []) Sample.adjustment_50_35).
    by vm_compute.
Defined.

(** ** Ids that no row has, and the edit form of the ledger *)

Section edge_facts.
Import Sql StockLedger CustomerRollup Documents Lifecycle.

Lemma updateStockMovement_run id updates w :
  updateStockMovement id updates w
  = let s1 := tail (script w) in
    let s2 := tail s1 in
    if refuses (head (script w)) then
      (Err request_failed, World (db w) (session_user w) (clock w) s1)
    else
      match update_stock_movement id updates (db w) with
      | Err e => (Err e, World (db w) (session_user w) (clock w) s1)
      | Ok (_, d1) => (Ok tt, World d1 (session_user w) (clock w) s2)
      end.
Proof.
  unfold updateStockMovement, try_catch, fetchStockMovements, try_catch.
  unfold mbind, io_bind. rewrite request_run.
  destruct (refuses (head (script w))); [done|].
  destruct (update_stock_movement _ _ _) as [[[] d1]|e]; [|done].
  cbn [or_throw mret io_ret]. rewrite request_run.
  cbn [script db session_user clock]. unfold select_stock_movements.
  by destruct (refuses _).
Qed.

Lemma deleteStockMovement_run id w :
  deleteStockMovement id w
  = let s1 := tail (script w) in
    let s2 := tail s1 in
    if refuses (head (script w)) then
      (Err request_failed, World (db w) (session_user w) (clock w) s1)
    else
      (Ok tt, World (set_stock_movements (delete id (stock_movements (db w))) (db w))
                (session_user w) (clock w) s2).
Proof.
  unfold deleteStockMovement, try_catch, fetchStockMovements, try_catch.
  unfold mbind, io_bind. rewrite request_run.
  destruct (refuses (head (script w))); [done|].
  unfold delete_stock_movement. cbn [or_throw mret io_ret]. rewrite request_run.
  cbn [script db session_user clock]. unfold select_stock_movements.
  by destruct (refuses _).
Qed.

Lemma update_stock_movement_shape id updates d u d1 :
  update_stock_movement id updates d = Ok (u, d1) ->
  d1 = d
  \/ exists old, stock_movements d !! id = Some old
       /\ d1 = set_stock_movements (<[id := updates old]> (stock_movements d)) d.
Proof.
  unfold update_stock_movement.
  destruct (stock_movements d !! id) as [old|]; [|intros [= <- <-]; by left].
  destruct (negb _); [done|]. destruct (negb _); [done|].
  intros [= <- <-]. right. by exists old.
Qed.

Lemma updateInvoice_unknown id changes items w :
  refuses (head (script w)) = false ->
  invoices (db w) !! id = None ->
  updateInvoice id changes items w
  = (Err no_rows_returned,
     World (db w) (session_user w) (clock w) (tail (script w))).
Proof.
  intros Href Hnone. unfold updateInvoice, try_catch, mbind, io_bind.
  rewrite request_run, Href.
  unfold update_invoice_single, update_invoice. by rewrite Hnone.
Qed.

End edge_facts.

(** X16. What the hooks do with an id that no row has, when the request is
    served: [updateStockMovement], [deleteStockMovement] and
    [deletePurchaseOrder] return normally and leave the database as it
    was, while [updateInvoice], which reads the updated row back with
    [.single()], throws and leaves the database as it was. *)
Theorem unknown_id_outcomes (w : world) (id : uuid) :
  refuses (head (script w)) = false ->
  (stock_movements (db w) !! id = None ->
   (forall updates,
      fst (StockLedger.updateStockMovement id updates w) = Ok tt
      /\ db (snd (StockLedger.updateStockMovement id updates w)) = db w)
   /\ fst (StockLedger.deleteStockMovement id w) = Ok tt
   /\ db (snd (StockLedger.deleteStockMovement id w)) = db w)
  /\ (purchase_orders (db w) !! id = None ->
      fst (Lifecycle.deletePurchaseOrder id w) = Ok tt
      /\ db (snd (Lifecycle.deletePurchaseOrder id w)) = db w)
  /\ (invoices (db w) !! id = None ->
      forall changes items,
        fst (Documents.updateInvoice id changes items w) = Err no_rows_returned
        /\ db (snd (Documents.updateInvoice id changes items w)) = db w).
Proof.
  intros Href. split; [|split].
  - intros Hnone. split; [|split].
    + intros updates. rewrite updateStockMovement_run. cbv zeta. rewrite Href.
      unfold StockLedger.update_stock_movement. by rewrite Hnone.
    + rewrite deleteStockMovement_run. cbv zeta. by rewrite Href.
    + rewrite deleteStockMovement_run. cbv zeta. rewrite Href. simpl.
      rewrite delete_id by done. by destruct (db w).
  - intros Hnone. rewrite deletePurchaseOrder_run. cbv zeta. rewrite Href.
    unfold Lifecycle.delete_purchase_order. by rewrite Hnone.
  - intros Hnone changes items. by rewrite updateInvoice_unknown.
Qed.

Lemma unknown_id_outcomes_witness :
  fst (Documents.updateInvoice "i9" Sample.mark_invoice_sent None (Sample.world_of []))
  = Err no_rows_returned
  /\ db (snd (Documents.updateInvoice "i9" Sample.mark_invoice_sent None
                (Sample.world_of [])))
     = db (Sample.world_of []).
Proof.
  apply (proj2 (proj2 (unknown_id_outcomes (Sample.world_of []) "i9" eq_refl))).
  by vm_compute.
Defined.

(** X17. The edit form of the ledger changes nothing but a movement's
    reason: [onSubmit] of [EditStockMovementModal] always returns, the
    products are as they were, no movement is added or removed, and the
    movement that was edited keeps its product, its type, its quantity
    change and its stock before and after. *)
Theorem movement_edit_keeps_quantities
    (movement : option uuid) (data : option string) (w : world) :
  fst (MovementForms.onSubmit movement data w) = Ok tt
  /\ products (db (snd (MovementForms.onSubmit movement data w))) = products (db w)
  /\ forall id,
       match stock_movements (db w) !! id,
             stock_movements (db (snd (MovementForms.onSubmit movement data w))) !! id
       with
       | Some old, Some new =>
           product_id new = product_id old
           /\ movement_type_of new = movement_type_of old
           /\ quantity_change new = quantity_change old
           /\ stock_before new = stock_before old
           /\ stock_after new = stock_after old
           /\ (new = old \/ (movement = Some id /\ reason new = data))
       | None, None => True
       | _, _ => False
       end.
Proof.
  destruct movement as [mid|]; simpl.
  2: { split; [done|]. split; [done|]. intros id.
       destruct (stock_movements (db w) !! id); [|done]. repeat split. by left. }
  unfold try_catch. rewrite updateStockMovement_run. cbv zeta.
  assert (forall id, match stock_movements (db w) !! id, stock_movements (db w) !! id with
                     | Some old, Some new =>
                         product_id new = product_id old
                         /\ movement_type_of new = movement_type_of old
                         /\ quantity_change new = quantity_change old
                         /\ stock_before new = stock_before old
                         /\ stock_after new = stock_after old
                         /\ (new = old \/ (Some mid = Some id /\ reason new = data))
                     | None, None => True
                     | _, _ => False
                     end) as Hsame.
  { intros id. destruct (stock_movements (db w) !! id); [|done].
    repeat split. by left. }
  destruct (refuses (head (script w))); [done|].
  destruct (StockLedger.update_stock_movement _ _ _) as [[u d1]|e] eqn:Hupd; [|done].
  simpl. split; [done|].
  apply update_stock_movement_shape in Hupd as [->|(old & Hold & ->)]; [done|].
  simpl. split; [done|]. intros id.
  destruct (decide (id = mid)) as [->|Hne].
  - rewrite Hold, lookup_insert_eq.
    destruct data as [why|]; simpl; repeat split; [by right|by left].
  - rewrite lookup_insert_ne by done. apply Hsame.
Qed.

(** X18. The trigger recomputes the totals from the invoices, whatever the
    customer's row held: after the insert of an invoice its customer's
    cached totals are those of the customer's invoices, after an update
    those of the updated row's customer are, and after a delete those of
    the deleted row's customer are, with no assumption on the totals
    cached before. *)
Theorem rollup_recomputes_from_invoices :
  (forall i d r d',
     CustomerRollup.insert_invoice i d = Ok (r, d') ->
     CustomerRollup.consistent (customer_id i) d')
  /\ (forall id changes d new d',
        CustomerRollup.update_invoice id changes d = Ok (Some new, d') ->
        CustomerRollup.consistent (customer_id new) d')
  /\ (forall id d old r d',
        invoices d !! id = Some old ->
        CustomerRollup.delete_invoice id d = Ok (r, d') ->
        CustomerRollup.consistent (customer_id old) d').
Proof.
  split; [|split].
  - intros i d r d'. unfold CustomerRollup.insert_invoice.
    destruct (CustomerRollup.check_invoice _ _ _); [|done]. rewrite bind_Ok.
    rewrite update_customer_totals_run. cbn [CustomerRollup.touched].
    destruct (CustomerRollup.recompute_totals _ _) as [d1|] eqn:Hrec; [|done].
    intros [= <- <-]. by apply recompute_totals_Ok in Hrec as (_ & ? & _).
  - intros id changes d new d'. unfold CustomerRollup.update_invoice.
    destruct (invoices d !! id) as [old|]; [|done].
    destruct (CustomerRollup.check_invoice _ _ _); [|done]. rewrite bind_Ok.
    rewrite update_customer_totals_run. cbn [CustomerRollup.touched].
    destruct (CustomerRollup.recompute_totals _ _) as [d1|] eqn:Hrec; [|done].
    intros [= <- <-]. by apply recompute_totals_Ok in Hrec as (_ & ? & _).
  - intros id d old r d' Hold. unfold CustomerRollup.delete_invoice. rewrite Hold.
    rewrite update_customer_totals_run. cbn [CustomerRollup.touched].
    destruct (CustomerRollup.recompute_totals _ _) as [d1|] eqn:Hrec; [|done].
    intros [= <- <-]. by apply recompute_totals_Ok in Hrec as (_ & ? & _).
Qed.

(** ** Settings and report figures *)

Section settings_facts.
Import AppSettings.

Lemma decode_encode v : decode (encode v) = v.
Proof. by destruct v as [s|[]|]. Qed.

Lemma saved_setting_fetched st new k v :
  new !! k = Some v ->
  settings (fetchSettings served (saveAllSettings served new st)) !! k = Some v.
Proof.
  intros Hk. simpl. apply lookup_union_Some_l.
  rewrite lookup_fmap. erewrite lookup_union_Some_l; [|by rewrite lookup_fmap, Hk].
  simpl. by rewrite decode_encode.
Qed.

End settings_facts.

(** X19. Settings survive a save and a reload.  The conversion of a row
    undoes the conversion to a row, for strings, booleans and null; after
    [saveAllSettings] and then [fetchSettings], both served, every key of
    the saved object has the saved value, and the object in state is the
    saved object when the table had no other key; after [updateSetting]
    and then [fetchSettings] the key has the value given. *)
Theorem settings_round_trip :
  (forall v, AppSettings.decode (AppSettings.encode v) = v)
  /\ (forall st new k v,
        new !! k = Some v ->
        AppSettings.settings
          (AppSettings.fetchSettings served (AppSettings.saveAllSettings served new st))
        !! k = Some v)
  /\ (forall st new,
        dom (AppSettings.app_settings st) ⊆ dom new ->
        AppSettings.settings
          (AppSettings.fetchSettings served (AppSettings.saveAllSettings served new st))
        = new)
  /\ (forall st key value,
        AppSettings.settings
          (AppSettings.fetchSettings served
             (AppSettings.updateSetting served key value st))
        !! key = Some value).
Proof.
  split; [exact decode_encode|]. split; [exact saved_setting_fetched|]. split.
  - intros st new Hdom. apply map_eq. intros k.
    destruct (new !! k) as [v|] eqn:Hk; [by apply saved_setting_fetched|].
    simpl. apply lookup_union_None. split; [|done].
    rewrite lookup_fmap. apply fmap_None, lookup_union_None.
    split; [by rewrite lookup_fmap, Hk|].
    apply not_elem_of_dom. intros Hin. apply Hdom in Hin.
    by apply not_elem_of_dom in Hk.
  - intros st key value. simpl. apply lookup_union_Some_l.
    rewrite lookup_fmap, lookup_insert_eq. simpl. by rewrite decode_encode.
Qed.

Section report_facts.
Import Reports.

Lemma filter_none {A} (f : A -> bool) (l : list A) :
  (forall x, f x = false) -> List.filter f l = [].
Proof. intros Hf. induction l as [|x l IH]; [done|]. simpl. by rewrite Hf. Qed.

Lemma length_four_classes {A} (f1 f2 f3 f4 : A -> bool) (l : list A) :
  (forall x, (Nat.b2n (f1 x) + Nat.b2n (f2 x) + Nat.b2n (f3 x) + Nat.b2n (f4 x) = 1)%nat) ->
  length l
  = (length (List.filter f1 l) + length (List.filter f2 l)
     + length (List.filter f3 l) + length (List.filter f4 l))%nat.
Proof.
  intros Hone. induction l as [|x l IH]; [done|].
  specialize (Hone x). cbn [List.filter].
  destruct (f1 x), (f2 x), (f3 x), (f4 x); cbn [Nat.b2n length] in *; lia.
Qed.

Lemma no_order_is_completed s :
  bool_decide (po_status_text s = "completed") = false.
Proof. by destruct s. Qed.

End report_facts.

(** X20. The inventory report counts each active product in at most one of
    its two classes: the products split into the low-stock ones (stock
    above 0 and at most the threshold, 10 standing in for a threshold
    that is NULL or 0), the out-of-stock ones (stock 0, or NULL), those
    with stock above 0 and above the threshold, and those with negative
    stock, which the report counts in neither class. *)
Theorem inventory_counts_partition (products : list Reports.product_row) :
  Reports.total_products (Reports.generateInventoryData (Some products))
  = (Reports.low_stock_items (Reports.generateInventoryData (Some products))
     + Reports.out_of_stock_items (Reports.generateInventoryData (Some products))
     + length (List.filter
                 (fun p => (0 <? Reports.stock_number p)%Z
                           && (Reports.threshold_number p <? Reports.stock_number p)%Z)
                 products)
     + length (List.filter (fun p => (Reports.stock_number p <? 0)%Z) products))%nat.
Proof.
  cbn [Reports.generateInventoryData Reports.total_products Reports.low_stock_items
         Reports.out_of_stock_items].
  apply length_four_classes. intros p.
  unfold Reports.is_low_stock, Reports.is_out_of_stock.
  destruct (Z.leb_spec (Reports.stock_number p) (Reports.threshold_number p)),
    (Z.ltb_spec 0 (Reports.stock_number p)),
    (Z.eqb_spec (Reports.stock_number p) 0),
    (Z.ltb_spec (Reports.threshold_number p) (Reports.stock_number p)),
    (Z.ltb_spec (Reports.stock_number p) 0); simpl; lia.
Qed.

(** X21. The financial report never shows an expense: it sums the purchase
    orders whose status is 'completed', a status the table's CHECK
    constraint does not admit, so for every content of the two tables,
    every period and however the two requests fare, the total expenses
    are 0 and the net profit is the total revenue minus 0. *)
Theorem report_expenses_always_zero
    (invoicesTable : list invoice)
    (purchaseOrdersTable : list Reports.purchase_order_row)
    (invoicesRequest purchaseOrdersRequest : outcome) (startDate endDate : date) :
  Reports.total_expenses
    (Reports.generateFinancialData invoicesTable purchaseOrdersTable
       invoicesRequest purchaseOrdersRequest startDate endDate) = 0%float
  /\ Reports.net_profit
       (Reports.generateFinancialData invoicesTable purchaseOrdersTable
          invoicesRequest purchaseOrdersRequest startDate endDate)
     = (Reports.total_revenue
          (Reports.generateFinancialData invoicesTable purchaseOrdersTable
             invoicesRequest purchaseOrdersRequest startDate endDate) - 0)%float.
Proof.
  assert (Reports.completed_orders_between startDate endDate purchaseOrdersTable = [])
    as Hnone.
  { apply filter_none. intros po. by rewrite no_order_is_completed, andb_false_r. }
  unfold Reports.generateFinancialData. cbv zeta. rewrite Hnone.
  by destruct purchaseOrdersRequest.
Qed.

(** ** The ledger's balance, and order updates whose delete is served *)

Section balance_facts.
Import Sql StockLedger Documents LedgerBalance.

Lemma movements_of_fresh pid id m (d : database) :
  stock_movements d !! id = None ->
  movements_of pid (set_stock_movements (<[id := m]> (stock_movements d)) d)
  ≡ₚ (if decide (product_id m = pid) then [m] else []) ++ movements_of pid d.
Proof.
  intros Hid. unfold movements_of. simpl.
  rewrite (map_to_list_insert (stock_movements d) id m Hid). simpl.
  destruct (decide (product_id m = pid)).
  - by rewrite filter_cons_True.
  - by rewrite filter_cons_False.
Qed.

Lemma sum_perm (l1 l2 : list Z) : l1 ≡ₚ l2 -> foldr Z.add 0 l1 = foldr Z.add 0 l2.
Proof.
  apply (foldr_permutation_proper (=)); [solve_proper|]. intros a1 a2 b. lia.
Qed.

Lemma net_change_fresh pid id m (d d' : database) :
  stock_movements d !! id = None ->
  stock_movements d' = <[id := m]> (stock_movements d) ->
  net_change pid d'
  = (if decide (product_id m = pid) then quantity_change m else 0) + net_change pid d.
Proof.
  intros Hid Hd'. unfold net_change.
  assert (movements_of pid d'
          ≡ₚ (if decide (product_id m = pid) then [m] else []) ++ movements_of pid d)
    as Hperm.
  { rewrite <-(movements_of_fresh pid id m d Hid). unfold movements_of. simpl.
    by rewrite Hd'. }
  rewrite (sum_perm _ _ (fmap_Permutation quantity_change _ _ Hperm)).
  by destruct (decide (product_id m = pid)).
Qed.

(** [updateSalesOrder] and [updatePurchaseOrder] when the delete is
    served. *)
Lemma updateSalesOrder_delete_served w id changes items :
  refuses (head (tail (script w))) = false ->
  fst (updateSalesOrder id changes (Some items) w) = Ok tt ->
  items_of id (sales_order_items (db (snd (updateSalesOrder id changes (Some items) w))))
  = items.
Proof.
  intros H2. unfold updateSalesOrder, fetchSalesOrders, try_catch, mbind, io_bind.
  rewrite request_run. destruct (refuses (head (script w))); [done|].
  destruct (update_sales_order id changes (db w)) as [[[] d1]|e]; [|done].
  cbn [or_throw mret io_ret]. rewrite request_run. cbn [script db session_user clock].
  rewrite H2. unfold delete_sales_order_items.
  destruct (0 <? length items)%nat eqn:Hlen.
  2: { assert (items = []) as -> by (by destruct items).
       cbn [mret io_ret]. rewrite request_run. cbn [script db session_user clock].
       destruct (refuses (head (tail (tail (script w))))); intros _; simpl;
         apply items_of_deleted. }
  - rewrite request_run. cbn [script db session_user clock].
    destruct (refuses (head (tail (tail (script w))))); [done|].
    destruct (insert_sales_order_items _ _) as [[u d3]|e] eqn:Hins; [|done].
    cbn [or_throw mret io_ret]. rewrite request_run. cbn [script db session_user clock].
    apply insert_sales_order_items_Ok in Hins. simpl in Hins.
    destruct (refuses (head (tail (tail (tail (script w)))))); intros _; simpl;
      rewrite Hins; by rewrite items_of_app, items_of_deleted, items_of_own.
Qed.

Lemma updatePurchaseOrder_delete_served w id changes items :
  refuses (head (tail (script w))) = false ->
  fst (updatePurchaseOrder id changes (Some items) w) = Ok tt ->
  items_of id
    (purchase_order_items (db (snd (updatePurchaseOrder id changes (Some items) w))))
  = items.
Proof.
  intros H2. unfold updatePurchaseOrder, fetchPurchaseOrders, try_catch, mbind, io_bind.
  rewrite request_run. destruct (refuses (head (script w))); [done|].
  destruct (update_purchase_order id changes (db w)) as [[[] d1]|e]; [|done].
  cbn [or_throw mret io_ret]. rewrite request_run. cbn [script db session_user clock].
  rewrite H2. unfold delete_purchase_order_items.
  destruct (0 <? length items)%nat eqn:Hlen.
  2: { assert (items = []) as -> by (by destruct items).
       cbn [mret io_ret]. rewrite request_run. cbn [script db session_user clock].
       destruct (refuses (head (tail (tail (script w))))); intros _; simpl;
         apply items_of_deleted. }
  - rewrite request_run. cbn [script db session_user clock].
    destruct (refuses (head (tail (tail (script w))))); [done|].
    destruct (insert_purchase_order_items _ _) as [[u d3]|e] eqn:Hins; [|done].
    cbn [or_throw mret io_ret]. rewrite request_run. cbn [script db session_user clock].
    apply insert_purchase_order_items_Ok in Hins. simpl in Hins.
    destruct (refuses (head (tail (tail (tail (script w)))))); intros _; simpl;
      rewrite Hins; by rewrite items_of_app, items_of_deleted, items_of_own.
Qed.

End balance_facts.

(** X22. Adjustments made from the product's current stock keep the ledger
    in balance: if a product's stock is [base] plus the sum of the quantity
    changes recorded for it, and [createStockAdjustment] is called with
    that stock as the current stock and returns, then the product's stock
    is the new stock and is again [base] plus the sum of the recorded
    quantity changes; the sums of the other products are as they were. *)
Theorem adjustments_keep_ledger_balance
    (w w' : world) (pid : uuid) (productName : string) (productSku : option string)
    (c n base : Z) (why : string) :
  LedgerBalance.stock_of pid (db w) = Some c ->
  c = base + LedgerBalance.net_change pid (db w) ->
  StockLedger.createStockAdjustment pid productName productSku c n why w = (Ok tt, w') ->
  LedgerBalance.stock_of pid (db w') = Some n
  /\ n = base + LedgerBalance.net_change pid (db w')
  /\ forall pid', pid' <> pid ->
       LedgerBalance.net_change pid' (db w') = LedgerBalance.net_change pid' (db w)
       /\ LedgerBalance.stock_of pid' (db w') = LedgerBalance.stock_of pid' (db w).
Proof.
  intros Hstock Hbase H.
  unfold StockLedger.createStockAdjustment, mbind, io_bind, now in H.
  destruct (StockLedger.createStockMovement _ w) as [[[id stored]|e] w1] eqn:Hrun;
    [|done].
  injection H as <-.
  apply createStockMovement_Ok in Hrun as (-> & Hfresh & Hmov & [p Hp] & Hprod).
  simpl in Hprod, Hp. split; [|split].
  - unfold LedgerBalance.stock_of. by rewrite Hprod, lookup_alter_eq, Hp.
  - rewrite (net_change_fresh pid id _ (db w) (db w1) Hfresh Hmov). simpl.
    rewrite decide_True by done. lia.
  - intros pid' Hne. split.
    + rewrite (net_change_fresh pid' id _ (db w) (db w1) Hfresh Hmov). simpl.
      by rewrite decide_False by done.
    + unfold LedgerBalance.stock_of. by rewrite Hprod, lookup_alter_ne.
Qed.

Lemma adjustments_keep_ledger_balance_witness :
  LedgerBalance.stock_of "p1"
    (db (snd (StockLedger.createStockAdjustment "p1" "Widget" (Some "W-1") 50 35
                "recount" (Sample.world_of []))))
  = Some 35.
Proof.
  apply (adjustments_keep_ledger_balance (Sample.world_of [])
           (snd (StockLedger.createStockAdjustment "p1" "Widget" (Some "W-1") 50 35
                   "recount" (Sample.world_of [])))
           "p1" "Widget" (Some "W-1") 50 35 50 "recount"); by vm_compute.
Defined.

(** X23. When their delete of the existing lines is served, the order
    updates replace the lines: if [updateSalesOrder] or
    [updatePurchaseOrder], given an item list, returns and its second
    request was served, the order's lines are exactly the supplied ones. *)
Theorem order_update_replaces_lines_when_delete_served :
  (forall w id changes items,
     refuses (head (tail (script w))) = false ->
     fst (Documents.updateSalesOrder id changes (Some items) w) = Ok tt ->
     items_of id
       (sales_order_items (db (snd (Documents.updateSalesOrder id changes (Some items) w))))
     = items)
  /\ (forall w id changes items,
        refuses (head (tail (script w))) = false ->
        fst (Documents.updatePurchaseOrder id changes (Some items) w) = Ok tt ->
        items_of id
          (purchase_order_items
             (db (snd (Documents.updatePurchaseOrder id changes (Some items) w))))
        = items).
Proof.
  split; [exact updateSalesOrder_delete_served|exact updatePurchaseOrder_delete_served].
Qed.

Lemma order_update_replaces_lines_when_delete_served_witness :
  items_of "po1"
    (purchase_order_items
       (db (snd (Documents.updatePurchaseOrder "po1" Sample.mark_sent
                   (Some Sample.two_lines) (Sample.world_of [])))))
  = Sample.two_lines.
Proof.
  apply (proj2 order_update_replaces_lines_when_delete_served (Sample.world_of []) "po1"
           Sample.mark_sent Sample.two_lines); by vm_compute.
Defined.
